(** * Skill metadata extraction and identity derivation

    A shallow embedding of the skill scraper:
    - [scripts/fetching/parsers.py]: [SkillParser.parse_from_file],
      [SkillParser.create_entity_key], [SkillParser._parse_metadata];
    - [scripts/utils/fetcher.py]: [Fetcher.clone_and_scan_repository],
      [Fetcher._parse_skill_md], [Fetcher.fetch_skills_from_marketplace],
      the response cache, [Fetcher.fetch_json] and
      [Fetcher.fetch_skill_repos_from_source];
    - [scripts/models.py]: [Skill], [Skill.from_dict], [Skill.to_dict],
      [SkillSource.from_dict];
    - [scripts/utils/validators.py]: [Validator];
    - [scripts/fetching/repository.py]: [GitRepository._get_default_branch]
      and [GitRepository.clone].

    Conventions of the embedding.
    - Text is [string]; a character is an [ascii].  The character classes
      of Python ([str.isspace], the [\w] and [\s] of [re], [lower], [upper])
      are given on 7-bit ASCII; every other character is neither space nor
      word character and has no case.
    - A Python [dict] with string keys is a [gmap string _].
    - [yaml.safe_load] (PyYAML), the file system, [git], the network, the
      clock and the MD5 digest are not code of this repository: they are
      the variables of the sections below.
    - An exception is an explicit [Raises] outcome. *)

From Stdlib Require Import Ascii String ZArith NArith Bool Lia.
From stdpp Require Import gmap strings list fin_maps.

Set Warnings "-register-all".

(** ** Python string operations *)

Module PyStr.

Definition code (c : ascii) : N := N_of_ascii c.

Definition in_range (lo hi : N) (c : ascii) : bool :=
  ((lo <=? code c) && (code c <=? hi))%N.

(** [str.isspace] on ASCII: TAB, LF, VT, FF, CR, FS, GS, RS, US, SPACE. *)
Definition is_space (c : ascii) : bool :=
  in_range 9 13 c || in_range 28 32 c.

(** A word character of [re]: letter, digit or underscore. *)
Definition is_word (c : ascii) : bool :=
  in_range 48 57 c || in_range 65 90 c || in_range 97 122 c
  || Ascii.eqb c "_".

Definition lower_char (c : ascii) : ascii :=
  if in_range 65 90 c then ascii_of_N (code c + 32) else c.

Definition upper_char (c : ascii) : ascii :=
  if in_range 97 122 c then ascii_of_N (code c - 32) else c.

Fixpoint map_chars (f : ascii → ascii) (s : string) : string :=
  match s with
  | EmptyString => EmptyString
  | String c r => String (f c) (map_chars f r)
  end.

Fixpoint filter_chars (p : ascii → bool) (s : string) : string :=
  match s with
  | EmptyString => EmptyString
  | String c r => if p c then String c (filter_chars p r) else filter_chars p r
  end.

(** [s.lower()] *)
Definition lower (s : string) : string := map_chars lower_char s.

Definition is_empty (s : string) : bool :=
  match s with EmptyString => true | _ => false end.

(** [s.startswith(p)] *)
Definition startswith (p s : string) : bool := String.prefix p s.

Fixpoint drop (n : nat) (s : string) : string :=
  match n, s with
  | S k, String _ r => drop k r
  | _, _ => s
  end.

Fixpoint last_char (s : string) : option ascii :=
  match s with
  | EmptyString => None
  | String c EmptyString => Some c
  | String _ r => last_char r
  end.

Fixpoint drop_last (s : string) : string :=
  match s with
  | EmptyString => EmptyString
  | String _ EmptyString => EmptyString
  | String c r => String c (drop_last r)
  end.

(** [s.endswith(c)] for a one-character suffix. *)
Definition endswith_char (c : ascii) (s : string) : bool :=
  match last_char s with Some d => Ascii.eqb c d | None => false end.

Fixpoint lstrip_by (p : ascii → bool) (s : string) : string :=
  match s with
  | EmptyString => EmptyString
  | String c r => if p c then lstrip_by p r else s
  end.

Fixpoint rstrip_by (p : ascii → bool) (s : string) : string :=
  match s with
  | EmptyString => EmptyString
  | String c r =>
      let r' := rstrip_by p r in
      if is_empty r' && p c then EmptyString else String c r'
  end.

Definition strip_by (p : ascii → bool) (s : string) : string :=
  rstrip_by p (lstrip_by p s).

(** [s.strip()] *)
Definition strip (s : string) : string := strip_by is_space s.

(** [s.strip(c)] for a one-character argument. *)
Definition strip_char (c : ascii) (s : string) : string :=
  strip_by (Ascii.eqb c) s.

(** [sep.join(l)] *)
Fixpoint join (sep : string) (l : list string) : string :=
  match l with
  | [] => ""
  | [x] => x
  | x :: r => x +:+ sep +:+ join sep r
  end.

(** The first occurrence of [sep] in [s]: the text before it and the text
    after it. *)
Fixpoint cut (sep s : string) : option (string * string) :=
  if String.prefix sep s then Some ("", drop (String.length sep) s)
  else match s with
       | EmptyString => None
       | String c r =>
           match cut sep r with
           | Some (a, b) => Some (String c a, b)
           | None => None
           end
       end.

(** [sub in s] *)
Definition contains (sub s : string) : bool :=
  match cut sub s with Some _ => true | None => false end.

(** [s.split(sep, n)] for a non-empty [sep]. *)
Fixpoint split_max (sep : string) (n : nat) (s : string) : list string :=
  match n with
  | O => [s]
  | S k =>
      match cut sep s with
      | Some (a, b) => a :: split_max sep k b
      | None => [s]
      end
  end.

(** [s.split(sep)] for a non-empty [sep]: there are at most
    [String.length s] separators. *)
Definition split (sep : string) (s : string) : list string :=
  split_max sep (String.length s) s.

(** [s.replace(a, b)] for one-character [a] and [b]. *)
Definition replace_char (a b : ascii) (s : string) : string :=
  map_chars (fun c => if Ascii.eqb c a then b else c) s.

Fixpoint has_char (c : ascii) (s : string) : bool :=
  match s with
  | EmptyString => false
  | String d r => Ascii.eqb c d || has_char c r
  end.

End PyStr.

Import PyStr.

Definition nl : string := String "010"%char "".
Definition dquote : string := String "034"%char "".
Definition squote : string := "'".
Definition backslash : ascii := "092"%char.

(** A text given line by line. *)
Definition text_of (lines : list string) : string := join nl lines.

(** ** Values, exceptions and outcomes *)

(** The values [yaml.safe_load] builds: [None], [bool], [int], [str],
    [list] and [dict] (string keys).  Floats, dates and binary scalars are
    left out; none of the four fields read below is compared to one. *)
Inductive yaml : Type :=
| YNull
| YBool (b : bool)
| YInt (z : Z)
| YStr (s : string)
| YSeq (l : list yaml)
| YMap (m : gmap string yaml).

(** Python truth value: [bool(v)]. *)
Definition truthy (v : yaml) : bool :=
  match v with
  | YNull => false
  | YBool b => b
  | YInt z => negb (z =? 0)%Z
  | YStr s => negb (is_empty s)
  | YSeq l => match l with [] => false | _ :: _ => true end
  | YMap m => negb (Nat.eqb (size m) 0)
  end.

(** [v == s] for a string [s]: only an equal [str] is equal to a [str]. *)
Definition eq_str (v : yaml) (s : string) : bool :=
  match v with YStr t => String.eqb t s | _ => false end.

Definition str_list (l : list string) : yaml := YSeq (YStr <$> l).

Inductive exn : Type :=
| YAMLError      (* yaml.YAMLError and its subclasses *)
| OSError        (* open and read failures *)
| UnicodeError   (* the file is not UTF-8 *)
| OtherError.    (* any other subclass of Exception *)

Inductive outcome (A : Type) : Type :=
| Returns (a : A)
| Raises (e : exn).
Arguments Returns {A} a.
Arguments Raises {A} e.

(** [d.get(k)] and [d.get(k, default)] *)
Definition get (d : gmap string yaml) (k : string) : yaml :=
  default YNull (d !! k).
Definition get_or (d : gmap string yaml) (k : string) (dflt : yaml) : yaml :=
  default dflt (d !! k).

(** ** Pure paths ([pathlib.PurePosixPath]) *)

Module PyPath.

(** A path is its anchor (is it absolute?) and its components; pathlib
    drops empty and [.] components when it parses a string. *)
Record path : Type := Path { anchored : bool; parts : list string }.

Definition eqb (p q : path) : bool :=
  Bool.eqb (anchored p) (anchored q) && bool_decide (parts p = parts q).

(** [Path(s)] *)
Definition of_string (s : string) : path :=
  Path (startswith "/" s)
       (filter (λ c, c ≠ "" ∧ c ≠ ".") (split "/" s)).

(** [p.name] *)
Definition name (p : path) : string := List.last (parts p) "".

(** [p.parent] *)
Definition parent (p : path) : path :=
  Path (anchored p) (removelast (parts p)).

(** [p.parents], nearest first. *)
Fixpoint parents_of (anchor : bool) (rev_parts : list string) : list path :=
  match rev_parts with
  | [] => []
  | _ :: r => Path anchor (rev r) :: parents_of anchor r
  end.
Definition parents (p : path) : list path :=
  parents_of (anchored p) (rev (parts p)).

(** [seq[-k]] for [k >= 1]; [None] stands for [IndexError]. *)
Definition index_from_end {A} (l : list A) (k : nat) : option A :=
  if decide (1 ≤ k ≤ length l) then l !! (length l - k) else None.

(** [p / q] *)
Definition join_path (p q : path) : path :=
  if anchored q then q else Path (anchored p) (parts p ++ parts q).

(** [p / name] for one literal component. *)
Definition child (p : path) (n : string) : path :=
  Path (anchored p) (parts p ++ [n]).

Fixpoint strip_prefix (base l : list string) : option (list string) :=
  match base, l with
  | [], _ => Some l
  | b :: base', x :: l' =>
      if String.eqb b x then strip_prefix base' l' else None
  | _ :: _, [] => None
  end.

(** [p.relative_to(base)]; [None] stands for [ValueError]. *)
Definition relative_to (p base : path) : option path :=
  if Bool.eqb (anchored p) (anchored base) then
    Path false <$> strip_prefix (parts base) (parts p)
  else None.

(** [str(p)] *)
Definition to_string (p : path) : string :=
  if anchored p then "/" +:+ join "/" (parts p)
  else match parts p with
       | [] => "."
       | _ => join "/" (parts p)
       end.

End PyPath.
Import PyPath.

(** ** [SkillParser._parse_metadata] (parsers.py, lines 108-213) *)

Definition default_meta : gmap string yaml :=
  {[ "name" := YStr ""; "description" := YStr "";
     "category" := YStr "Uncategorized"; "tags" := YSeq [] ]}.

(** *** The repair pass (lines 126-171) *)

(** [re.search(r'\w+\[[^\]]+\]', s)]: some word character is followed by
    an opening bracket, at least one character other than a closing
    bracket, and later a closing bracket. *)
Fixpoint re_nested_item (s : string) : bool :=
  match s with
  | EmptyString => false
  | String w r =>
      (is_word w &&
       match r with
       | String "[" (String c r') =>
           negb (Ascii.eqb c "]") && has_char "]" (String c r')
       | _ => false
       end)
      || re_nested_item r
  end.

(** The state of the loop of lines 140-153. *)
Record tokenizer : Type :=
  Tokenizer { items : list string; current_item : string; bracket_depth : Z }.

Definition push_char (st : tokenizer) (char : ascii) : tokenizer :=
  Tokenizer (items st) (current_item st +:+ String char "") (bracket_depth st).

Definition tokenizer_step (st : tokenizer) (char : ascii) : tokenizer :=
  if Ascii.eqb char "[" then
    push_char (Tokenizer (items st) (current_item st) (bracket_depth st + 1)) char
  else if Ascii.eqb char "]" then
    push_char (Tokenizer (items st) (current_item st) (bracket_depth st - 1)) char
  else if Ascii.eqb char "," && (bracket_depth st =? 0)%Z then
    Tokenizer (items st ++ [strip (current_item st)]) "" (bracket_depth st)
  else push_char st char.

Fixpoint tokenizer_run (st : tokenizer) (s : string) : tokenizer :=
  match s with
  | EmptyString => st
  | String char r => tokenizer_run (tokenizer_step st char) r
  end.

(** Lines 140-155: the items of the flow sequence [val], split at the
    commas of bracket depth 0; [val[1:-1]] drops the outer brackets. *)
Definition flow_items (val : string) : list string :=
  let st := tokenizer_run (Tokenizer [] "" 0) (drop_last (drop 1 val)) in
  if is_empty (strip (current_item st)) then items st
  else items st ++ [strip (current_item st)].

Definition is_quoted (s : string) : bool :=
  startswith dquote s || startswith squote s.

(** Lines 158-163. *)
Definition quote_item (item : string) : string :=
  if has_char "[" item && negb (is_quoted item)
  then dquote +:+ item +:+ dquote else item.

(** Lines 134-167, on the stripped value of a [key: value] line. *)
Definition fix_value (val : string) : string :=
  if startswith "[" val && endswith_char "]" val then
    if re_nested_item val
    then "[" +:+ join ", " (quote_item <$> flow_items val) +:+ "]"
    else val
  else if contains ":" val && negb (is_quoted val)
  then dquote +:+ val +:+ dquote
  else val.

(** Lines 129-171, one line: [':' in line] is [cut] finding a colon, and
    [line.split(':', 1)] is the pair it returns. *)
Definition fix_line (line : string) : string :=
  match cut ":" line with
  | Some (key, val) =>
      if negb (startswith "#" (strip line))
      then key +:+ ": " +:+ fix_value (strip val)
      else line
  | None => line
  end.

Definition fixed_lines (frontmatter_str : string) : list string :=
  fix_line <$> split nl frontmatter_str.

(** *** The heuristic scans (lines 182-208) *)

(** Lines 184-189: the text of the first level-1 header. *)
Fixpoint first_header (lines : list string) : option string :=
  match lines with
  | [] => None
  | l :: r =>
      let line := strip l in
      if startswith "# " line then Some (strip (drop 2 line))
      else first_header r
  end.

(** Lines 197-205, with [name] the value of [meta.get("name")]. *)
Fixpoint description_lines (name : yaml) (in_description : bool)
    (lines : list string) : list string :=
  match lines with
  | [] => []
  | l :: r =>
      let line := strip l in
      if startswith "# " line && truthy name && eq_str name (strip (drop 2 line))
      then description_lines name true r
      else if startswith "#" line && in_description then []
      else if in_description && negb (is_empty line)
      then line :: description_lines name in_description r
      else description_lines name in_description r
  end.

Definition heuristic_name (meta : gmap string yaml) (content : string)
    : gmap string yaml :=
  if truthy (get meta "name") then meta
  else match first_header (split nl content) with
       | Some n => <["name" := YStr n]> meta
       | None => meta
       end.

Definition heuristic_description (meta : gmap string yaml) (content : string)
    : gmap string yaml :=
  if truthy (get meta "description") then meta
  else match description_lines (get meta "name") false (split nl content) with
       | [] => meta
       | ls => <["description" := YStr (strip (join " " ls))]> meta
       end.

Section Extractor.

(** [yaml.safe_load], from PyYAML. *)
Variable safe_load : string → outcome yaml.

(** Lines 122-173: the strict parse, and on [yaml.YAMLError] the parse of
    the repaired block. *)
Definition load_frontmatter (frontmatter_str : string) : outcome yaml :=
  match safe_load frontmatter_str with
  | Raises YAMLError => safe_load (join nl (fixed_lines frontmatter_str))
  | r => r
  end.

(** Lines 117-180: the metadata and the content left for the scans.  Any
    exception of the block is caught at line 179. *)
Definition read_frontmatter (meta : gmap string yaml) (content : string)
    : gmap string yaml * string :=
  if startswith "---" content then
    match split_max "---" 2 content with
    | _ :: frontmatter_str :: rest :: _ =>
        match load_frontmatter frontmatter_str with
        | Returns (YMap frontmatter) =>
            if truthy (YMap frontmatter)
            then (frontmatter ∪ meta, rest)
            else (meta, content)
        | Returns _ => (meta, content)
        | Raises _ => (meta, content)
        end
    | _ => (meta, content)
    end
  else (meta, content).

(** Lines 116-208 on the text read from the file. *)
Definition extract (content : string) : gmap string yaml :=
  let '(meta, content) := read_frontmatter default_meta content in
  let meta := heuristic_name meta content in
  heuristic_description meta content.

(** The whole function: [file] is the outcome of opening and reading
    the file as UTF-8; an exception is caught at line 210. *)
Definition _parse_metadata (file : outcome string) : outcome (gmap string yaml) :=
  match file with
  | Returns content => Returns (extract content)
  | Raises _ => Returns default_meta
  end.

End Extractor.

(** ** Records *)

(** [Skill] (models.py).  The four extracted fields hold whatever value
    the metadata mapping holds for them. *)
Record Skill : Type := mkSkill {
  skill_id : string;
  skill_name : yaml;
  skill_description : yaml;
  skill_category : yaml;
  skill_tags : yaml;
  marketplace_id : string;
  repo_owner : string;
  repo_name : string;
  repo_branch : string;
  directory : string;
  readme_url : string
}.

(** [RepoConfig]: the fields [parse_from_file] reads. *)
Record RepoConfig : Type := mkRepoConfig {
  cfg_owner : string;
  cfg_name : string;
  cfg_branch : string;
  cfg_path : option string
}.

(** Truth value of an optional string. *)
Definition truthy_opt (o : option string) : bool :=
  match o with Some s => negb (is_empty s) | None => false end.

(** [SkillParser.create_entity_key] (lines 104-106). *)
Definition create_entity_key (repo_config : RepoConfig) (entity_name : string)
    : string :=
  cfg_owner repo_config +:+ "/" +:+ cfg_name repo_config +:+ ":" +:+ entity_name.

Definition github_tree_url (owner repo branch rel : string) : string :=
  "https://github.com/" +:+ owner +:+ "/" +:+ repo +:+ "/tree/" +:+ branch
  +:+ "/" +:+ rel.

(** ** [SkillParser.parse_from_file] (parsers.py, lines 18-98) *)

Section Builder.

Variable safe_load : string → outcome yaml.
(** [p.exists()] *)
Variable fs_exists : path → bool.
(** Opening and reading a file as UTF-8 text. *)
Variable read_text : path → outcome string.

(** Lines 40-55.  [parents[-2]] is read as Python 3.10 and later do. *)
Definition find_repo_root (skill_dir : path) : path :=
  if fs_exists (child skill_dir ".git") then skill_dir
  else match List.find (λ p, fs_exists (child p ".git")) (parents skill_dir) with
       | Some p => p
       | None =>
           match index_from_end (parents skill_dir) 2 with
           | Some p => p
           | None => parent skill_dir
           end
       end.

(** Lines 57-61. *)
Definition repo_relative_path (skill_dir repo_root : path) : string :=
  match relative_to skill_dir repo_root with
  | Some r => to_string r
  | None => name skill_dir
  end.

(** Lines 63-74. *)
Definition source_directory (repo_config : RepoConfig)
    (skill_dir repo_root : path) : string :=
  if truthy_opt (cfg_path repo_config) then
    let skills_path := of_string (default "" (cfg_path repo_config)) in
    match relative_to skill_dir (join_path repo_root skills_path) with
    | Some r => to_string r
    | None => repo_relative_path skill_dir repo_root
    end
  else repo_relative_path skill_dir repo_root.

(** Lines 76-81. *)
Definition key_directory (repo_config : RepoConfig)
    (skill_dir repo_root : path) : string :=
  if PyPath.eqb skill_dir repo_root then
    if is_empty (cfg_name repo_config) then "." else cfg_name repo_config
  else name skill_dir.

Definition parse_from_file (file_path : path) (repo_config : RepoConfig)
    : outcome (option Skill) :=
  if negb (String.eqb (name file_path) "SKILL.md") then Returns None
  else
    let skill_dir := parent file_path in
    if startswith "cam_" (name skill_dir) then Returns None
    else
      match _parse_metadata safe_load (read_text file_path) with
      | Raises e => Raises e
      | Returns meta =>
          let repo_root := find_repo_root skill_dir in
          let directory := key_directory repo_config skill_dir repo_root in
          Returns (Some {|
            skill_id := create_entity_key repo_config directory;
            skill_name := get_or meta "name" (YStr directory);
            skill_description := get_or meta "description" (YStr "");
            skill_category := get_or meta "category" (YStr "Uncategorized");
            skill_tags := get_or meta "tags" (YSeq []);
            marketplace_id := cfg_owner repo_config +:+ "/" +:+ cfg_name repo_config;
            repo_owner := cfg_owner repo_config;
            repo_name := cfg_name repo_config;
            repo_branch := cfg_branch repo_config;
            directory := directory;
            readme_url :=
              github_tree_url (cfg_owner repo_config) (cfg_name repo_config)
                (cfg_branch repo_config) (repo_relative_path skill_dir repo_root)
          |})
      end.

End Builder.

(** ** [Fetcher._parse_skill_md] (fetcher.py, lines 205-300) *)

Definition mentions_category (s : string) : bool :=
  contains "category:" s || contains "categories:" s.

(** Lines 250-258: the value after the first colon of a marker line. *)
Definition clean_category_value (v : string) : string :=
  let c := strip (strip_char "*" (strip v)) in
  let c := strip (strip_char "'" (strip_char "034" c)) in
  let c := strip (hd "" (split "#" c)) in
  let c := strip (hd "" (split "//" c)) in
  strip (hd "" (split ";" c)).

(** Lines 246-259: the first line with a category marker decides. *)
Fixpoint category_of_lines (lines : list string) : option string :=
  match lines with
  | [] => None
  | line :: r =>
      if mentions_category (strip (lower line)) then
        match split_max ":" 1 line with
        | _ :: v :: _ => Some (clean_category_value v)
        | _ => category_of_lines r
        end
      else category_of_lines r
  end.

(** Lines 264-269: the first line with an emphasised marker. *)
Fixpoint bold_category_of_lines (lines : list string) : option string :=
  match lines with
  | [] => None
  | line :: r =>
      if contains "**category:**" (lower line)
         || contains "**categories:**" (lower line) then
        match split_max ":" 1 line with
        | _ :: v :: _ => Some (strip (strip_char "*" (strip v)))
        | _ => bold_category_of_lines r
        end
      else bold_category_of_lines r
  end.

(** [re.sub(r'[^\w\s-]', '', s)] *)
Definition keep_word_space_hyphen (s : string) : string :=
  filter_chars (λ c, is_word c || is_space c || Ascii.eqb c "-") s.

(** [s[0].upper() + s[1:]] *)
Definition capitalize_first (s : string) : string :=
  match s with
  | EmptyString => EmptyString
  | String c r => String (upper_char c) r
  end.

(** Lines 240-280: the value stored under ["category"]. *)
Definition extract_category (content : string) (lines : list string) : string :=
  let category :=
    if mentions_category (lower content) then category_of_lines lines else None in
  let category :=
    if truthy_opt category then category else
      match bold_category_of_lines lines with
      | Some c => Some c
      | None => category
      end in
  let category :=
    if truthy_opt category then
      let c := strip (keep_word_space_hyphen (default "" category)) in
      Some (if is_empty c then c else capitalize_first c)
    else category in
  if truthy_opt category then default "" category else "Uncategorized".

(** Lines 283-292: the items of every tag line, in order. *)
Fixpoint extract_tags (lines : list string) : list string :=
  match lines with
  | [] => []
  | line :: r =>
      let line_lower := strip (lower line) in
      if contains "tags:" line_lower || contains "tag:" line_lower then
        match split_max ":" 1 line with
        | _ :: v :: _ =>
            ((λ tag, strip (strip_char "*" (strip tag))) <$> split "," (strip v))
            ++ extract_tags r
        | _ => extract_tags r
        end
      else extract_tags r
  end.

(** Lines 211-296 on the text read from the file. *)
Definition skill_md_data (content : string) : gmap string yaml :=
  let lines := split nl content in
  let skill_data : gmap string yaml := ∅ in
  let skill_data :=
    match first_header lines with
    | Some n => <["name" := YStr n]> skill_data
    | None => skill_data
    end in
  let skill_data :=
    match description_lines (get skill_data "name") false lines with
    | [] => skill_data
    | ls => <["description" := YStr (strip (join " " ls))]> skill_data
    end in
  let skill_data :=
    <["category" := YStr (extract_category content lines)]> skill_data in
  match extract_tags lines with
  | [] => skill_data
  | tags => <["tags" := str_list tags]> skill_data
  end.

(** The whole function: an exception is caught at line 298 and [None]
    is returned. *)
Definition _parse_skill_md (file : outcome string)
    : outcome (option (gmap string yaml)) :=
  match file with
  | Returns content => Returns (Some (skill_md_data content))
  | Raises _ => Returns None
  end.

(** ** [Fetcher.clone_and_scan_repository] (fetcher.py, lines 117-203) *)

Section ScanDriver.

(** The temporary directory, and [subprocess.run] of [git clone] with the
    branch, the URL and the target directory: its return code, or the
    exception it raises. *)
Variable temp_path : path.
Variable git_clone : string → string → path → outcome Z.
Variable fs_exists : path → bool.
Variable fs_is_dir : path → bool.
(** [d.rglob(pattern)], in the order the file system lists the matches. *)
Variable fs_rglob : path → string → list path.
Variable read_text : path → outcome string.

(** Lines 164-165: the key's directory part; [None] stands for the
    [ValueError] of [relative_to]. *)
Definition scan_source_directory (skill_dir scan_dir : path) : option string :=
  (λ rel_path, replace_char backslash "/" (to_string rel_path))
    <$> relative_to skill_dir scan_dir.

(** Lines 153-195: one turn of the loop; [None] when the file adds no
    entry. *)
Definition scan_entry (repo_owner repo_name repo_branch : string)
    (repo_path scan_dir skill_md_path : path) : option Skill :=
  let skill_dir := parent skill_md_path in
  if negb (fs_is_dir skill_dir) then None
  else
    match _parse_skill_md (read_text skill_md_path) with
    | Raises _ => None
    | Returns None => None
    | Returns (Some skill_data) =>
        if negb (truthy (YMap skill_data)) then None
        else
          match scan_source_directory skill_dir scan_dir with
          | None => None
          | Some source_directory =>
              let directory :=
                if String.eqb source_directory "." then
                  if negb (PyPath.eqb skill_dir scan_dir)
                  then name skill_dir else repo_name
                else name skill_dir in
              match relative_to skill_dir repo_path with
              | None => None
              | Some path_from_repo_root =>
                  let readme_path :=
                    replace_char backslash "/" (to_string path_from_repo_root) in
                  Some {|
                    skill_id :=
                      repo_owner +:+ "/" +:+ repo_name +:+ ":" +:+ source_directory;
                    skill_name := get_or skill_data "name" (YStr directory);
                    skill_description := get_or skill_data "description" (YStr "");
                    skill_category :=
                      get_or skill_data "category" (YStr "Uncategorized");
                    skill_tags := get_or skill_data "tags" (YSeq []);
                    marketplace_id := repo_owner +:+ "/" +:+ repo_name;
                    repo_owner := repo_owner;
                    repo_name := repo_name;
                    repo_branch := repo_branch;
                    directory := directory;
                    readme_url :=
                      github_tree_url repo_owner repo_name repo_branch readme_path
                  |}
              end
          end
    end.

(** Lines 143-149: the directory to scan; [None] when the configured
    sub-path does not exist. *)
Definition scan_directory (repo_path : path) (skills_path : option string)
    : option path :=
  if truthy_opt skills_path then
    let scan_dir :=
      join_path repo_path (of_string (strip_char "/" (default "" skills_path))) in
    if negb (fs_exists scan_dir) then None else Some scan_dir
  else Some repo_path.

Definition clone_and_scan_repository (repo_owner repo_name repo_branch : string)
    (skills_path : option string) : list Skill :=
  let repo_url :=
    "https://github.com/" +:+ repo_owner +:+ "/" +:+ repo_name +:+ ".git" in
  match git_clone repo_branch repo_url (child temp_path "repo") with
  | Raises _ => []
  | Returns returncode =>
      if negb (returncode =? 0)%Z then []
      else
        let repo_path := child temp_path "repo" in
        match scan_directory repo_path skills_path with
        | None => []
        | Some scan_dir =>
            omap (scan_entry repo_owner repo_name repo_branch repo_path scan_dir)
                 (fs_rglob scan_dir "SKILL.md")
        end
  end.

End ScanDriver.

(** ** The records of [models.py] *)

Module Models.

(** [Skill] as a dataclass: no field is checked against its annotation,
    so every field holds a value; [None] is [YNull]. *)
Record Skill : Type := mkSkill {
  id : yaml;
  name : yaml;
  description : yaml;
  category : yaml;
  marketplace_id : yaml;
  repo_owner : yaml;
  repo_name : yaml;
  repo_branch : yaml;
  directory : yaml;
  readme_url : yaml;
  tags : yaml
}.

(** [Skill.from_dict] (lines 43-58). *)
Definition from_dict (data : gmap string yaml) : Skill :=
  {| id := get_or data "id" (YStr "");
     name := get_or data "name" (YStr "");
     description := get_or data "description" (YStr "");
     category := get data "category";
     marketplace_id := get data "marketplace_id";
     repo_owner := get data "repo_owner";
     repo_name := get data "repo_name";
     repo_branch := get_or data "repo_branch" (YStr "main");
     directory := get data "directory";
     readme_url := get data "readme_url";
     tags := get_or data "tags" (YSeq []) |}.

(** [if value: data[key] = value] *)
Definition set_if_true (key : string) (value : yaml)
    (data : gmap string yaml) : gmap string yaml :=
  if truthy value then <[key := value]> data else data.

(** [Skill.to_dict] (lines 60-83). *)
Definition to_dict (self : Skill) : gmap string yaml :=
  let data : gmap string yaml :=
    {[ "id" := id self; "name" := name self;
       "description" := description self ]} in
  let data := set_if_true "category" (category self) data in
  let data := set_if_true "marketplace_id" (marketplace_id self) data in
  let data := set_if_true "repo_owner" (repo_owner self) data in
  let data := set_if_true "repo_name" (repo_name self) data in
  let data := set_if_true "repo_branch" (repo_branch self) data in
  let data := set_if_true "directory" (directory self) data in
  let data := set_if_true "readme_url" (readme_url self) data in
  set_if_true "tags" (tags self) data.

(** [SkillSource] and [SkillSource.from_dict] (lines 6-26). *)
Record SkillSource : Type := mkSkillSource {
  source_id : yaml;
  url : yaml;
  format : yaml;
  enabled : yaml;
  priority : yaml;
  timeout : yaml
}.

Definition source_from_dict (data : gmap string yaml) : SkillSource :=
  {| source_id := get_or data "id" (YStr "");
     url := get_or data "url" (YStr "");
     format := get_or data "format" (YStr "json");
     enabled := get_or data "enabled" (YBool true);
     priority := get_or data "priority" (YInt 999);
     timeout := get_or data "timeout" (YInt 30) |}.

End Models.

(** The [Skill] the builder and the scan driver construct, as the
    dataclass of [models.py]. *)
Definition as_model (s : Skill) : Models.Skill :=
  {| Models.id := YStr (skill_id s);
     Models.name := skill_name s;
     Models.description := skill_description s;
     Models.category := skill_category s;
     Models.marketplace_id := YStr (marketplace_id s);
     Models.repo_owner := YStr (repo_owner s);
     Models.repo_name := YStr (repo_name s);
     Models.repo_branch := YStr (repo_branch s);
     Models.directory := YStr (directory s);
     Models.readme_url := YStr (readme_url s);
     Models.tags := skill_tags s |}.

(** ** [Validator] (validators.py) *)

(** [validate_json_data] (lines 14-20). *)
Definition validate_json_data (data : yaml) : bool :=
  match data with YMap _ => true | _ => false end.

Definition required_fields : list string :=
  ["id"; "name"; "repoOwner"; "repoName"].

(** [validate_marketplace_data] (lines 22-30): the loop returns [False] at
    the first required field that is no key of the record. *)
Fixpoint has_fields {V} (fields : list string) (data : gmap string V) : bool :=
  match fields with
  | [] => true
  | field :: r =>
      if bool_decide (is_Some (data !! field)) then has_fields r data else false
  end.

Definition validate_marketplace_data {V} (marketplace_data : gmap string V)
    : bool :=
  has_fields required_fields marketplace_data.

(** ** [Fetcher.fetch_skills_from_marketplace] (fetcher.py, lines 302-314) *)

Section Marketplace.

Variable temp_path : path.
Variable git_clone : string → string → path → outcome Z.
Variable fs_exists : path → bool.
Variable fs_is_dir : path → bool.
Variable fs_rglob : path → string → list path.
Variable read_text : path → outcome string.

(** A marketplace record with string fields, as the annotations of
    [clone_and_scan_repository] have its arguments. *)
Definition fetch_skills_from_marketplace (marketplace_data : gmap string string)
    : list Skill :=
  let repo_owner := marketplace_data !! "repoOwner" in
  let repo_name := marketplace_data !! "repoName" in
  let repo_branch := default "main" (marketplace_data !! "repoBranch") in
  if negb (truthy_opt repo_owner) || negb (truthy_opt repo_name) then []
  else
    clone_and_scan_repository temp_path git_clone fs_exists fs_is_dir fs_rglob
      read_text (default "" repo_owner) (default "" repo_name) repo_branch None.

End Marketplace.

(** ** The response cache and [Fetcher.fetch_json] (fetcher.py, lines 30-93) *)

(** What [session.get], [raise_for_status] and [response.json] come to:
    the decoded body, one of the two exceptions [fetch_json] catches, or
    another exception. *)
Inductive response : Type :=
| Json (data : yaml)
| RequestException
| JSONDecodeError
| Crash (e : exn).

(** A cache entry: the value under ['data'] and, when the key is there,
    the value under ['timestamp']. *)
Record cache_entry (time : Type) : Type :=
  CacheEntry { entry_data : yaml; entry_timestamp : option time }.
Arguments CacheEntry {time} _ _.
Arguments entry_data {time} _.
Arguments entry_timestamp {time} _.

Section Cache.

(** The readings of [time.time()], and the float comparison
    [(now - timestamp) < ttl] of line 38. *)
Variable time : Type.
Variable elapsed_lt : time → time → Z → bool.
(** [hashlib.md5(url.encode()).hexdigest()] *)
Variable md5_hex : string → string.
Variable cache_ttl : Z.
Variable http_get : string → response.

Definition _get_cache_key (url : string) : string := md5_hex url.

Definition _is_cache_valid (entry : cache_entry time) (now : time) : bool :=
  match entry_timestamp entry with
  | None => false
  | Some timestamp => elapsed_lt now timestamp cache_ttl
  end.

(** Lines 40-51: the cached value or [None], and the cache left. *)
Definition _get_cached_data (cache : gmap string (cache_entry time))
    (url : string) (now : time) : yaml * gmap string (cache_entry time) :=
  let cache_key := _get_cache_key url in
  match cache !! cache_key with
  | Some entry =>
      if _is_cache_valid entry now then (entry_data entry, cache)
      else (YNull, delete cache_key cache)
  | None => (YNull, cache)
  end.

(** Lines 53-59. *)
Definition _set_cached_data (cache : gmap string (cache_entry time))
    (url : string) (data : yaml) (now : time)
    : gmap string (cache_entry time) :=
  <[_get_cache_key url := CacheEntry data (Some now)]> cache.

Definition is_none (v : yaml) : bool :=
  match v with YNull => true | _ => false end.

(** Lines 61-93; [now] is the clock when the cache is consulted and
    [later] the clock when the response is stored.  [None] is [YNull]. *)
Definition fetch_json (cache : gmap string (cache_entry time)) (url : string)
    (now later : time) : outcome yaml * gmap string (cache_entry time) :=
  let '(cached_data, cache) := _get_cached_data cache url now in
  if negb (is_none cached_data) then (Returns cached_data, cache)
  else
    match http_get url with
    | Json data =>
        if negb (validate_json_data data) then (Returns YNull, cache)
        else (Returns data, _set_cached_data cache url data later)
    | RequestException => (Returns YNull, cache)
    | JSONDecodeError => (Returns YNull, cache)
    | Crash e => (Raises e, cache)
    end.

(** Lines 108-112 on one item of the mapping: a record is given its key
    as [id] and the URL as [source_url]; other values are passed over. *)
Definition annotate_repo (url repo_id : string) (repo_data : yaml) : yaml :=
  match repo_data with
  | YMap d => YMap (<["source_url" := YStr url]> (<["id" := YStr repo_id]> d))
  | _ => repo_data
  end.

Definition is_record (v : yaml) : bool :=
  match v with YMap _ => true | _ => false end.

(** [Fetcher.fetch_skill_repos_from_source] (lines 95-115).  The records
    are listed in the order of [map_to_list], which is not the insertion
    order of the Python dict.  The records are changed in place and the
    cache holds the same objects, so the cache entry is left with the
    annotated records. *)
Definition fetch_skill_repos_from_source
    (cache : gmap string (cache_entry time)) (source_config : gmap string yaml)
    (now later : time)
    : outcome (list yaml) * gmap string (cache_entry time) :=
  let url := get source_config "url" in
  if negb (truthy url) then (Returns [], cache)
  else
    match url with
    | YStr url =>
        match fetch_json cache url now later with
        | (Raises e, cache) => (Raises e, cache)
        | (Returns data, cache) =>
            if negb (truthy data) then (Returns [], cache)
            else
              match data with
              | YMap m =>
                  let repos :=
                    List.filter is_record
                      ((λ kv, annotate_repo url kv.1 kv.2) <$> map_to_list m) in
                  let annotated := YMap (map_imap (λ k v, Some (annotate_repo url k v)) m) in
                  (Returns repos,
                   alter (λ e, CacheEntry annotated (entry_timestamp e))
                         (_get_cache_key url) cache)
              | _ => (Raises OtherError, cache)
              end
        end
    | _ => (Raises OtherError, cache)
    end.

End Cache.

(** ** [GitRepository] (repository.py) *)

Definition BRANCH_FALLBACKS : list string :=
  ["main"; "master"; "develop"; "development"; "dev"; "trunk"].

Definition tab : string := String "009"%char "".
Definition ref_prefix : string := "ref: refs/heads/".

(** [s.replace(old, new)] for a non-empty [old]. *)
Definition str_replace (old new s : string) : string :=
  join new (split old s).

(** Lines 43-50: the first line of the output that starts with the
    prefix decides; [parts[0]] is the text before the first tab. *)
Fixpoint detect_branch (lines : list string) : option string :=
  match lines with
  | [] => None
  | line :: r =>
      if startswith ref_prefix line then
        match split tab line with
        | part :: _ => Some (strip (str_replace ref_prefix "" part))
        | [] => detect_branch r
        end
      else detect_branch r
  end.

(** [GitRepository._get_default_branch] (lines 32-54): [ls_remote] is what
    [subprocess.run] of [git ls-remote --symref] gives, the return code
    and the standard output, or the exception it raises. *)
Definition _get_default_branch (ls_remote : outcome (Z * string)) : string :=
  match ls_remote with
  | Returns (returncode, stdout) =>
      if (returncode =? 0)%Z
      then default "main" (detect_branch (split nl stdout))
      else "main"
  | Raises _ => "main"
  end.

(** One run of [git clone] with [check=True]. *)
Inductive clone_attempt : Type :=
| CloneSucceeded
| CalledProcessError
| CloneRaised (e : exn).

(** What [GitRepository.clone] hands to its caller. *)
Inductive clone_result : Type :=
| Yields (temp_dir : path) (actual_branch : string)
| RuntimeError
| Propagates (e : exn).

Section GitRepository.

(** [self.name], [self.branch]; the directory [tempfile.mkdtemp] works
    in and the random part of the name it makes; the branch
    [_get_default_branch] detects; [git clone] of a branch. *)
Variable repo_name : string.
Variable branch : option string.
Variable temp_root : path.
Variable temp_suffix : string.
Variable detected_branch : string.
Variable run_clone : string → clone_attempt.

(** Line 63. *)
Definition clone_temp_dir : path :=
  child temp_root ("cam_" +:+ repo_name +:+ "_" +:+ temp_suffix).

(** Lines 64-77. *)
Definition clone_actual_branch : string :=
  match branch with
  | None => detected_branch
  | Some b =>
      if String.eqb b "main" then
        if negb (String.eqb detected_branch "main") then detected_branch else b
      else b
  end.

(** Lines 80-84. *)
Definition branches_to_try (actual_branch : string) : list string :=
  actual_branch ::
  (if bool_decide (actual_branch ∈ BRANCH_FALLBACKS)
   then List.filter (λ b, negb (String.eqb b actual_branch)) BRANCH_FALLBACKS
   else []).

(** Lines 86-108: the loop over the branches; [last] is
    [branches_to_try[-1]]. *)
Fixpoint try_branches (last : string) (branches : list string) : clone_result :=
  match branches with
  | [] => RuntimeError
  | b :: r =>
      match run_clone b with
      | CloneSucceeded => Yields clone_temp_dir b
      | CalledProcessError =>
          if String.eqb b last then RuntimeError else try_branches last r
      | CloneRaised e => Propagates e
      end
  end.

(** [GitRepository.clone] (lines 56-114). *)
Definition clone : clone_result :=
  let branches := branches_to_try clone_actual_branch in
  try_branches (List.last branches "") branches.

End GitRepository.

(** ** Predicates used in the statements *)

(** Every character of a text passes a test. *)
Fixpoint chars_all (p : ascii → bool) (s : string) : bool :=
  match s with
  | EmptyString => true
  | String c r => p c && chars_all p r
  end.

(** The characters [re.sub(r'[^\w\s-]', '', s)] keeps. *)
Definition category_char (c : ascii) : bool :=
  is_word c || is_space c || Ascii.eqb c "-".

(** A text does not begin, or does not end, with a character of a class. *)
Definition no_lead (p : ascii → bool) (s : string) : bool :=
  match s with
  | EmptyString => true
  | String c _ => negb (p c)
  end.

Definition no_trail (p : ascii → bool) (s : string) : bool :=
  match last_char s with
  | None => true
  | Some c => negb (p c)
  end.

(** Lines 154-155 on the state the loop of the tokenizer ends in. *)
Definition finish (st : tokenizer) : list string :=
  if is_empty (strip (current_item st)) then items st
  else items st ++ [strip (current_item st)].

(** The fields [to_dict] writes only when they are true, with their
    keys. *)
Definition optional_fields (s : Models.Skill) : list (string * yaml) :=
  [ ("category", Models.category s);
    ("marketplace_id", Models.marketplace_id s);
    ("repo_owner", Models.repo_owner s);
    ("repo_name", Models.repo_name s);
    ("repo_branch", Models.repo_branch s);
    ("directory", Models.directory s);
    ("readme_url", Models.readme_url s);
    ("tags", Models.tags s) ].

(** What [from_dict] reads for a field that [to_dict] left out. *)
Definition or_else (v dflt : yaml) : yaml := if truthy v then v else dflt.

(** ** Instances for the examples *)

(** A loader for a flat fragment of YAML, to instantiate [safe_load] in
    examples: a document is empty (or comments only), one scalar or flow
    sequence on one line, or unindented [key: value] lines; a value is
    empty, a quoted string without escapes, a flow sequence of such
    scalars, or a plain word.  On this fragment it answers as PyYAML does;
    every other text is reported as [YAMLError]. *)
Module MiniYaml.

Fixpoint all_chars (p : ascii → bool) (s : string) : bool :=
  match s with
  | EmptyString => true
  | String c r => p c && all_chars p r
  end.

Definition is_letter (c : ascii) : bool :=
  in_range 65 90 c || in_range 97 122 c.

Definition reserved_words : list string :=
  ["null"; "true"; "false"; "yes"; "no"; "on"; "off"].

(** A plain scalar that resolves to a string. *)
Definition plain_word (s : string) : bool :=
  match s with
  | EmptyString => false
  | String c _ =>
      is_letter c
      && all_chars (λ d, is_word d || Ascii.eqb d " " || Ascii.eqb d "-"
                         || Ascii.eqb d "." || Ascii.eqb d "/") s
      && negb (bool_decide (lower s ∈ reserved_words))
  end.

Definition quoted (q : ascii) (v : string) : option yaml :=
  let inner := drop_last (drop 1 v) in
  if (2 <=? String.length v)%nat && endswith_char q v
     && negb (has_char q inner) && negb (has_char backslash inner)
  then Some (YStr inner) else None.

Definition scalar (v : string) : option yaml :=
  if is_empty v then Some YNull
  else if startswith dquote v then quoted "034" v
  else if startswith squote v then quoted "'" v
  else if bool_decide (v ∈ ["null"; "~"]) then Some YNull
  else if plain_word v then Some (YStr v)
  else None.

Definition flow_item (v : string) : option yaml :=
  if is_empty v then None else scalar v.

Definition value (v : string) : option yaml :=
  if startswith "[" v then
    if endswith_char "]" v then
      let inner := strip (drop_last (drop 1 v)) in
      if is_empty inner then Some (YSeq [])
      else YSeq <$> mapM (λ i, flow_item (strip i)) (split "," inner)
    else None
  else scalar v.

Definition entry (line : string) : option (string * yaml) :=
  match cut ":" line with
  | Some (key, rest) =>
      if plain_word key && (is_empty rest || startswith " " rest)
      then (λ v, (key, v)) <$> value (strip rest)
      else None
  | None => None
  end.

Definition is_content (line : string) : bool :=
  negb (is_empty (strip line)) && negb (startswith "#" (strip line)).

Definition safe_load (text : string) : outcome yaml :=
  let lines := List.filter is_content (split nl text) in
  match lines with
  | [] => Returns YNull
  | first :: others =>
      match mapM entry lines with
      | Some entries => Returns (YMap (list_to_map (reverse entries)))
      | None =>
          match others, value (strip first) with
          | [], Some v => Returns v
          | _, _ => Raises YAMLError
          end
      end
  end.

End MiniYaml.

(** A file system given by its text files: a directory exists when a
    file lies below it; matches are listed in the order of the files. *)
Module MemFS.

Definition fs : Type := list (path * string).

Definition below (d p : path) : bool :=
  match relative_to p d with
  | Some r => negb (bool_decide (parts r = []))
  | None => false
  end.

Definition is_file (files : fs) (p : path) : bool :=
  existsb (λ f, PyPath.eqb (fst f) p) files.
Definition is_dir (files : fs) (p : path) : bool :=
  existsb (λ f, below p (fst f)) files.
Definition exists_ (files : fs) (p : path) : bool :=
  is_file files p || is_dir files p.
Definition rglob (files : fs) (d : path) (pattern : string) : list path :=
  List.filter (λ p, below d p && String.eqb (name p) pattern) (fst <$> files).
Definition read_text (files : fs) (p : path) : outcome string :=
  match List.find (λ f, PyPath.eqb (fst f) p) files with
  | Some f => Returns (snd f)
  | None => Raises OSError
  end.
(** [git clone] succeeding. *)
Definition clone_ok (branch url : string) (target : path) : outcome Z :=
  Returns 0%Z.

End MemFS.

(** The frontmatter block of a text, and what follows it (lines 117-121). *)
Definition frontmatter_of (content : string) : option (string * string) :=
  if startswith "---" content then
    match split_max "---" 2 content with
    | _ :: frontmatter_str :: rest :: _ => Some (frontmatter_str, rest)
    | _ => None
    end
  else None.

(** ** Texts and checkouts of the examples *)

(** Texts used in the examples. *)
Definition full_frontmatter_text : string :=
  text_of ["---"; "name: Alpha"; "description: A small tool";
           "category: Tools"; "tags: [cli, build]"; "---";
           "# Some Title"; "Body text."; "Category: Other"].

Definition nested_tags_text : string :=
  text_of ["---"; "name: Ray helper"; "tags: [foo[bar], baz]"; "---";
           "# Ray"; "Body text."].

Definition comment_frontmatter_text : string :=
  text_of ["---"; "# Hidden Title"; "---"; "Body text."; "## Usage"; "more"].

(** The line of the claim and its repaired form. *)
Definition nested_tags_line : string := "tags: [foo[bar], baz]".
Definition repaired_tags_line : string :=
  "tags: [" +:+ dquote +:+ "foo[bar]" +:+ dquote +:+ ", baz]".

Definition broken_frontmatter_text : string :=
  text_of ["---"; "name: [unclosed"; "---"; "plain words"].

(** A checkout used in the examples, cloned under [/tmp/t]. *)
Definition demo_temp : path := of_string "/tmp/t".

Definition empty_category_text : string :=
  text_of ["---"; "name: Beta"; "category:"; "---"; "# Beta"; "Body text."].

Definition quoted_empty_category_text : string :=
  text_of ["---"; "category: " +:+ dquote +:+ dquote; "---"; "# Beta"].

Definition demo_files : MemFS.fs :=
  [ (of_string "/tmp/t/repo/.git/HEAD", "ref: refs/heads/main");
    (of_string "/tmp/t/repo/pkg-a/SKILL.md", full_frontmatter_text);
    (of_string "/tmp/t/repo/pkg-b/SKILL.md", empty_category_text);
    (of_string "/tmp/t/repo/tools/lint/SKILL.md", "plain words");
    (of_string "/tmp/t/repo/cam_cache/SKILL.md", full_frontmatter_text) ].

Definition demo_config : RepoConfig := mkRepoConfig "acme" "repo1" "main" None.

Definition demo_scan (skills_path : option string) : list Skill :=
  clone_and_scan_repository demo_temp MemFS.clone_ok
    (MemFS.exists_ demo_files) (MemFS.is_dir demo_files)
    (MemFS.rglob demo_files) (MemFS.read_text demo_files)
    "acme" "repo1" "main" skills_path.

Definition demo_parse (file : string) : outcome (option Skill) :=
  parse_from_file MiniYaml.safe_load (MemFS.exists_ demo_files)
    (MemFS.read_text demo_files) (of_string file) demo_config.

Definition bare_files : MemFS.fs :=
  [ (of_string "/srv/skills/tools/lint/SKILL.md", "plain words") ].

(** A checkout with a skill at its root. *)
Definition root_skill_files : MemFS.fs :=
  [ (of_string "/work/repo1/.git/HEAD", "ref: refs/heads/main");
    (of_string "/work/repo1/SKILL.md", "# Root Skill") ].

(** A checkout scanned below the sub-path [skills]. *)
Definition sub_path_files : MemFS.fs :=
  [ (of_string "/tmp/t/repo/skills/pdf/SKILL.md", "# PDF") ].

Definition sub_path_scan : list Skill :=
  clone_and_scan_repository demo_temp MemFS.clone_ok
    (MemFS.exists_ sub_path_files) (MemFS.is_dir sub_path_files)
    (MemFS.rglob sub_path_files) (MemFS.read_text sub_path_files)
    "acme" "repo1" "main" (Some "skills/").

(** A listing that names a file no one can read. *)
Definition listing_with_ghost (d : path) (pattern : string) : list path :=
  [ of_string "/tmp/t/repo/pkg-a/SKILL.md";
    of_string "/tmp/t/repo/ghost/SKILL.md";
    of_string "/tmp/t/repo/tools/lint/SKILL.md" ].

Definition listing_without_ghost (d : path) (pattern : string) : list path :=
  [ of_string "/tmp/t/repo/pkg-a/SKILL.md";
    of_string "/tmp/t/repo/tools/lint/SKILL.md" ].

(** Marketplace records. *)
Definition demo_marketplace : gmap string string :=
  {[ "id" := "acme-skills"; "name" := "Acme skills";
     "repoOwner" := "acme"; "repoName" := "repo1" ]}.

Definition empty_owner_marketplace : gmap string string :=
  {[ "id" := "acme-skills"; "name" := "Acme skills";
     "repoOwner" := ""; "repoName" := "repo1" ]}.

(** A clock in whole seconds and a stand-in for the digest, to run the
    cache in examples. *)
Definition seconds_elapsed_lt (now timestamp : Z) (ttl : Z) : bool :=
  (now - timestamp <? ttl)%Z.

Definition plain_key (url : string) : string := url.

Definition demo_source_data : gmap string yaml :=
  {[ "acme/repo1" := YMap {[ "repoOwner" := YStr "acme" ]};
     "version" := YInt 2 ]}.

Definition demo_source_url : string := "https://example.org/skills.json".

(** A frontmatter block with the line of the claim and a second line
    that no repair mends. *)
Definition second_broken_line_text : string :=
  text_of ["---"; "tags: [foo[bar], baz]"; "name: [unclosed"; "---"; "# Ray"].

(** A text without frontmatter and with two level-1 headers, in a
    checkout. *)
Definition two_headers_text : string :=
  text_of ["intro"; "# First"; "body"; "# Second"; "more"].

Definition two_headers_files : MemFS.fs :=
  [ (of_string "/work/repo1/.git/HEAD", "ref: refs/heads/main");
    (of_string "/work/repo1/notes/SKILL.md", two_headers_text) ].

(** * Properties *)

(** ** Paths *)

Example parents_abc :
  to_string <$> parents (of_string "/a/b/c") = ["/a/b"; "/a"; "/"].
Proof. vm_compute. reflexivity. Qed.
Example parents_neg2 :
  to_string <$> index_from_end (parents (of_string "/a/b/c")) 2 = Some "/a".
Proof. vm_compute. reflexivity. Qed.
Example rel1 : to_string <$> relative_to (of_string "/t/repo/x/y") (of_string "/t/repo") = Some "x/y".
Proof. vm_compute. reflexivity. Qed.
Example rel2 : to_string <$> relative_to (of_string "/t/repo") (of_string "/t/repo") = Some ".".
Proof. vm_compute. reflexivity. Qed.

Lemma path_eqb_refl p : PyPath.eqb p p = true.
Proof.
  unfold PyPath.eqb. rewrite Bool.eqb_reflx. simpl. by apply bool_decide_eq_true.
Qed.

Lemma strip_prefix_self l : strip_prefix l l = Some [].
Proof.
  induction l as [|x l IH]; [reflexivity|].
  simpl. by rewrite String.eqb_refl.
Qed.

(** A file at the scan root has the source directory [.]. *)
Lemma scan_source_directory_root scan_dir :
  scan_source_directory scan_dir scan_dir = Some ".".
Proof.
  unfold scan_source_directory, relative_to.
  rewrite Bool.eqb_reflx, strip_prefix_self. reflexivity.
Qed.

(** ** The metadata extractor of [SkillParser] *)

Lemma default_meta_name : default_meta !! "name" = Some (YStr "").
Proof. reflexivity. Qed.
Lemma default_meta_description : default_meta !! "description" = Some (YStr "").
Proof. reflexivity. Qed.
Lemma default_meta_category :
  default_meta !! "category" = Some (YStr "Uncategorized").
Proof. reflexivity. Qed.
Lemma default_meta_tags : default_meta !! "tags" = Some (YSeq []).
Proof. reflexivity. Qed.

Section ExtractorFacts.

Variable safe_load : string → outcome yaml.

(** The frontmatter is merged exactly when the block loads to a non-empty
    mapping; in every other case metadata and content are left alone. *)
Lemma read_frontmatter_merged meta content fm rest m :
  frontmatter_of content = Some (fm, rest) →
  load_frontmatter safe_load fm = Returns (YMap m) →
  truthy (YMap m) = true →
  read_frontmatter safe_load meta content = (m ∪ meta, rest).
Proof.
  unfold frontmatter_of, read_frontmatter.
  destruct (startswith "---" content); [|discriminate].
  destruct (split_max "---" 2 content) as [|x [|f [|r tl]]]; try discriminate.
  intros [= -> ->] -> ->. reflexivity.
Qed.

Lemma read_frontmatter_kept meta content :
  (∀ fm rest m, frontmatter_of content = Some (fm, rest) →
     load_frontmatter safe_load fm = Returns (YMap m) →
     truthy (YMap m) = false) →
  read_frontmatter safe_load meta content = (meta, content).
Proof.
  unfold frontmatter_of, read_frontmatter.
  destruct (startswith "---" content); [|reflexivity].
  destruct (split_max "---" 2 content) as [|x [|f [|r tl]]]; try reflexivity.
  intros H.
  destruct (load_frontmatter safe_load f) as [[| | | | |m]|e] eqn:E; try reflexivity.
  rewrite (H f r m eq_refl E). reflexivity.
Qed.

(** The scans write only the keys [name] and [description]. *)
Lemma heuristic_name_other meta content k :
  k ≠ "name" → heuristic_name meta content !! k = meta !! k.
Proof.
  intros Hk. unfold heuristic_name.
  destruct (truthy (get meta "name")); [reflexivity|].
  destruct (first_header (split nl content)); [|reflexivity].
  by rewrite lookup_insert_ne.
Qed.

Lemma heuristic_description_other meta content k :
  k ≠ "description" → heuristic_description meta content !! k = meta !! k.
Proof.
  intros Hk. unfold heuristic_description.
  destruct (truthy (get meta "description")); [reflexivity|].
  destruct (description_lines _ _ _); [reflexivity|].
  by rewrite lookup_insert_ne.
Qed.

(** A value that is already set and true is never overwritten. *)
Lemma heuristic_name_set meta content v :
  meta !! "name" = Some v → truthy v = true →
  heuristic_name meta content = meta.
Proof.
  intros H Ht. unfold heuristic_name, get. rewrite H. simpl. by rewrite Ht.
Qed.


(** From the defaults, the name is the first header, or stays empty. *)
Lemma heuristic_name_default content :
  heuristic_name default_meta content !! "name"
  = Some (YStr (default "" (first_header (split nl content)))).
Proof.
  unfold heuristic_name.
  change (truthy (get default_meta "name")) with false. cbv iota.
  destruct (first_header (split nl content)); simpl.
  - by rewrite lookup_insert_eq.
  - reflexivity.
Qed.

Lemma heuristic_description_default meta content :
  meta !! "description" = Some (YStr "") →
  heuristic_description meta content !! "description"
  = Some (YStr (strip (join " "
      (description_lines (get meta "name") false (split nl content))))).
Proof.
  intros H. unfold heuristic_description.
  unfold get at 1. rewrite H. simpl.
  destruct (description_lines _ _ _) eqn:E.
  - by rewrite H.
  - by rewrite lookup_insert_eq.
Qed.

(** Every key of the metadata before the scans is still a key after. *)
Lemma extract_keeps_keys content k :
  is_Some (default_meta !! k) → is_Some (extract safe_load content !! k).
Proof.
  intros Hk. unfold extract.
  assert (∀ m c, is_Some (m !! k) →
    is_Some (heuristic_description (heuristic_name m c) c !! k)) as Hscan.
  { intros m c Hm. unfold heuristic_description, heuristic_name.
    repeat case_match; rewrite ?lookup_insert; repeat case_decide; eauto. }
  destruct (read_frontmatter safe_load default_meta content) as [meta c] eqn:E.
  apply Hscan.
  unfold read_frontmatter in E.
  repeat case_match; simplify_eq; try done.
  destruct Hk as [x Hx]. rewrite lookup_union, Hx.
  match goal with |- context [?fm !! k] => destruct (fm !! k) end;
    eexists; reflexivity.
Qed.

End ExtractorFacts.

Lemma truthy_map_lookup (m : gmap string yaml) k v :
  m !! k = Some v → truthy (YMap m) = true.
Proof.
  intros H. simpl. apply negb_true_iff, Nat.eqb_neq.
  intros Hs. apply map_size_empty_iff in Hs. subst m.
  by rewrite lookup_empty in H.
Qed.



(** C10: when the content begins with the triple dash and the frontmatter
    block loads to a value that is not a mapping, the defaults are kept
    and the content is not cut: the name and description scans read the
    whole original content, frontmatter lines included, and category and
    tags keep their defaults. *)
Theorem C10_non_mapping_frontmatter
    (safe_load : string → outcome yaml) (content fm rest : string) (v : yaml) :
  frontmatter_of content = Some (fm, rest) →
  load_frontmatter safe_load fm = Returns v →
  (∀ m, v ≠ YMap m) →
  let header := default "" (first_header (split nl content)) in
  let meta := extract safe_load content in
  read_frontmatter safe_load default_meta content = (default_meta, content)
  ∧ meta = heuristic_description (heuristic_name default_meta content) content
  ∧ meta !! "name" = Some (YStr header)
  ∧ meta !! "description"
    = Some (YStr (strip (join " "
        (description_lines (YStr header) false (split nl content)))))
  ∧ meta !! "category" = Some (YStr "Uncategorized")
  ∧ meta !! "tags" = Some (YSeq []).
Proof.
  intros Hfm Hload Hv header meta.
  assert (read_frontmatter safe_load default_meta content
          = (default_meta, content)) as Hkept.
  { apply read_frontmatter_kept. intros fm' rest' m Hfm' Hload'.
    rewrite Hfm in Hfm'. injection Hfm' as <- <-.
    rewrite Hload in Hload'. injection Hload' as ->. by destruct (Hv m). }
  assert (meta = heuristic_description (heuristic_name default_meta content)
                   content) as Hmeta.
  { unfold meta, extract. by rewrite Hkept. }
  pose proof (heuristic_name_default content) as Hname.
  split; [exact Hkept|]. split; [exact Hmeta|]. rewrite Hmeta.
  split; [|split; [|split]].
  - by rewrite heuristic_description_other.
  - rewrite heuristic_description_default.
    + unfold get. by rewrite Hname.
    + by rewrite heuristic_name_other.
  - by rewrite heuristic_description_other, heuristic_name_other.
  - by rewrite heuristic_description_other, heuristic_name_other.
Qed.

Lemma C10_non_mapping_frontmatter_witness :
  let meta := extract MiniYaml.safe_load comment_frontmatter_text in
  meta !! "name" = Some (YStr "Hidden Title")
  ∧ meta !! "description" = Some (YStr "--- Body text.")
  ∧ meta !! "category" = Some (YStr "Uncategorized")
  ∧ meta !! "tags" = Some (YSeq []).
Proof.
  destruct (C10_non_mapping_frontmatter MiniYaml.safe_load
              comment_frontmatter_text
              (nl +:+ "# Hidden Title" +:+ nl)
              (text_of [""; "Body text."; "## Usage"; "more"]) YNull)
    as (_ & _ & Hn & Hd & Hc & Ht).
  - vm_compute; reflexivity.
  - vm_compute; reflexivity.
  - intros m; discriminate.
  - exact (conj Hn (conj Hd (conj Hc Ht))).
Defined.

(** ** Failures and defaults *)

(** Without a true name no line is collected for the description. *)
Lemma description_lines_no_name name lines :
  truthy name = false → description_lines name false lines = [].
Proof.
  intros Hn. induction lines as [|l r IH]; [reflexivity|].
  simpl. rewrite Hn, !andb_false_r. simpl. exact IH.
Qed.

(** The category stored by [_parse_skill_md] is never empty. *)
Lemma extract_category_nonempty content lines :
  is_empty (extract_category content lines) = false.
Proof.
  unfold extract_category.
  repeat match goal with
         | |- context [if truthy_opt ?o then _ else _] =>
             let E := fresh "E" in destruct (truthy_opt o) eqn:E
         end;
    try reflexivity;
    match goal with
    | H : truthy_opt ?o = true |- is_empty (default "" ?o) = false =>
        destruct o; simpl in *; [by apply negb_true_iff in H|discriminate]
    end.
Qed.

Lemma extract_category_default content lines :
  category_of_lines lines = None → bold_category_of_lines lines = None →
  extract_category content lines = "Uncategorized".
Proof.
  intros H1 H2. unfold extract_category. rewrite H1, H2.
  by destruct (mentions_category (lower content)).
Qed.

Lemma skill_md_data_category content :
  skill_md_data content !! "category"
  = Some (YStr (extract_category content (split nl content))).
Proof.
  unfold skill_md_data.
  destruct (extract_tags _); [|rewrite lookup_insert_ne by done];
    by rewrite lookup_insert_eq.
Qed.

Lemma skill_md_data_name content :
  skill_md_data content !! "name"
  = YStr <$> first_header (split nl content).
Proof.
  unfold skill_md_data.
  destruct (extract_tags _); [|rewrite lookup_insert_ne by done];
    rewrite lookup_insert_ne by done;
    (destruct (description_lines _ _ _); [|rewrite lookup_insert_ne by done]);
    (destruct (first_header _); [by rewrite lookup_insert_eq|done]).
Qed.

Lemma skill_md_data_tags content :
  skill_md_data content !! "tags"
  = match extract_tags (split nl content) with
    | [] => None
    | tags => Some (str_list tags)
    end.
Proof.
  unfold skill_md_data.
  destruct (extract_tags _); [|by rewrite lookup_insert_eq].
  rewrite lookup_insert_ne by done.
  destruct (description_lines _ _ _); [|rewrite lookup_insert_ne by done];
    by destruct (first_header _); [rewrite lookup_insert_ne by done|].
Qed.

Lemma skill_md_data_description_unset content :
  first_header (split nl content) = None →
  skill_md_data content !! "description" = None.
Proof.
  intros H. unfold skill_md_data. rewrite H.
  rewrite description_lines_no_name by reflexivity.
  destruct (extract_tags _); [|rewrite lookup_insert_ne by done];
    by rewrite lookup_insert_ne.
Qed.

(** C6, as amended: on every outcome of reading the file, both extractors
    return and none raises.  [_parse_metadata] returns the defaults when
    the file cannot be read, and when the frontmatter is absent or fails to
    load it returns the first header or the empty string as name, the text
    collected below that header or the empty string as description,
    ["Uncategorized"] and no tags.  [_parse_skill_md] returns [None] when
    the file cannot be read, and the scan driver then adds no skill; on a
    text it stores a non-empty category (["Uncategorized"] when no marker
    line gives one) and leaves [name], [description] and [tags] unset when
    no header, no header and no tag line is found.  The skill the scan
    driver builds from that text then has for name the name of the file's
    directory (the repository name for a file at the scan root), the empty
    string for description and the empty sequence for tags, and the stored
    category. *)
Theorem C6_extractors_return
    (safe_load : string → outcome yaml) (file : outcome string) :
  ∃ meta r,
    _parse_metadata safe_load file = Returns meta
    ∧ _parse_skill_md file = Returns r
    ∧ match file with
      | Raises _ =>
          meta = default_meta ∧ r = None
          ∧ ∀ fs_is_dir read_text repo_owner repo_name repo_branch repo_path
              scan_dir skill_md_path,
              read_text skill_md_path = file →
              scan_entry fs_is_dir read_text repo_owner repo_name repo_branch
                repo_path scan_dir skill_md_path = None
      | Returns content =>
          let lines := split nl content in
          let header := default "" (first_header lines) in
          ((∀ fm rest, frontmatter_of content = Some (fm, rest) →
              ∃ e, load_frontmatter safe_load fm = Raises e) →
           meta !! "name" = Some (YStr header)
           ∧ meta !! "description"
             = Some (YStr (strip (join " "
                 (description_lines (YStr header) false lines))))
           ∧ (first_header lines = None →
              meta !! "description" = Some (YStr ""))
           ∧ meta !! "category" = Some (YStr "Uncategorized")
           ∧ meta !! "tags" = Some (YSeq []))
          ∧ ∃ data category,
              r = Some data
              ∧ data !! "category" = Some (YStr category)
              ∧ is_empty category = false
              ∧ (category_of_lines lines = None →
                 bold_category_of_lines lines = None →
                 category = "Uncategorized")
              ∧ data !! "name" = YStr <$> first_header lines
              ∧ (first_header lines = None → data !! "description" = None)
              ∧ (extract_tags lines = [] → data !! "tags" = None)
              ∧ ∀ fs_is_dir read_text repo_owner repo_name repo_branch
                  repo_path scan_dir skill_md_path s,
                  read_text skill_md_path = file →
                  scan_entry fs_is_dir read_text repo_owner repo_name
                    repo_branch repo_path scan_dir skill_md_path = Some s →
                  let skill_dir := parent skill_md_path in
                  (PyPath.eqb skill_dir scan_dir = false →
                   directory s = name skill_dir)
                  ∧ (skill_dir = scan_dir → directory s = repo_name)
                  ∧ skill_name s
                    = YStr (default (directory s) (first_header lines))
                  ∧ (first_header lines = None →
                     skill_description s = YStr "")
                  ∧ skill_category s = YStr category
                  ∧ (extract_tags lines = [] → skill_tags s = YSeq [])
      end.
Proof.
  destruct file as [content|e]; simpl.
  2: { exists default_meta, None. split; [done|]. split; [done|].
       split; [done|]. split; [done|].
       intros fs_is_dir read_text owner repo branch repo_path scan_dir p Hread.
       unfold scan_entry. rewrite Hread. simpl. by destruct (negb _). }
  exists (extract safe_load content), (Some (skill_md_data content)).
  split; [done|]. split; [done|]. split.
  - intros Hfail.
    assert (read_frontmatter safe_load default_meta content
            = (default_meta, content)) as Hkept.
    { apply read_frontmatter_kept. intros fm rest m Hfm Hload.
      destruct (Hfail fm rest Hfm) as [e He]. congruence. }
    unfold extract. rewrite Hkept.
    pose proof (heuristic_name_default content) as Hname.
    assert (heuristic_description (heuristic_name default_meta content) content
              !! "description"
            = Some (YStr (strip (join " " (description_lines
                (YStr (default "" (first_header (split nl content))))
                false (split nl content)))))) as Hdesc.
    { rewrite heuristic_description_default.
      - unfold get. by rewrite Hname.
      - by rewrite heuristic_name_other. }
    split; [by rewrite heuristic_description_other|].
    split; [exact Hdesc|]. split.
    { intros Hnone. rewrite Hdesc, Hnone. simpl.
      by rewrite description_lines_no_name. }
    by rewrite !heuristic_description_other, !heuristic_name_other.
  - exists (skill_md_data content),
      (extract_category content (split nl content)).
    split; [done|]. split; [apply skill_md_data_category|].
    split; [apply extract_category_nonempty|].
    split; [apply extract_category_default|].
    split; [apply skill_md_data_name|].
    split; [apply skill_md_data_description_unset|].
    split; [intros Ht; by rewrite skill_md_data_tags, Ht|].
    intros fs_is_dir read_text owner repo branch repo_path scan_dir p s Hread.
    unfold scan_entry, _parse_skill_md. rewrite Hread.
    destruct (negb (fs_is_dir (parent p))); [discriminate|].
    destruct (negb (truthy _)); [discriminate|].
    destruct (scan_source_directory (parent p) scan_dir) as [source|] eqn:Hsrc;
      [|discriminate].
    destruct (relative_to (parent p) repo_path); [|discriminate].
    intros [= <-]. simpl. unfold get_or.
    rewrite skill_md_data_name, skill_md_data_category, skill_md_data_tags.
    split.
    { intros Hne. rewrite Hne. simpl. by destruct (String.eqb source "."). }
    split.
    { intros Hroot. rewrite Hroot in Hsrc |- *.
      rewrite scan_source_directory_root in Hsrc. injection Hsrc as <-.
      by rewrite path_eqb_refl. }
    split; [by destruct (first_header _)|].
    split.
    { intros Hh. by rewrite skill_md_data_description_unset. }
    split; [done|].
    intros Ht. by rewrite Ht.
Qed.

Lemma C6_extractors_return_witness :
  ∃ meta data s,
    _parse_metadata MiniYaml.safe_load (Returns broken_frontmatter_text)
    = Returns meta
    ∧ meta !! "name" = Some (YStr "")
    ∧ meta !! "description" = Some (YStr "")
    ∧ meta !! "category" = Some (YStr "Uncategorized")
    ∧ meta !! "tags" = Some (YSeq [])
    ∧ _parse_skill_md (Returns broken_frontmatter_text) = Returns (Some data)
    ∧ data !! "category" = Some (YStr "Uncategorized")
    ∧ data !! "name" = None
    ∧ demo_scan None !! 2 = Some s
    ∧ skill_name s = YStr "lint"
    ∧ skill_description s = YStr ""
    ∧ skill_category s = YStr "Uncategorized"
    ∧ skill_tags s = YSeq [].
Proof.
  destruct (C6_extractors_return MiniYaml.safe_load
              (Returns broken_frontmatter_text))
    as (meta & r & Hm & Hr & Hparser & data & category & -> & Hc & _ & Hcat
        & Hn & _).
  destruct Hparser as (Hname & _ & Hdesc & Hcategory & Htags).
  { intros fm rest [= <- <-]. exists YAMLError. vm_compute. reflexivity. }
  rewrite (Hcat eq_refl eq_refl) in Hc.
  assert (∃ s, demo_scan None !! 2 = Some s
               ∧ scan_entry (MemFS.is_dir demo_files)
                   (MemFS.read_text demo_files) "acme" "repo1" "main"
                   (of_string "/tmp/t/repo") (of_string "/tmp/t/repo")
                   (of_string "/tmp/t/repo/tools/lint/SKILL.md") = Some s)
    as (s & Hs & Hentry).
  { eexists. split; vm_compute; reflexivity. }
  destruct (C6_extractors_return MiniYaml.safe_load (Returns "plain words"))
    as (_ & _ & _ & _ & _ & data' & category' & _ & _ & _ & Hcat' & _ & _ & _
        & Hscan).
  destruct (Hscan (MemFS.is_dir demo_files) (MemFS.read_text demo_files)
              "acme" "repo1" "main" (of_string "/tmp/t/repo")
              (of_string "/tmp/t/repo")
              (of_string "/tmp/t/repo/tools/lint/SKILL.md") s eq_refl Hentry)
    as (Hdir & _ & Hsname & Hsdesc & Hscat & Hstags).
  rewrite (Hdir eq_refl) in Hsname.
  rewrite (Hcat' eq_refl eq_refl) in Hscat.
  exists meta, data, s.
  exact (conj Hm (conj Hname (conj (Hdesc eq_refl) (conj Hcategory
           (conj Htags (conj Hr (conj Hc (conj Hn (conj Hs (conj Hsname
           (conj (Hsdesc eq_refl) (conj Hscat (Hstags eq_refl))))))))))))).
Defined.

(** C6, counterexample: on a text without header [_parse_skill_md] does
    not give the empty string for the name; the key is unset, and the scan
    takes the directory name for it. *)
Lemma C6_counterexample :
  ∃ data,
    _parse_skill_md (Returns "plain words") = Returns (Some data)
    ∧ data !! "name" ≠ Some (YStr "")
    ∧ get_or data "name" (YStr "pkg-a") = YStr "pkg-a".
Proof.
  eexists. split; [reflexivity|]. split; [|by vm_compute].
  vm_compute. discriminate.
Qed.

(** ** The builder and the scan driver *)

(** [parse_from_file] never raises: [_parse_metadata] has caught every
    exception. *)
Lemma parse_from_file_returns safe_load fs_exists read_text file_path rc :
  ∃ r, parse_from_file safe_load fs_exists read_text file_path rc = Returns r.
Proof.
  unfold parse_from_file, _parse_metadata.
  repeat case_match; simplify_eq; eauto.
Qed.

(** The builder of [SkillParser] skips the generated directories. *)
Lemma parse_from_file_skips_generated safe_load fs_exists read_text file_path rc :
  startswith "cam_" (name (parent file_path)) = true →
  parse_from_file safe_load fs_exists read_text file_path rc = Returns None.
Proof.
  intros H. unfold parse_from_file. rewrite H. by case_match.
Qed.

(** The metadata of [_parse_metadata] always has the key [name], so the
    directory name given as default at line 86 is never taken. *)
Lemma parse_from_file_name safe_load fs_exists read_text file_path rc s :
  parse_from_file safe_load fs_exists read_text file_path rc = Returns (Some s) →
  ∃ meta, _parse_metadata safe_load (read_text file_path) = Returns meta
          ∧ meta !! "name" = Some (skill_name s).
Proof.
  unfold parse_from_file. intros H.
  repeat case_match; simplify_eq. simpl.
  match goal with
  | H : _parse_metadata _ _ = Returns ?m |- _ =>
      exists m; split; [done|];
      assert (is_Some (m !! "name")) as [v Hv]
  end.
  { unfold _parse_metadata in *. case_match; simplify_eq.
    - by apply extract_keeps_keys.
    - done. }
  unfold get_or. by rewrite Hv.
Qed.

(** C2: the parser's builder on a file with neither frontmatter nor a
    header, in the directory [tools/lint]: the name is the empty string,
    not the directory name [lint]; the scan driver of [Fetcher] on the same
    file gives [lint].  On a file whose frontmatter names it [Alpha] and
    whose first header reads [Some Title], the scan driver gives
    [Some Title]. *)
Theorem C2_name_fallback_evaluated :
  (∃ s, demo_parse "/tmp/t/repo/tools/lint/SKILL.md" = Returns (Some s)
        ∧ directory s = "lint" ∧ skill_name s = YStr "")
  ∧ (∃ s, demo_scan None !! 2 = Some s
          ∧ skill_id s = "acme/repo1:tools/lint"
          ∧ skill_name s = YStr "lint")
  ∧ (∃ s, demo_scan None !! 0 = Some s
          ∧ skill_id s = "acme/repo1:pkg-a"
          ∧ skill_name s = YStr "Some Title").
Proof.
  split; [|split]; eexists; (split; [vm_compute; reflexivity|]);
    by vm_compute.
Qed.

(** C3: the scan driver of [Fetcher] on a checkout with a metadata file in
    the directory [cam_cache]: a skill is produced for it, while the
    parser's builder returns none for the same file. *)
Theorem C3_generated_directory_evaluated :
  (∃ s, demo_scan None !! 3 = Some s
        ∧ skill_id s = "acme/repo1:cam_cache"
        ∧ directory s = "cam_cache")
  ∧ demo_parse "/tmp/t/repo/cam_cache/SKILL.md" = Returns None.
Proof.
  split; [|by vm_compute].
  eexists. split; [vm_compute; reflexivity|]. by vm_compute.
Qed.

(** C5: the parser's builder on a file whose frontmatter sets the category
    to null: the skill's category is null, not ["Uncategorized"]; with an
    empty string in the mapping it is the empty string. *)
Theorem C5_empty_category_evaluated :
  (∃ s, demo_parse "/tmp/t/repo/pkg-b/SKILL.md" = Returns (Some s)
        ∧ skill_category s = YNull)
  ∧ extract MiniYaml.safe_load quoted_empty_category_text !! "category"
    = Some (YStr "").
Proof.
  split; [|by vm_compute].
  eexists. split; [vm_compute; reflexivity|]. by vm_compute.
Qed.

(** The category of an entry of the scan driver is a non-empty string. *)
Lemma scan_entry_category fs_is_dir read_text owner repo branch repo_path
    scan_dir skill_md_path s :
  scan_entry fs_is_dir read_text owner repo branch repo_path scan_dir
    skill_md_path = Some s →
  ∃ c, skill_category s = YStr c ∧ is_empty c = false.
Proof.
  unfold scan_entry, _parse_skill_md. intros H.
  repeat case_match; simplify_eq; simpl;
    unfold get_or; rewrite skill_md_data_category; simpl;
    (eexists; split; [reflexivity|apply extract_category_nonempty]).
Qed.

(** C9: with a sub-path configured that does not exist under the checkout
    root, the scan returns the empty sequence, whatever the clone did. *)
Theorem C9_missing_sub_path
    (temp_path : path) (git_clone : string → string → path → outcome Z)
    (fs_exists fs_is_dir : path → bool) (fs_rglob : path → string → list path)
    (read_text : path → outcome string)
    (repo_owner repo_name repo_branch skills_path : string) :
  is_empty skills_path = false →
  fs_exists (join_path (child temp_path "repo")
                       (of_string (strip_char "/" skills_path))) = false →
  scan_directory fs_exists (child temp_path "repo") (Some skills_path) = None
  ∧ clone_and_scan_repository temp_path git_clone fs_exists fs_is_dir fs_rglob
      read_text repo_owner repo_name repo_branch (Some skills_path) = [].
Proof.
  intros Hpath Hmissing.
  assert (scan_directory fs_exists (child temp_path "repo") (Some skills_path)
          = None) as Hscan.
  { unfold scan_directory. simpl. by rewrite Hpath, Hmissing. }
  split; [exact Hscan|].
  unfold clone_and_scan_repository. rewrite Hscan.
  by repeat case_match.
Qed.

Lemma C9_missing_sub_path_witness : demo_scan (Some "/missing/dir/") = [].
Proof.
  apply (C9_missing_sub_path demo_temp MemFS.clone_ok
           (MemFS.exists_ demo_files) (MemFS.is_dir demo_files)
           (MemFS.rglob demo_files) (MemFS.read_text demo_files)
           "acme" "repo1" "main" "/missing/dir/").
  - reflexivity.
  - vm_compute; reflexivity.
Defined.

(** ** The repository root *)

Lemma find_all_false {A} (f : A → bool) (l : list A) :
  (∀ x, x ∈ l → f x = false) → List.find f l = None.
Proof.
  induction l as [|x l IH]; intros H; [reflexivity|].
  simpl. rewrite (H x) by apply list_elem_of_here.
  apply IH. intros y Hy. apply H. by apply list_elem_of_further.
Qed.

(** The last two ancestors of a path with at least two components. *)
Lemma parents_of_two_last anchor rl y x :
  ∃ pre, parents_of anchor (rl ++ [y; x])
         = pre ++ [Path anchor [x]; Path anchor []].
Proof.
  induction rl as [|z rl [pre IH]].
  - by exists [].
  - simpl. rewrite IH. by eexists (_ :: pre).
Qed.

Lemma index_from_end_two {A} (pre : list A) (a b : A) :
  index_from_end (pre ++ [a; b]) 2 = Some a.
Proof.
  unfold index_from_end. rewrite length_app. simpl.
  case_decide; [|lia].
  replace (length pre + 2 - 2) with (length pre) by lia.
  rewrite lookup_app_r by lia. by rewrite Nat.sub_diag.
Qed.

Lemma parents_second_from_top anchor top next rest :
  index_from_end (parents (Path anchor (top :: next :: rest))) 2
  = Some (Path anchor [top]).
Proof.
  unfold parents. simpl.
  rewrite <- !app_assoc. simpl.
  destruct (parents_of_two_last anchor (rev rest) next top) as [pre ->].
  apply index_from_end_two.
Qed.

(** C4, as amended: when neither the metadata file's parent nor any of its
    ancestors holds a [.git] entry, the repository root is the topmost
    named ancestor of the parent (the first component of its path) when
    the parent's path has at least two components, and the parent's own
    parent otherwise; unless the parent is the root of the file system,
    this is never the parent itself. *)
Theorem C4_root_without_marker (fs_exists : path → bool) (skill_dir : path) :
  fs_exists (child skill_dir ".git") = false →
  (∀ p, p ∈ parents skill_dir → fs_exists (child p ".git") = false) →
  find_repo_root fs_exists skill_dir
  = match parts skill_dir with
    | top :: _ :: _ => Path (anchored skill_dir) [top]
    | _ => parent skill_dir
    end
  ∧ (parts skill_dir ≠ [] → find_repo_root fs_exists skill_dir ≠ skill_dir).
Proof.
  intros Hhere Hup.
  assert (find_repo_root fs_exists skill_dir
          = match parts skill_dir with
            | top :: _ :: _ => Path (anchored skill_dir) [top]
            | _ => parent skill_dir
            end) as Hroot.
  { unfold find_repo_root. rewrite Hhere.
    rewrite (find_all_false _ _ Hup).
    destruct skill_dir as [a [|top [|next rest]]]; simpl; try reflexivity.
    by rewrite parents_second_from_top. }
  split; [exact Hroot|].
  rewrite Hroot. destruct skill_dir as [a [|top [|next rest]]]; simpl;
    intros Hne; [done| |]; intros [=].
Qed.

Lemma C4_root_without_marker_witness :
  find_repo_root (MemFS.exists_ bare_files) (of_string "/srv/skills/tools/lint")
  = of_string "/srv".
Proof.
  apply (C4_root_without_marker (MemFS.exists_ bare_files)
           (of_string "/srv/skills/tools/lint")).
  - vm_compute; reflexivity.
  - intros p Hp. vm_compute in Hp.
    repeat (apply elem_of_cons in Hp as [->|Hp]; [vm_compute; reflexivity|]).
    by apply elem_of_nil in Hp.
Defined.

(** C4, counterexample: no directory above [/srv/skills/tools/lint/SKILL.md]
    holds a [.git] entry, and the root found is [/srv], not the file's
    parent. *)
Lemma C4_counterexample :
  let skill_dir := parent (of_string "/srv/skills/tools/lint/SKILL.md") in
  MemFS.exists_ bare_files (child skill_dir ".git") = false
  ∧ (∀ p, p ∈ parents skill_dir →
          MemFS.exists_ bare_files (child p ".git") = false)
  ∧ find_repo_root (MemFS.exists_ bare_files) skill_dir ≠ skill_dir.
Proof.
  split; [by vm_compute|]. split.
  - intros p Hp. vm_compute in Hp.
    repeat (apply elem_of_cons in Hp as [->|Hp]; [vm_compute; reflexivity|]).
    by apply elem_of_nil in Hp.
  - vm_compute. discriminate.
Qed.

(** ** The key of a skill *)

Lemma strip_prefix_Some a l r : strip_prefix a l = Some r → l = a ++ r.
Proof.
  revert l. induction a as [|x a IH]; intros l; simpl.
  - by intros [= ->].
  - destruct l as [|y l]; [discriminate|].
    destruct (String.eqb x y) eqn:E; [|discriminate].
    apply String.eqb_eq in E as ->. intros H. by rewrite (IH l H).
Qed.

Lemma relative_to_Some p base rel :
  relative_to p base = Some rel →
  anchored p = anchored base ∧ anchored rel = false
  ∧ parts p = parts base ++ parts rel.
Proof.
  unfold relative_to.
  destruct (Bool.eqb (anchored p) (anchored base)) eqn:E; [|discriminate].
  destruct (strip_prefix (parts base) (parts p)) as [r|] eqn:Hs; [|discriminate].
  intros [= <-]. simpl. split; [by apply Bool.eqb_prop|].
  split; [done|]. by apply strip_prefix_Some.
Qed.

(** What a file that yields a skill gives the skill. *)
Lemma scan_entry_Some fs_is_dir read_text owner repo branch repo_path scan_dir
    skill_md_path s :
  scan_entry fs_is_dir read_text owner repo branch repo_path scan_dir
    skill_md_path = Some s →
  ∃ content rel from_root,
    read_text skill_md_path = Returns content
    ∧ relative_to (parent skill_md_path) scan_dir = Some rel
    ∧ relative_to (parent skill_md_path) repo_path = Some from_root
    ∧ skill_id s
      = owner +:+ "/" +:+ repo +:+ ":"
        +:+ replace_char backslash "/" (to_string rel)
    ∧ readme_url s
      = github_tree_url owner repo branch
          (replace_char backslash "/" (to_string from_root))
    ∧ marketplace_id s = owner +:+ "/" +:+ repo
    ∧ repo_owner s = owner ∧ repo_name s = repo ∧ repo_branch s = branch.
Proof.
  unfold scan_entry, _parse_skill_md, scan_source_directory. intros H.
  destruct (negb (fs_is_dir (parent skill_md_path))); [discriminate|].
  destruct (read_text skill_md_path) as [content|]; [|discriminate].
  destruct (negb (truthy _)); [discriminate|].
  destruct (relative_to (parent skill_md_path) scan_dir) as [rel|];
    [|discriminate].
  destruct (relative_to (parent skill_md_path) repo_path) as [from_root|];
    [|discriminate].
  simpl in H. injection H as <-. simpl.
  exists content, rel, from_root. done.
Qed.

(** C1, as amended: every skill of the scan driver of [Fetcher] comes from
    a discovered metadata file.  The id of the skill a file yields is
    [owner/repo:source_directory], with the source directory the path of
    the file's parent relative to the scan root: the components of the
    parent below the scan root joined with forward slashes, and [.] at
    the scan root.  A skill built by [SkillParser.parse_from_file] has the
    id [owner/repo:directory], with the directory the name of the file's
    parent, or the repository name (or [.] when that is empty) when the
    parent is the repository root. *)
Theorem C1_skill_id
    (temp_path : path) (git_clone : string → string → path → outcome Z)
    (fs_exists fs_is_dir : path → bool) (fs_rglob : path → string → list path)
    (read_text : path → outcome string) (safe_load : string → outcome yaml)
    (repo_owner repo_name repo_branch : string) (skills_path : option string)
    (repo_config : RepoConfig) (file_path : path) (s : Skill) :
  (s ∈ clone_and_scan_repository temp_path git_clone fs_exists fs_is_dir
         fs_rglob read_text repo_owner repo_name repo_branch skills_path →
   ∃ scan_dir skill_md_path,
     scan_directory fs_exists (child temp_path "repo") skills_path
     = Some scan_dir
     ∧ skill_md_path ∈ fs_rglob scan_dir "SKILL.md"
     ∧ scan_entry fs_is_dir read_text repo_owner repo_name repo_branch
         (child temp_path "repo") scan_dir skill_md_path = Some s)
  ∧ (∀ repo_path scan_dir skill_md_path,
       scan_entry fs_is_dir read_text repo_owner repo_name repo_branch
         repo_path scan_dir skill_md_path = Some s →
       ∃ rel,
         relative_to (parent skill_md_path) scan_dir = Some (Path false rel)
         ∧ anchored (parent skill_md_path) = anchored scan_dir
         ∧ parts (parent skill_md_path) = parts scan_dir ++ rel
         ∧ skill_id s
           = repo_owner +:+ "/" +:+ repo_name +:+ ":"
             +:+ match rel with
                 | [] => "."
                 | _ => replace_char backslash "/" (join "/" rel)
                 end)
  ∧ (parse_from_file safe_load fs_exists read_text file_path repo_config
     = Returns (Some s) →
     let skill_dir := parent file_path in
     directory s
     = (if PyPath.eqb skill_dir (find_repo_root fs_exists skill_dir)
        then if is_empty (cfg_name repo_config) then "."
             else cfg_name repo_config
        else name skill_dir)
     ∧ skill_id s
       = cfg_owner repo_config +:+ "/" +:+ cfg_name repo_config +:+ ":"
         +:+ directory s).
Proof.
  split; [|split].
  - unfold clone_and_scan_repository. intros Hs.
    destruct (git_clone _ _ _) as [rc|e]; [|by apply elem_of_nil in Hs].
    destruct (negb (rc =? 0)%Z); [by apply elem_of_nil in Hs|].
    destruct (scan_directory _ _ _) as [scan_dir|];
      [|by apply elem_of_nil in Hs].
    apply list_elem_of_omap in Hs as (skill_md_path & Hin & Hentry).
    by exists scan_dir, skill_md_path.
  - intros repo_path scan_dir skill_md_path Hentry.
    apply scan_entry_Some in Hentry
      as (content & rel & from_root & _ & Hrel & _ & Hid & _).
    destruct (relative_to_Some _ _ _ Hrel) as (Ha & Hra & Hparts).
    destruct rel as [ra rl]. simpl in Hra, Hparts. subst ra.
    exists rl. split; [done|]. split; [done|]. split; [done|].
    rewrite Hid. by destruct rl.
  - unfold parse_from_file. intros H.
    destruct (negb _); [discriminate|].
    destruct (startswith _ _); [discriminate|].
    destruct (_parse_metadata _ _); [|discriminate].
    injection H as <-. simpl. split; reflexivity.
Qed.

Lemma C1_skill_id_witness :
  ∃ s1 s2 s3,
    demo_scan None !! 2 = Some s1
    ∧ skill_id s1 = "acme/repo1:tools/lint"
    ∧ demo_parse "/tmp/t/repo/tools/lint/SKILL.md" = Returns (Some s2)
    ∧ directory s2 = "lint"
    ∧ skill_id s2 = "acme/repo1:" +:+ directory s2
    ∧ scan_entry (MemFS.is_dir root_skill_files)
        (MemFS.read_text root_skill_files) "acme" "repo1" "main"
        (of_string "/work/repo1") (of_string "/work/repo1")
        (of_string "/work/repo1/SKILL.md") = Some s3
    ∧ skill_id s3 = "acme/repo1:.".
Proof.
  assert (∃ s1, demo_scan None !! 2 = Some s1
                ∧ scan_entry (MemFS.is_dir demo_files)
                    (MemFS.read_text demo_files) "acme" "repo1" "main"
                    (of_string "/tmp/t/repo") (of_string "/tmp/t/repo")
                    (of_string "/tmp/t/repo/tools/lint/SKILL.md") = Some s1)
    as (s1 & H1 & He).
  { eexists. split; vm_compute; reflexivity. }
  assert (∃ s2, demo_parse "/tmp/t/repo/tools/lint/SKILL.md"
                = Returns (Some s2)) as [s2 H2].
  { eexists. vm_compute. reflexivity. }
  assert (∃ s3, scan_entry (MemFS.is_dir root_skill_files)
                  (MemFS.read_text root_skill_files) "acme" "repo1" "main"
                  (of_string "/work/repo1") (of_string "/work/repo1")
                  (of_string "/work/repo1/SKILL.md") = Some s3) as [s3 H3].
  { eexists. vm_compute. reflexivity. }
  pose proof (C1_skill_id demo_temp MemFS.clone_ok (MemFS.exists_ demo_files)
    (MemFS.is_dir demo_files) (MemFS.rglob demo_files)
    (MemFS.read_text demo_files) MiniYaml.safe_load "acme" "repo1" "main" None
    demo_config (of_string "/tmp/t/repo/tools/lint/SKILL.md")) as H.
  destruct (H s1) as (_ & Hfile & _). destruct (H s2) as (_ & _ & Hparse).
  destruct (Hfile _ _ _ He) as (rel & _ & _ & Hparts & Hid1).
  injection Hparts as <-.
  destruct (Hparse H2) as [Hdir Hid2].
  destruct (C1_skill_id demo_temp MemFS.clone_ok
              (MemFS.exists_ root_skill_files) (MemFS.is_dir root_skill_files)
              (MemFS.rglob root_skill_files) (MemFS.read_text root_skill_files)
              MiniYaml.safe_load "acme" "repo1" "main" None demo_config
              (of_string "/work/repo1/SKILL.md") s3) as (_ & Hroot & _).
  destruct (Hroot _ _ _ H3) as (rel & _ & _ & Hparts & Hid3).
  assert (rel = []) as -> by (by destruct rel; [|discriminate]).
  exists s1, s2, s3.
  exact (conj H1 (conj Hid1 (conj H2 (conj Hdir (conj Hid2 (conj H3 Hid3)))))).
Defined.

(** C1, counterexample: for the metadata file [tools/lint/SKILL.md] of a
    checkout [SkillParser.parse_from_file] computes the source directory
    [tools/lint] and gives the skill the id [acme/repo1:lint]. *)
Lemma C1_counterexample :
  let skill_dir := parent (of_string "/tmp/t/repo/tools/lint/SKILL.md") in
  let repo_root := find_repo_root (MemFS.exists_ demo_files) skill_dir in
  ∃ s, demo_parse "/tmp/t/repo/tools/lint/SKILL.md" = Returns (Some s)
       ∧ repo_root = of_string "/tmp/t/repo"
       ∧ source_directory demo_config skill_dir repo_root = "tools/lint"
       ∧ skill_id s = "acme/repo1:lint"
       ∧ skill_id s ≠ create_entity_key demo_config
                        (source_directory demo_config skill_dir repo_root).
Proof.
  eexists. split; [vm_compute; reflexivity|].
  split; [by vm_compute|]. split; [by vm_compute|]. split; [by vm_compute|].
  vm_compute. discriminate.
Qed.

(** * More of the code *)

(** ** Facts on the string operations *)

Lemma append_nil_l (s : string) : "" +:+ s = s.
Proof. reflexivity. Qed.

Lemma append_cons c (s t : string) : String c s +:+ t = String c (s +:+ t).
Proof. reflexivity. Qed.

Lemma append_assoc (s t u : string) : (s +:+ t) +:+ u = s +:+ (t +:+ u).
Proof.
  induction s as [|c s IH]; [done|]. rewrite !append_cons. by f_equal.
Qed.

Lemma append_nil_r (s : string) : s +:+ "" = s.
Proof.
  induction s as [|c s IH]; [done|]. rewrite append_cons. by f_equal.
Qed.

Lemma length_append s t :
  String.length (s +:+ t) = String.length s + String.length t.
Proof.
  induction s as [|c s IH]; [done|]. rewrite append_cons. simpl. by rewrite IH.
Qed.

Lemma prefix_app p s : String.prefix p (p +:+ s) = true.
Proof.
  induction p as [|c p IH]; [by destruct s|].
  rewrite append_cons. simpl. by destruct (ascii_dec c c).
Qed.

Lemma prefix_split p s :
  String.prefix p s = true → ∃ r, s = p +:+ r.
Proof.
  revert s. induction p as [|c p IH]; intros s H.
  - by exists s.
  - destruct s as [|d s]; simpl in H; [discriminate|].
    destruct (ascii_dec c d) as [->|]; [|discriminate].
    destruct (IH s H) as [r ->]. by exists r.
Qed.

Lemma drop_app p s : drop (String.length p) (p +:+ s) = s.
Proof.
  induction p as [|c p IH]; [by destruct s|].
  rewrite append_cons. simpl. exact IH.
Qed.

Lemma cut_eq sep s :
  cut sep s
  = if String.prefix sep s then Some ("", drop (String.length sep) s)
    else match s with
         | EmptyString => None
         | String c r =>
             match cut sep r with
             | Some (a, b) => Some (String c a, b)
             | None => None
             end
         end.
Proof. by destruct s. Qed.

Lemma prefix_nil_r sep : String.prefix sep "" = true → sep = "".
Proof. by destruct sep. Qed.

(** [cut] finds an occurrence: the text is the part before, the
    separator and the part after. *)
Lemma cut_spec sep s a b : cut sep s = Some (a, b) → s = a +:+ sep +:+ b.
Proof.
  revert a b. induction s as [|c s IH]; intros a b; rewrite cut_eq;
    destruct (String.prefix sep _) eqn:E.
  - intros [= <- <-]. by rewrite (prefix_nil_r _ E).
  - discriminate.
  - intros [= <- <-]. rewrite append_nil_l.
    destruct (prefix_split _ _ E) as [r Hr].
    by rewrite Hr, drop_app.
  - destruct (cut sep s) as [[a' b']|]; [|discriminate].
    intros [= <- <-]. rewrite append_cons. f_equal. by apply IH.
Qed.

Lemma cut_shorter sep s a b :
  sep ≠ "" → cut sep s = Some (a, b) → String.length b < String.length s.
Proof.
  intros Hsep H. apply cut_spec in H. subst s.
  rewrite !length_append. destruct sep; [done|simpl; lia].
Qed.

(** A text that begins with the separator is cut there. *)
Lemma cut_prefix sep s : cut sep (sep +:+ s) = Some ("", s).
Proof. by rewrite cut_eq, prefix_app, drop_app. Qed.

(** The first occurrence of a character that the text before does not
    hold. *)
Lemma cut_char_fresh c key rest :
  has_char c key = false →
  cut (String c "") (key +:+ String c rest) = Some (key, rest).
Proof.
  induction key as [|d key IH]; intros H.
  - rewrite append_nil_l, cut_eq. simpl.
    destruct (ascii_dec c c); [by destruct rest|done].
  - simpl in H. apply orb_false_elim in H as [Hcd Hkey].
    rewrite append_cons, cut_eq. simpl.
    destruct (ascii_dec c d) as [->|_].
    { by rewrite Ascii.eqb_refl in Hcd. }
    by rewrite (IH Hkey).
Qed.

Lemma cut_char_none c s :
  has_char c s = false → cut (String c "") s = None.
Proof.
  induction s as [|d s IH]; intros H; [done|].
  simpl in H. apply orb_false_elim in H as [Hcd Hs].
  rewrite cut_eq. simpl.
  destruct (ascii_dec c d) as [->|_].
  { by rewrite Ascii.eqb_refl in Hcd. }
  by rewrite (IH Hs).
Qed.

(** More fuel than the length of the text changes nothing. *)
Lemma split_max_fuel sep n s :
  sep ≠ "" → String.length s ≤ n →
  split_max sep n s = split_max sep (String.length s) s.
Proof.
  intros Hsep. revert s.
  induction (lt_wf n) as [n _ IH]. intros s Hn.
  destruct n as [|n].
  { by replace (String.length s) with 0 by lia. }
  destruct (String.length s) as [|k] eqn:Hk.
  { destruct s; [|discriminate]. cbn [split_max]. rewrite cut_eq.
    destruct (String.prefix sep "") eqn:E; [|done].
    by destruct (Hsep (prefix_nil_r _ E)). }
  cbn [split_max]. destruct (cut sep s) as [[a b]|] eqn:Hcut; [|done].
  pose proof (cut_shorter _ _ _ _ Hsep Hcut) as Hb.
  f_equal. rewrite (IH n) by lia. symmetry. apply IH; lia.
Qed.

Lemma split_cut sep s a b :
  sep ≠ "" → cut sep s = Some (a, b) → split sep s = a :: split sep b.
Proof.
  intros Hsep Hcut. unfold split.
  pose proof (cut_shorter _ _ _ _ Hsep Hcut) as Hb.
  destruct (String.length s) as [|k] eqn:Hk; [lia|].
  cbn [split_max]. rewrite Hcut. f_equal. apply split_max_fuel; [done|lia].
Qed.

Lemma split_whole sep s : cut sep s = None → split sep s = [s].
Proof.
  intros Hcut. unfold split.
  destruct (String.length s); cbn [split_max]; by rewrite ?Hcut.
Qed.

(** ** The path resolver of [parse_from_file] *)

Lemma path_eqb_eq p q : PyPath.eqb p q = true → p = q.
Proof.
  unfold PyPath.eqb. intros [Ha Hp]%andb_true_iff.
  apply Bool.eqb_prop in Ha. apply bool_decide_eq_true in Hp.
  destruct p, q; simpl in *; by subst.
Qed.

Lemma strip_prefix_app a b : strip_prefix a (a ++ b) = Some b.
Proof.
  induction a as [|x a IH]; [done|]. simpl. by rewrite String.eqb_refl.
Qed.

(** [relative_to] succeeds exactly on the paths below the base. *)
Lemma relative_to_app anchor base rest :
  relative_to (Path anchor (base ++ rest)) (Path anchor base)
  = Some (Path false rest).
Proof.
  unfold relative_to. simpl. by rewrite Bool.eqb_reflx, strip_prefix_app.
Qed.

(** Every ancestor is a proper prefix. *)
Lemma parents_of_prefix anchor rl p :
  p ∈ parents_of anchor rl →
  anchored p = anchor ∧ ∃ suf, rev rl = parts p ++ suf ∧ suf ≠ [].
Proof.
  induction rl as [|x rl IH]; simpl; [by intros ?%elem_of_nil|].
  intros [->|Hp]%elem_of_cons.
  - split; [done|]. by exists [x].
  - destruct (IH Hp) as (Ha & suf & Hsuf & _). split; [done|].
    exists (suf ++ [x]). rewrite Hsuf, <- app_assoc. split; [done|].
    by destruct suf.
Qed.

Lemma parents_prefix d p :
  p ∈ parents d →
  anchored p = anchored d ∧ ∃ suf, parts d = parts p ++ suf ∧ suf ≠ [].
Proof.
  intros H. apply parents_of_prefix in H as (Ha & suf & Hs & Hne).
  rewrite rev_involutive in Hs. eauto.
Qed.

Lemma parent_prefix d :
  ∃ suf, parts d = parts (parent d) ++ suf.
Proof.
  destruct d as [a l]. simpl.
  destruct (decide (l = [])) as [->|Hne]; [by exists []|].
  exists [List.last l ""]. by apply app_removelast_last.
Qed.

Lemma find_first {A} (f : A → bool) (l : list A) (x : A) :
  List.find f l = Some x →
  f x = true
  ∧ ∃ i, l !! i = Some x ∧ ∀ j y, j < i → l !! j = Some y → f y = false.
Proof.
  induction l as [|a l IH]; [discriminate|]. simpl.
  destruct (f a) eqn:E.
  - intros [= <-]. split; [done|]. exists 0. split; [done|]. lia.
  - intros H. destruct (IH H) as (Hx & i & Hi & Hlt). split; [done|].
    exists (S i). split; [done|].
    intros [|j] y Hj Hy; simpl in Hy; [by injection Hy as <-|].
    apply (Hlt j y); [lia|done].
Qed.

Lemma index_from_end_elem {A} (l : list A) k x :
  index_from_end l k = Some x → x ∈ l.
Proof.
  unfold index_from_end. case_decide; [|discriminate].
  apply list_elem_of_lookup_2.
Qed.

(** The root found is the directory itself, one of its ancestors, or
    (for a path without components) its parent, which is itself. *)
Lemma find_repo_root_prefix fs_exists skill_dir :
  anchored (find_repo_root fs_exists skill_dir) = anchored skill_dir
  ∧ ∃ suf, parts skill_dir = parts (find_repo_root fs_exists skill_dir) ++ suf.
Proof.
  unfold find_repo_root.
  destruct (fs_exists (child skill_dir ".git")).
  { split; [done|]. exists []. by rewrite app_nil_r. }
  destruct (List.find _ _) as [p|] eqn:Hfind.
  { apply find_first in Hfind as (_ & i & Hi & _).
    apply list_elem_of_lookup_2, parents_prefix in Hi as (Ha & suf & Hs & _).
    eauto. }
  destruct (index_from_end _ 2) as [p|] eqn:Hidx.
  { apply index_from_end_elem, parents_prefix in Hidx as (Ha & suf & Hs & _).
    eauto. }
  split; [done|]. apply parent_prefix.
Qed.

(** X1: the repository root [parse_from_file] finds is always the
    metadata file's parent or a directory above it, so the path of the
    parent relative to the root exists: the [ValueError] fallback of lines
    60-61 is never taken, and the path in the link is that relative
    path. *)
Theorem X1_root_is_ancestor (fs_exists : path → bool) (skill_dir : path) :
  let repo_root := find_repo_root fs_exists skill_dir in
  ∃ rel,
    relative_to skill_dir repo_root = Some rel
    ∧ parts skill_dir = parts repo_root ++ parts rel
    ∧ repo_relative_path skill_dir repo_root = to_string rel.
Proof.
  intros repo_root.
  destruct (find_repo_root_prefix fs_exists skill_dir) as (Ha & suf & Hs).
  fold repo_root in Ha, Hs.
  exists (Path false suf).
  assert (relative_to skill_dir repo_root = Some (Path false suf)) as Hrel.
  { destruct skill_dir as [a l], repo_root as [a' l']. simpl in *. subst.
    apply relative_to_app. }
  split; [done|]. split; [done|].
  unfold repo_relative_path. by rewrite Hrel.
Qed.

(** X2: when the metadata file's parent or a directory above it holds a
    [.git] entry, the root found holds one, and it is the nearest such
    directory: the parent itself if it holds one, otherwise the first
    ancestor, going upwards, that does. *)
Theorem X2_nearest_marker (fs_exists : path → bool) (skill_dir : path) :
  (fs_exists (child skill_dir ".git") = true
   ∨ ∃ p, p ∈ parents skill_dir ∧ fs_exists (child p ".git") = true) →
  let repo_root := find_repo_root fs_exists skill_dir in
  fs_exists (child repo_root ".git") = true
  ∧ (fs_exists (child skill_dir ".git") = true → repo_root = skill_dir)
  ∧ (fs_exists (child skill_dir ".git") = false →
     ∃ i, parents skill_dir !! i = Some repo_root
          ∧ ∀ j q, j < i → parents skill_dir !! j = Some q →
                   fs_exists (child q ".git") = false).
Proof.
  intros Hmarker repo_root. unfold repo_root, find_repo_root.
  destruct (fs_exists (child skill_dir ".git")) eqn:Hhere.
  { split; [done|]. split; [done|discriminate]. }
  destruct Hmarker as [?|(p & Hp & Hgit)]; [discriminate|].
  destruct (List.find _ _) as [q|] eqn:Hfind.
  - apply find_first in Hfind as (Hq & i & Hi & Hlt).
    split; [done|]. split; [discriminate|]. intros _. eauto.
  - exfalso. apply list_elem_of_In in Hp.
    apply (find_none _ _ Hfind) in Hp. congruence.
Qed.

Lemma X2_nearest_marker_witness :
  MemFS.exists_ demo_files
    (child (find_repo_root (MemFS.exists_ demo_files)
              (of_string "/tmp/t/repo/tools/lint")) ".git") = true.
Proof.
  apply (X2_nearest_marker (MemFS.exists_ demo_files)
           (of_string "/tmp/t/repo/tools/lint")).
  right. exists (of_string "/tmp/t/repo").
  split; [|vm_compute; reflexivity].
  vm_compute. apply list_elem_of_further, list_elem_of_here.
Defined.

(** ** The builder of [SkillParser] *)

Lemma parse_from_file_Some safe_load fs_exists read_text file_path rc s :
  parse_from_file safe_load fs_exists read_text file_path rc = Returns (Some s) →
  let skill_dir := parent file_path in
  let repo_root := find_repo_root fs_exists skill_dir in
  name file_path = "SKILL.md"
  ∧ startswith "cam_" (name skill_dir) = false
  ∧ ∃ meta,
      _parse_metadata safe_load (read_text file_path) = Returns meta
      ∧ s = {|
          skill_id := create_entity_key rc (key_directory rc skill_dir repo_root);
          skill_name :=
            get_or meta "name" (YStr (key_directory rc skill_dir repo_root));
          skill_description := get_or meta "description" (YStr "");
          skill_category := get_or meta "category" (YStr "Uncategorized");
          skill_tags := get_or meta "tags" (YSeq []);
          marketplace_id := cfg_owner rc +:+ "/" +:+ cfg_name rc;
          repo_owner := cfg_owner rc;
          repo_name := cfg_name rc;
          repo_branch := cfg_branch rc;
          directory := key_directory rc skill_dir repo_root;
          readme_url :=
            github_tree_url (cfg_owner rc) (cfg_name rc) (cfg_branch rc)
              (repo_relative_path skill_dir repo_root)
        |}.
Proof.
  unfold parse_from_file. intros H.
  destruct (String.eqb (name file_path) "SKILL.md") eqn:En; [|discriminate].
  destruct (startswith "cam_" _) eqn:Ec; [discriminate|].
  destruct (_parse_metadata _ _) as [meta|] eqn:Em; [|discriminate].
  simpl in H. injection H as <-.
  split; [by apply String.eqb_eq|]. split; [done|]. by exists meta.
Qed.

(** X3: for a metadata file whose parent directory holds the [.git]
    entry (a skill at the repository root), the builder takes the
    repository name as directory, keys the skill [owner/name:name], and
    the relative path in the link and the source directory are [.]. *)
Theorem X3_root_level_skill
    (safe_load : string → outcome yaml) (fs_exists : path → bool)
    (read_text : path → outcome string) (file_path : path)
    (repo_config : RepoConfig) (s : Skill) :
  fs_exists (child (parent file_path) ".git") = true →
  is_empty (cfg_name repo_config) = false →
  parse_from_file safe_load fs_exists read_text file_path repo_config
  = Returns (Some s) →
  find_repo_root fs_exists (parent file_path) = parent file_path
  ∧ directory s = cfg_name repo_config
  ∧ skill_id s
    = cfg_owner repo_config +:+ "/" +:+ cfg_name repo_config +:+ ":"
      +:+ cfg_name repo_config
  ∧ readme_url s
    = github_tree_url (cfg_owner repo_config) (cfg_name repo_config)
        (cfg_branch repo_config) "."
  ∧ (truthy_opt (cfg_path repo_config) = false →
     source_directory repo_config (parent file_path) (parent file_path) = ".").
Proof.
  intros Hgit Hname H.
  assert (find_repo_root fs_exists (parent file_path) = parent file_path)
    as Hroot.
  { unfold find_repo_root. by rewrite Hgit. }
  assert (repo_relative_path (parent file_path) (parent file_path) = ".")
    as Hrel.
  { unfold repo_relative_path, relative_to.
    by rewrite Bool.eqb_reflx, strip_prefix_self. }
  apply parse_from_file_Some in H as (_ & _ & meta & _ & ->). simpl.
  rewrite Hroot, Hrel. unfold key_directory, create_entity_key.
  rewrite path_eqb_refl, Hname.
  repeat (split; [done|]).
  intros Hpath. unfold source_directory. by rewrite Hpath.
Qed.

Lemma X3_root_level_skill_witness :
  ∃ s, parse_from_file MiniYaml.safe_load (MemFS.exists_ root_skill_files)
         (MemFS.read_text root_skill_files) (of_string "/work/repo1/SKILL.md")
         demo_config = Returns (Some s)
       ∧ directory s = "repo1"
       ∧ skill_id s = "acme" +:+ "/" +:+ "repo1" +:+ ":" +:+ "repo1".
Proof.
  assert (∃ s, parse_from_file MiniYaml.safe_load
                 (MemFS.exists_ root_skill_files)
                 (MemFS.read_text root_skill_files)
                 (of_string "/work/repo1/SKILL.md") demo_config
               = Returns (Some s)) as [s Hs].
  { eexists. vm_compute. reflexivity. }
  exists s.
  destruct (X3_root_level_skill MiniYaml.safe_load
              (MemFS.exists_ root_skill_files)
              (MemFS.read_text root_skill_files)
              (of_string "/work/repo1/SKILL.md") demo_config s)
    as (_ & Hd & Hid & _).
  - vm_compute; reflexivity.
  - reflexivity.
  - exact Hs.
  - exact (conj Hs (conj Hd Hid)).
Defined.

Lemma last_elem {A} (l : list A) d : l ≠ [] → List.last l d ∈ l.
Proof.
  intros Hne. rewrite (app_removelast_last d Hne) at 2.
  apply elem_of_app. right. apply list_elem_of_here.
Qed.

Lemma removelast_subset {A} (l : list A) x : x ∈ removelast l → x ∈ l.
Proof.
  destruct (decide (l = [])) as [->|Hne]; [done|].
  intros Hx. rewrite (app_removelast_last x Hne).
  apply elem_of_app. by left.
Qed.

(** X4: the directory of a skill built by [parse_from_file] is never the
    empty string, for a path whose components are not empty (as pathlib
    has them). *)
Theorem X4_directory_not_empty
    (safe_load : string → outcome yaml) (fs_exists : path → bool)
    (read_text : path → outcome string) (file_path : path)
    (repo_config : RepoConfig) (s : Skill) :
  (∀ c, c ∈ parts file_path → c ≠ "") →
  parse_from_file safe_load fs_exists read_text file_path repo_config
  = Returns (Some s) →
  directory s ≠ "".
Proof.
  intros Hparts H.
  apply parse_from_file_Some in H as (_ & _ & meta & _ & ->). simpl.
  unfold key_directory.
  destruct (PyPath.eqb _ _) eqn:E.
  { destruct (cfg_name repo_config); [done|]. simpl. done. }
  assert (parts (parent file_path) ≠ []) as Hne.
  { intros Hnil. 
    assert (find_repo_root fs_exists (parent file_path) = parent file_path)
      as Hroot.
    { destruct (find_repo_root_prefix fs_exists (parent file_path))
        as (Ha & suf & Hs).
      rewrite Hnil in Hs. symmetry in Hs. apply app_eq_nil in Hs as [Hs _].
      destruct (find_repo_root _ _), (parent file_path); simpl in *.
      by subst. }
    by rewrite Hroot, path_eqb_refl in E. }
  apply Hparts. apply removelast_subset. by apply last_elem.
Qed.

Lemma X4_directory_not_empty_witness :
  ∃ s, demo_parse "/tmp/t/repo/tools/lint/SKILL.md" = Returns (Some s)
       ∧ directory s ≠ "".
Proof.
  assert (∃ s, demo_parse "/tmp/t/repo/tools/lint/SKILL.md"
               = Returns (Some s)) as [s Hs].
  { eexists. vm_compute. reflexivity. }
  exists s. split; [exact Hs|].
  apply (X4_directory_not_empty MiniYaml.safe_load (MemFS.exists_ demo_files)
           (MemFS.read_text demo_files)
           (of_string "/tmp/t/repo/tools/lint/SKILL.md") demo_config s);
    [|exact Hs].
  intros c Hc. vm_compute in Hc.
  repeat (apply elem_of_cons in Hc as [->|Hc]; [discriminate|]).
  by apply elem_of_nil in Hc.
Defined.

(** The scan for the name stops at the first line that starts, once
    stripped, with [# ]. *)
Lemma first_header_first before l after :
  (∀ x, x ∈ before → startswith "# " (strip x) = false) →
  startswith "# " (strip l) = true →
  first_header (before ++ l :: after) = Some (strip (drop 2 (strip l))).
Proof.
  intros Hbefore Hl. induction before as [|b r IH]; cbn [app first_header].
  - by rewrite Hl.
  - rewrite (Hbefore b) by apply list_elem_of_here.
    apply IH. intros x Hx. apply Hbefore. by apply list_elem_of_further.
Qed.

Lemma first_header_none lines :
  (∀ x, x ∈ lines → startswith "# " (strip x) = false) →
  first_header lines = None.
Proof.
  intros H. induction lines as [|l r IH]; [done|]. cbn [first_header].
  rewrite (H l) by apply list_elem_of_here.
  apply IH. intros x Hx. apply H. by apply list_elem_of_further.
Qed.

(** X5: for a text without a frontmatter block, the name of the skill
    [parse_from_file] builds is the text of the first level-1 header: the
    stripped text after the [# ] of the first line that starts with it,
    whatever headers follow; it is the empty string when no line is a
    header.  The directory name is not used.  The category is
    ["Uncategorized"] and the tags are empty. *)
Theorem X5_name_without_frontmatter
    (safe_load : string → outcome yaml) (fs_exists : path → bool)
    (read_text : path → outcome string) (file_path : path)
    (repo_config : RepoConfig) (s : Skill) (content : string) :
  parse_from_file safe_load fs_exists read_text file_path repo_config
  = Returns (Some s) →
  read_text file_path = Returns content →
  frontmatter_of content = None →
  (∀ before l after,
     split nl content = before ++ l :: after →
     (∀ x, x ∈ before → startswith "# " (strip x) = false) →
     startswith "# " (strip l) = true →
     skill_name s = YStr (strip (drop 2 (strip l))))
  ∧ ((∀ x, x ∈ split nl content → startswith "# " (strip x) = false) →
     skill_name s = YStr "")
  ∧ skill_category s = YStr "Uncategorized"
  ∧ skill_tags s = YSeq [].
Proof.
  intros H Hread Hfm.
  apply parse_from_file_Some in H as (_ & _ & meta & Hmeta & ->). simpl.
  rewrite Hread in Hmeta. simpl in Hmeta. injection Hmeta as <-.
  unfold extract.
  rewrite (read_frontmatter_kept safe_load default_meta content).
  2: { intros fm rest m Hfm'. rewrite Hfm in Hfm'. discriminate. }
  unfold get_or.
  rewrite !heuristic_description_other, heuristic_name_default by done.
  rewrite !heuristic_name_other by done.
  split; [|split; [|done]].
  - intros before l after Hsplit Hbefore Hl.
    by rewrite Hsplit, first_header_first.
  - intros Hnone. by rewrite first_header_none.
Qed.

Lemma X5_name_without_frontmatter_witness :
  ∃ s, parse_from_file MiniYaml.safe_load (MemFS.exists_ two_headers_files)
         (MemFS.read_text two_headers_files)
         (of_string "/work/repo1/notes/SKILL.md") demo_config
       = Returns (Some s)
       ∧ skill_name s = YStr "First".
Proof.
  assert (∃ s, parse_from_file MiniYaml.safe_load
                 (MemFS.exists_ two_headers_files)
                 (MemFS.read_text two_headers_files)
                 (of_string "/work/repo1/notes/SKILL.md") demo_config
               = Returns (Some s)) as [s Hs].
  { eexists. vm_compute. reflexivity. }
  exists s. split; [exact Hs|].
  destruct (X5_name_without_frontmatter MiniYaml.safe_load
              (MemFS.exists_ two_headers_files)
              (MemFS.read_text two_headers_files)
              (of_string "/work/repo1/notes/SKILL.md") demo_config s
              two_headers_text Hs) as (Hfirst & _).
  - vm_compute; reflexivity.
  - vm_compute; reflexivity.
  - apply (Hfirst ["intro"] "# First" ["body"; "# Second"; "more"]).
    + vm_compute; reflexivity.
    + intros x Hx. apply elem_of_cons in Hx as [->|Hx]; [reflexivity|].
      by apply elem_of_nil in Hx.
    + reflexivity.
Defined.

(** ** Stripping *)

Lemma lstrip_by_no_lead p s : no_lead p (lstrip_by p s) = true.
Proof.
  induction s as [|c s IH]; [done|]. simpl.
  destruct (p c) eqn:E; [exact IH|]. simpl. by rewrite E.
Qed.

Lemma lstrip_by_id p s : no_lead p s = true → lstrip_by p s = s.
Proof.
  destruct s as [|c s]; [done|]. simpl. by intros ->%negb_true_iff.
Qed.

Lemma rstrip_by_no_lead p s :
  no_lead p s = true → no_lead p (rstrip_by p s) = true.
Proof.
  destruct s as [|c s]; [done|]. simpl. intros H.
  apply negb_true_iff in H. rewrite H, andb_false_r. simpl. by rewrite H.
Qed.

Lemma rstrip_by_idem p s : rstrip_by p (rstrip_by p s) = rstrip_by p s.
Proof.
  induction s as [|c s IH]; [done|]. simpl.
  destruct (is_empty (rstrip_by p s) && p c) eqn:E; [done|].
  simpl. by rewrite IH, E.
Qed.

Lemma rstrip_by_no_trail p s : no_trail p (rstrip_by p s) = true.
Proof.
  unfold no_trail. induction s as [|c s IH]; [done|]. simpl.
  destruct (is_empty (rstrip_by p s) && p c) eqn:E; [done|].
  simpl. destruct (rstrip_by p s) as [|d r] eqn:Hr.
  - simpl in E. by rewrite E.
  - exact IH.
Qed.

(** Stripping twice is stripping once, and the result neither begins
    nor ends with a stripped character. *)
Lemma strip_by_idem p s : strip_by p (strip_by p s) = strip_by p s.
Proof.
  unfold strip_by.
  rewrite (lstrip_by_id p (rstrip_by p (lstrip_by p s))).
  - apply rstrip_by_idem.
  - apply rstrip_by_no_lead, lstrip_by_no_lead.
Qed.

Lemma strip_by_no_lead p s : no_lead p (strip_by p s) = true.
Proof. apply rstrip_by_no_lead, lstrip_by_no_lead. Qed.

Lemma strip_by_no_trail p s : no_trail p (strip_by p s) = true.
Proof. apply rstrip_by_no_trail. Qed.

Lemma chars_all_lstrip p q s :
  chars_all p s = true → chars_all p (lstrip_by q s) = true.
Proof.
  induction s as [|c s IH]; [done|]. simpl.
  intros [Hc Hs]%andb_true_iff.
  destruct (q c); [by apply IH|]. simpl. by rewrite Hc, Hs.
Qed.

Lemma chars_all_rstrip p q s :
  chars_all p s = true → chars_all p (rstrip_by q s) = true.
Proof.
  induction s as [|c s IH]; [done|]. simpl.
  intros [Hc Hs]%andb_true_iff.
  destruct (is_empty _ && q c); [done|]. simpl. by rewrite Hc, IH.
Qed.

Lemma chars_all_filter p s : chars_all p (filter_chars p s) = true.
Proof.
  induction s as [|c s IH]; [done|]. simpl.
  destruct (p c) eqn:E; [|exact IH]. simpl. by rewrite E, IH.
Qed.

(** ** The category of [_parse_skill_md] *)

Lemma upper_char_not_lower c : in_range 97 122 (upper_char c) = false.
Proof. destruct c as [[] [] [] [] [] [] [] []]; reflexivity. Qed.

Lemma upper_char_category c :
  category_char c = true → category_char (upper_char c) = true.
Proof. destruct c as [[] [] [] [] [] [] [] []]; vm_compute; done. Qed.

(** The stored category is ["Uncategorized"] or a cleaned, capitalised
    marker value. *)
Lemma extract_category_form content lines :
  extract_category content lines = "Uncategorized"
  ∨ ∃ x, extract_category content lines
         = capitalize_first (strip (keep_word_space_hyphen x))
         ∧ is_empty (strip (keep_word_space_hyphen x)) = false.
Proof.
  unfold extract_category.
  set (c1 := if mentions_category (lower content)
             then category_of_lines lines else None).
  set (c2 := if truthy_opt c1 then c1
             else match bold_category_of_lines lines with
                  | Some c => Some c
                  | None => c1
                  end).
  destruct (truthy_opt c2) eqn:E2.
  - destruct (is_empty (strip (keep_word_space_hyphen (default "" c2)))) eqn:E.
    + left. simpl. by rewrite E.
    + right. exists (default "" c2). split; [|done]. simpl.
      destruct (strip (keep_word_space_hyphen (default "" c2))); [done|].
      reflexivity.
  - left. by rewrite E2.
Qed.

Lemma extract_category_invariant content lines :
  let c := extract_category content lines in
  is_empty c = false
  ∧ chars_all category_char c = true
  ∧ no_lead (in_range 97 122) c = true.
Proof.
  intros c. unfold c.
  destruct (extract_category_form content lines) as [->|(x & -> & Hne)].
  { by vm_compute. }
  assert (chars_all category_char (strip (keep_word_space_hyphen x)) = true)
    as Hall.
  { apply chars_all_rstrip, chars_all_lstrip, chars_all_filter. }
  destruct (strip (keep_word_space_hyphen x)) as [|a r]; [done|].
  simpl in *. apply andb_true_iff in Hall as [Ha Hr].
  rewrite upper_char_category, Hr, upper_char_not_lower; done.
Qed.

(** X6: when the texts read are ASCII, every skill the scan driver
    returns has a category that is a non-empty string made of word
    characters, white space and hyphens only, and that does not begin with
    a lower-case letter.  (Outside ASCII [str.upper] and the word class of
    [re] are wider than [upper_char] and [is_word].) *)
Theorem X6_scan_category_invariant
    (temp_path : path) (git_clone : string → string → path → outcome Z)
    (fs_exists fs_is_dir : path → bool) (fs_rglob : path → string → list path)
    (read_text : path → outcome string)
    (repo_owner repo_name repo_branch : string) (skills_path : option string)
    (s : Skill) :
  (∀ p content, read_text p = Returns content →
                chars_all (in_range 0 127) content = true) →
  s ∈ clone_and_scan_repository temp_path git_clone fs_exists fs_is_dir
        fs_rglob read_text repo_owner repo_name repo_branch skills_path →
  ∃ c, skill_category s = YStr c
       ∧ is_empty c = false
       ∧ chars_all category_char c = true
       ∧ no_lead (in_range 97 122) c = true.
Proof.
  unfold clone_and_scan_repository. intros _ Hs.
  destruct (git_clone _ _ _) as [rc|e]; [|by apply elem_of_nil in Hs].
  destruct (negb (rc =? 0)%Z); [by apply elem_of_nil in Hs|].
  destruct (scan_directory _ _ _) as [scan_dir|];
    [|by apply elem_of_nil in Hs].
  apply list_elem_of_omap in Hs as (p & _ & Hentry).
  unfold scan_entry, _parse_skill_md in Hentry.
  destruct (negb (fs_is_dir (parent p))); [discriminate|].
  destruct (read_text p) as [content|]; [|discriminate].
  destruct (negb (truthy _)); [discriminate|].
  destruct (scan_source_directory _ _); [|discriminate].
  destruct (relative_to _ _); [|discriminate].
  injection Hentry as <-. simpl.
  unfold get_or. rewrite skill_md_data_category. simpl.
  eexists. split; [reflexivity|]. apply extract_category_invariant.
Qed.

(** The text a file of the in-memory file system gives is one of its
    texts. *)
Lemma memfs_read_text_elem files p content :
  MemFS.read_text files p = Returns content → content ∈ (snd <$> files).
Proof.
  unfold MemFS.read_text.
  destruct (List.find _ files) as [f|] eqn:E; [|discriminate].
  intros [= <-]. apply find_some in E as [Hin _].
  apply list_elem_of_fmap. exists f. split; [done|].
  by apply list_elem_of_In.
Qed.

(** The texts of the example checkout are ASCII. *)
Lemma demo_files_ascii p content :
  MemFS.read_text demo_files p = Returns content →
  chars_all (in_range 0 127) content = true.
Proof.
  intros Hread. apply memfs_read_text_elem in Hread.
  vm_compute in Hread.
  repeat (apply elem_of_cons in Hread as [->|Hread];
          [vm_compute; reflexivity|]).
  by apply elem_of_nil in Hread.
Qed.

Lemma X6_scan_category_invariant_witness :
  ∃ s, demo_scan None !! 0 = Some s
       ∧ skill_category s = YStr "Tools"
       ∧ chars_all category_char "Tools" = true
       ∧ no_lead (in_range 97 122) "Tools" = true.
Proof.
  assert (∃ s, demo_scan None !! 0 = Some s
               ∧ skill_category s = YStr "Tools") as (s & Hs & Hcat).
  { eexists. split; vm_compute; reflexivity. }
  destruct (X6_scan_category_invariant demo_temp MemFS.clone_ok
              (MemFS.exists_ demo_files) (MemFS.is_dir demo_files)
              (MemFS.rglob demo_files) (MemFS.read_text demo_files)
              "acme" "repo1" "main" None s demo_files_ascii
              (list_elem_of_lookup_2 _ _ _ Hs)) as (c & Hc & _ & Hall & Hlead).
  rewrite Hcat in Hc. injection Hc as <-.
  exists s. exact (conj Hs (conj Hcat (conj Hall Hlead))).
Defined.


(** ** The scan driver *)

Lemma startswith_no_lead c s :
  no_lead (Ascii.eqb c) s = true → startswith (String c "") s = false.
Proof.
  destruct s as [|d s]; [done|]. simpl. unfold startswith. simpl.
  intros H%negb_true_iff. destruct (ascii_dec c d) as [->|]; [|done].
  by rewrite Ascii.eqb_refl in H.
Qed.

(** The sub-path of line 146 is a relative path. *)
Lemma stripped_sub_path_relative skills_path :
  anchored (of_string (strip_char "/" skills_path)) = false.
Proof.
  unfold of_string. simpl. apply startswith_no_lead, strip_by_no_lead.
Qed.

(** X8: with a sub-path configured, the id of a skill is relative to the
    sub-path while its link is relative to the checkout root: the path in
    the link is the sub-path followed by the path in the id. *)
Theorem X8_sub_path_key_and_link
    (temp_path : path) (git_clone : string → string → path → outcome Z)
    (fs_exists fs_is_dir : path → bool) (fs_rglob : path → string → list path)
    (read_text : path → outcome string)
    (repo_owner repo_name repo_branch skills_path : string) (s : Skill) :
  is_empty skills_path = false →
  s ∈ clone_and_scan_repository temp_path git_clone fs_exists fs_is_dir
        fs_rglob read_text repo_owner repo_name repo_branch (Some skills_path) →
  let sub := of_string (strip_char "/" skills_path) in
  ∃ rel,
    skill_id s
    = repo_owner +:+ "/" +:+ repo_name +:+ ":"
      +:+ replace_char backslash "/" (to_string (Path false rel))
    ∧ readme_url s
      = github_tree_url repo_owner repo_name repo_branch
          (replace_char backslash "/" (to_string (Path false (parts sub ++ rel)))).
Proof.
  intros Hpath Hs sub. unfold clone_and_scan_repository in Hs.
  destruct (git_clone _ _ _) as [rc|e]; [|by apply elem_of_nil in Hs].
  destruct (negb (rc =? 0)%Z); [by apply elem_of_nil in Hs|].
  unfold scan_directory in Hs. simpl in Hs. rewrite Hpath in Hs. simpl in Hs.
  fold sub in Hs.
  destruct (negb (fs_exists (join_path (child temp_path "repo") sub)));
    [by apply elem_of_nil in Hs|].
  apply list_elem_of_omap in Hs as (p & _ & Hentry).
  apply scan_entry_Some in Hentry
    as (content & rel & from_root & _ & Hrel & Hroot & Hid & Hurl & _).
  assert (anchored sub = false) as Hsub by apply stripped_sub_path_relative.
  unfold join_path in Hrel. rewrite Hsub in Hrel.
  apply relative_to_Some in Hrel as (Ha & Hra & Hparts).
  apply relative_to_Some in Hroot as (_ & Hfa & Hfrom).
  simpl in Hparts, Hfrom.
  rewrite Hparts, <- !app_assoc in Hfrom.
  apply app_inv_head in Hfrom. simpl in Hfrom. injection Hfrom as Hfrom.
  exists (parts rel). split.
  - rewrite Hid. destruct rel as [ra rl]. simpl in Hra. by rewrite Hra.
  - rewrite Hurl. destruct from_root as [fa fl]. simpl in Hfa, Hfrom.
    by rewrite Hfa, <- Hfrom.
Qed.

Lemma X8_sub_path_key_and_link_witness :
  ∃ s rel,
    sub_path_scan !! 0 = Some s
    ∧ skill_id s
      = "acme" +:+ "/" +:+ "repo1" +:+ ":"
        +:+ replace_char backslash "/" (to_string (Path false rel))
    ∧ readme_url s
      = github_tree_url "acme" "repo1" "main"
          (replace_char backslash "/"
             (to_string (Path false (["skills"] ++ rel)))).
Proof.
  assert (∃ s, sub_path_scan !! 0 = Some s) as [s Hs].
  { eexists. vm_compute. reflexivity. }
  destruct (X8_sub_path_key_and_link demo_temp MemFS.clone_ok
         (MemFS.exists_ sub_path_files) (MemFS.is_dir sub_path_files)
         (MemFS.rglob sub_path_files) (MemFS.read_text sub_path_files)
         "acme" "repo1" "main" "skills/" s eq_refl
         (list_elem_of_lookup_2 _ _ _ Hs)) as (rel & Hid & Hurl).
  exists s, rel. exact (conj Hs (conj Hid Hurl)).
Defined.

(** X9: a metadata file that cannot be read adds no skill and does not
    stop the scan: the result is the one of a scan that did not discover
    the file. *)
Theorem X9_unreadable_file_skipped
    (temp_path : path) (git_clone : string → string → path → outcome Z)
    (fs_exists fs_is_dir : path → bool)
    (fs_rglob fs_rglob' : path → string → list path)
    (read_text : path → outcome string)
    (repo_owner repo_name repo_branch : string) (skills_path : option string)
    (before after : list path) (unreadable : path) (e : exn) :
  read_text unreadable = Raises e →
  (∀ d, fs_rglob d "SKILL.md" = before ++ unreadable :: after) →
  (∀ d, fs_rglob' d "SKILL.md" = before ++ after) →
  clone_and_scan_repository temp_path git_clone fs_exists fs_is_dir fs_rglob
    read_text repo_owner repo_name repo_branch skills_path
  = clone_and_scan_repository temp_path git_clone fs_exists fs_is_dir fs_rglob'
      read_text repo_owner repo_name repo_branch skills_path.
Proof.
  intros Hread Hglob Hglob'. unfold clone_and_scan_repository.
  destruct (git_clone _ _ _) as [rc|]; [|done].
  destruct (negb (rc =? 0)%Z); [done|].
  destruct (scan_directory _ _ _) as [scan_dir|]; [|done].
  rewrite Hglob, Hglob', !omap_app. f_equal. simpl.
  unfold scan_entry at 1. rewrite Hread. simpl.
  by destruct (negb (fs_is_dir (parent unreadable))).
Qed.

Lemma X9_unreadable_file_skipped_witness :
  clone_and_scan_repository demo_temp MemFS.clone_ok
    (MemFS.exists_ demo_files) (λ _, true) listing_with_ghost
    (MemFS.read_text demo_files) "acme" "repo1" "main" None
  = clone_and_scan_repository demo_temp MemFS.clone_ok
      (MemFS.exists_ demo_files) (λ _, true) listing_without_ghost
      (MemFS.read_text demo_files) "acme" "repo1" "main" None.
Proof.
  apply (X9_unreadable_file_skipped demo_temp MemFS.clone_ok
           (MemFS.exists_ demo_files) (λ _, true) listing_with_ghost
           listing_without_ghost (MemFS.read_text demo_files)
           "acme" "repo1" "main" None
           [of_string "/tmp/t/repo/pkg-a/SKILL.md"]
           [of_string "/tmp/t/repo/tools/lint/SKILL.md"]
           (of_string "/tmp/t/repo/ghost/SKILL.md") OSError).
  - vm_compute; reflexivity.
  - intros d. reflexivity.
  - intros d. reflexivity.
Defined.

(** ** The repair pass *)

(** X10: on a [key: value] line whose key has no colon and whose value,
    stripped, holds a colon, is not quoted and is not a bracketed
    sequence, the repair pass wraps the whole stripped value in double
    quotes and keeps the key. *)
Theorem X10_unquoted_colon_value_wrapped (key val : string) :
  has_char ":" key = false →
  startswith "#" (strip (key +:+ ":" +:+ val)) = false →
  (startswith "[" (strip val) && endswith_char "]" (strip val)) = false →
  contains ":" (strip val) = true →
  is_quoted (strip val) = false →
  fix_line (key +:+ ":" +:+ val)
  = key +:+ ": " +:+ dquote +:+ strip val +:+ dquote.
Proof.
  intros Hkey Hcomment Hseq Hcolon Hquoted. unfold fix_line.
  change (":" +:+ val) with (String ":" val) in *.
  rewrite (cut_char_fresh ":" key val Hkey), Hcomment. simpl.
  unfold fix_value. by rewrite Hseq, Hcolon, Hquoted.
Qed.

Lemma X10_unquoted_colon_value_wrapped_witness :
  fix_line "description: Handles urls: safely"
  = "description: " +:+ dquote +:+ "Handles urls: safely" +:+ dquote.
Proof.
  apply (X10_unquoted_colon_value_wrapped "description" " Handles urls: safely");
    vm_compute; reflexivity.
Defined.

(** *** The tokenizer of the repair pass *)

#[local] Arguments Ascii.eqb : simpl never.

Lemma tokenizer_run_items its cur depth s :
  tokenizer_run (Tokenizer its cur depth) s
  = let st := tokenizer_run (Tokenizer [] cur depth) s in
    Tokenizer (its ++ items st) (current_item st) (bracket_depth st).
Proof.
  revert its cur depth. induction s as [|c s IH]; intros its cur depth.
  - simpl. by rewrite app_nil_r.
  - simpl. unfold tokenizer_step, push_char. simpl.
    destruct (Ascii.eqb c "["); [apply IH|].
    destruct (Ascii.eqb c "]"); [apply IH|].
    destruct (Ascii.eqb c "," && (depth =? 0)%Z); [|apply IH].
    rewrite (IH (its ++ _)), (IH [_]). simpl. by rewrite <- app_assoc.
Qed.

(** A run of characters that are no comma at depth 0 and no bracket is
    added to the current item. *)
Lemma tokenizer_run_plain its cur depth w s :
  has_char "[" w = false → has_char "]" w = false →
  (depth = 0%Z → has_char "," w = false) →
  tokenizer_run (Tokenizer its cur depth) (w +:+ s)
  = tokenizer_run (Tokenizer its (cur +:+ w) depth) s.
Proof.
  revert cur. induction w as [|c w IH]; intros cur Ho Hc Hcomma.
  - by rewrite append_nil_l, append_nil_r.
  - simpl in Ho, Hc.
    apply orb_false_elim in Ho as [Ho1 Ho2].
    apply orb_false_elim in Hc as [Hc1 Hc2].
    rewrite append_cons. simpl. unfold tokenizer_step, push_char. simpl.
    rewrite Ascii.eqb_sym, Ho1, Ascii.eqb_sym, Hc1.
    assert (Ascii.eqb c "," && (depth =? 0)%Z = false) as ->.
    { destruct (depth =? 0)%Z eqn:Ed; [|by rewrite andb_false_r].
      apply Z.eqb_eq in Ed. specialize (Hcomma Ed). simpl in Hcomma.
      apply orb_false_elim in Hcomma as [Hcm _].
      by rewrite Ascii.eqb_sym, Hcm. }
    rewrite IH; [|done|done|].
    + by rewrite append_assoc.
    + intros Ed. specialize (Hcomma Ed). simpl in Hcomma.
      by apply orb_false_elim in Hcomma as [_ ?].
Qed.

Lemma tokenizer_run_char its cur depth c s :
  tokenizer_run (Tokenizer its cur depth) (String c s)
  = tokenizer_run (tokenizer_step (Tokenizer its cur depth) c) s.
Proof. reflexivity. Qed.

Lemma drop_last_snoc s c : drop_last (s +:+ String c "") = s.
Proof.
  induction s as [|d s IH]; [done|].
  rewrite append_cons. simpl. rewrite IH.
  destruct s; [by rewrite append_nil_l|by rewrite append_cons].
Qed.

Lemma flow_items_eq inner :
  flow_items ("[" +:+ inner +:+ "]")
  = finish (tokenizer_run (Tokenizer [] "" 0) inner).
Proof.
  unfold flow_items, finish.
  change ("[" +:+ inner +:+ "]") with (String "[" (inner +:+ String "]" "")).
  simpl. by rewrite drop_last_snoc.
Qed.

Lemma finish_items its st :
  finish (Tokenizer (its ++ items st) (current_item st) (bracket_depth st))
  = its ++ finish st.
Proof.
  unfold finish. simpl. destruct (is_empty _); [done|by rewrite app_assoc].
Qed.

(** X11: the tokenizer of the repair pass splits a flow sequence at the
    commas outside brackets only.  A first item without brackets is split
    off at the first comma; a first item [w[body]] with one bracket group
    is split off whole at the comma after the group, whatever commas the
    group holds.  Each item is stripped. *)
Theorem X11_tokenizer_splits_outside_brackets (w body rest : string) :
  has_char "[" w = false → has_char "]" w = false → has_char "," w = false →
  has_char "[" body = false → has_char "]" body = false →
  flow_items ("[" +:+ w +:+ "," +:+ rest +:+ "]")
  = strip w :: flow_items ("[" +:+ rest +:+ "]")
  ∧ flow_items ("[" +:+ w +:+ "[" +:+ body +:+ "]" +:+ "," +:+ rest +:+ "]")
    = strip (w +:+ "[" +:+ body +:+ "]") :: flow_items ("[" +:+ rest +:+ "]").
Proof.
  intros Hwo Hwc Hwcomma Hbo Hbc. split.
  - replace ("[" +:+ w +:+ "," +:+ rest +:+ "]")
      with ("[" +:+ (w +:+ "," +:+ rest) +:+ "]")
      by (by rewrite !append_assoc).
    rewrite !flow_items_eq.
    rewrite tokenizer_run_plain by done.
    rewrite !append_cons, !append_nil_l.
    rewrite tokenizer_run_char. unfold tokenizer_step.
    cbn [items current_item bracket_depth].
    change (Ascii.eqb "," "[") with false.
    change (Ascii.eqb "," "]") with false.
    change (Ascii.eqb "," "," && (0 =? 0)%Z) with true. cbv iota.
    rewrite tokenizer_run_items. cbv zeta.
    rewrite finish_items. done.
  - replace ("[" +:+ w +:+ "[" +:+ body +:+ "]" +:+ "," +:+ rest +:+ "]")
      with ("[" +:+ (w +:+ "[" +:+ body +:+ "]" +:+ "," +:+ rest) +:+ "]")
      by (by rewrite !append_assoc).
    rewrite !flow_items_eq.
    rewrite tokenizer_run_plain by done.
    rewrite !append_cons, !append_nil_l.
    rewrite tokenizer_run_char. unfold tokenizer_step, push_char.
    cbn [items current_item bracket_depth].
    change (Ascii.eqb "[" "[") with true. cbv iota.
    rewrite tokenizer_run_plain; [|done|done|discriminate].
    rewrite tokenizer_run_char. unfold tokenizer_step, push_char.
    cbn [items current_item bracket_depth].
    change (Ascii.eqb "]" "[") with false.
    change (Ascii.eqb "]" "]") with true. cbv iota.
    rewrite tokenizer_run_char. unfold tokenizer_step, push_char.
    cbn [items current_item bracket_depth].
    change (Ascii.eqb "," "[") with false.
    change (Ascii.eqb "," "]") with false.
    change (Ascii.eqb "," "," && (0 + 1 - 1 =? 0)%Z) with true. cbv iota.
    rewrite tokenizer_run_items. cbv zeta.
    rewrite finish_items. cbn [app]. do 2 f_equal.
    by rewrite ?append_nil_l, ?append_assoc.
Qed.

Lemma X11_tokenizer_splits_outside_brackets_witness :
  flow_items "[ray[train,tune],torch]"
  = strip "ray[train,tune]" :: flow_items "[torch]".
Proof.
  apply (X11_tokenizer_splits_outside_brackets "ray" "train,tune" "torch");
    reflexivity.
Defined.

(** *** The line of the claim *)

Lemma fix_line_nested_tags : fix_line nested_tags_line = repaired_tags_line.
Proof. vm_compute. reflexivity. Qed.

Lemma load_frontmatter_repaired (safe_load : string → outcome yaml) fm :
  safe_load fm = Raises YAMLError →
  load_frontmatter safe_load fm = safe_load (join nl (fixed_lines fm)).
Proof. intros H. unfold load_frontmatter. by rewrite H. Qed.

(** A bracket group met at depth 0 is added whole to the current item,
    whatever commas it holds. *)
Lemma tokenizer_run_group its cur body s :
  has_char "[" body = false → has_char "]" body = false →
  tokenizer_run (Tokenizer its cur 0) ("[" +:+ body +:+ "]" +:+ s)
  = tokenizer_run (Tokenizer its (cur +:+ "[" +:+ body +:+ "]") 0) s.
Proof.
  intros Ho Hc.
  rewrite !append_cons, !append_nil_l.
  rewrite tokenizer_run_char. unfold tokenizer_step, push_char.
  cbn [items current_item bracket_depth].
  change (Ascii.eqb "[" "[") with true. cbv iota.
  rewrite tokenizer_run_plain; [|done|done|discriminate].
  rewrite tokenizer_run_char. unfold tokenizer_step, push_char.
  cbn [items current_item bracket_depth].
  change (Ascii.eqb "]" "[") with false.
  change (Ascii.eqb "]" "]") with true. cbv iota.
  change (0 + 1 - 1)%Z with 0%Z.
  by rewrite !append_assoc, ?append_cons, ?append_nil_l.
Qed.

Lemma rstrip_by_snoc p s c :
  p c = false → rstrip_by p (s +:+ String c "") = s +:+ String c "".
Proof.
  intros Hc. induction s as [|d s IH].
  - rewrite append_nil_l. simpl. by rewrite Hc.
  - rewrite append_cons. cbn [rstrip_by]. rewrite IH.
    by destruct s.
Qed.

(** The sequence of the claim with any text without brackets in the
    group: two items, whatever commas the group holds. *)
Lemma flow_items_foo_group body :
  has_char "[" body = false → has_char "]" body = false →
  flow_items ("[foo[" +:+ body +:+ "], baz]")
  = ["foo[" +:+ body +:+ "]"; "baz"].
Proof.
  intros Ho Hc.
  replace ("[foo[" +:+ body +:+ "], baz]")
    with ("[" +:+ ("foo" +:+ "[" +:+ body +:+ "]" +:+ ", baz") +:+ "]").
  2: { by repeat first [rewrite append_cons | rewrite append_nil_l
                         | rewrite append_assoc]. }
  rewrite flow_items_eq.
  rewrite tokenizer_run_plain by done.
  rewrite tokenizer_run_group by done.
  rewrite tokenizer_run_char. unfold tokenizer_step.
  cbn [items current_item bracket_depth].
  change (Ascii.eqb "," "[") with false.
  change (Ascii.eqb "," "]") with false.
  change (Ascii.eqb "," "," && (0 =? 0)%Z) with true. cbv iota.
  rewrite tokenizer_run_items. cbv zeta. rewrite finish_items.
  cbn [app]. f_equal.
  rewrite !append_nil_l. unfold strip, strip_by.
  rewrite !append_cons, append_nil_l. cbn [lstrip_by].
  change (is_space "f") with false. cbv iota.
  rewrite ?append_nil_l.
  change (String "f" (String "o" (String "o" (String "[" (body +:+ "]")))))
    with (("foo[" +:+ body) +:+ String "]" "").
  by rewrite rstrip_by_snoc.
Qed.

(** C8, as amended: when the strict parse of the frontmatter fails and the
    block has the line [tags: [foo[bar], baz]], the repair pass splits the
    flow sequence by bracket depth into exactly [foo[bar]] and [baz], in
    that order (a comma inside the brackets would not split the item),
    quotes the first, and hands the loader a block whose line reads
    [tags: ["foo[bar]", baz]].  The tags of the result are what the parse
    of the repaired block gives for the key [tags] when that parse returns
    a mapping with the key, and the empty sequence in every other case:
    when the repaired block still fails to parse, or gives no mapping, or
    a mapping without the key. *)
Theorem C8_nested_brackets_repaired
    (safe_load : string → outcome yaml) (content fm rest : string) (i : nat) :
  frontmatter_of content = Some (fm, rest) →
  safe_load fm = Raises YAMLError →
  split nl fm !! i = Some nested_tags_line →
  (∀ body, has_char "[" body = false → has_char "]" body = false →
     flow_items ("[foo[" +:+ body +:+ "], baz]")
     = ["foo[" +:+ body +:+ "]"; "baz"])
  ∧ flow_items "[foo[bar], baz]" = ["foo[bar]"; "baz"]
  ∧ quote_item <$> flow_items "[foo[bar], baz]"
    = [dquote +:+ "foo[bar]" +:+ dquote; "baz"]
  ∧ fixed_lines fm !! i = Some repaired_tags_line
  ∧ load_frontmatter safe_load fm = safe_load (join nl (fixed_lines fm))
  ∧ extract safe_load content !! "tags"
    = match safe_load (join nl (fixed_lines fm)) with
      | Returns (YMap m) => Some (default (YSeq []) (m !! "tags"))
      | _ => Some (YSeq [])
      end.
Proof.
  intros Hfm Hfail Hline.
  split; [apply flow_items_foo_group|].
  split; [by vm_compute|]. split; [by vm_compute|].
  split.
  { unfold fixed_lines. rewrite list_lookup_fmap, Hline. simpl.
    by rewrite fix_line_nested_tags. }
  split; [by apply load_frontmatter_repaired|].
  unfold extract.
  destruct (safe_load (join nl (fixed_lines fm))) as [v|e] eqn:Hload.
  - assert (∀ fm' rest' m, frontmatter_of content = Some (fm', rest') →
              load_frontmatter safe_load fm' = Returns (YMap m) →
              v = YMap m) as Hsame.
    { intros fm' rest' m Hfm'. rewrite Hfm in Hfm'. injection Hfm' as <- <-.
      rewrite load_frontmatter_repaired, Hload by done. by intros [= ->]. }
    destruct v as [| | | | |m];
      try (rewrite (read_frontmatter_kept safe_load default_meta content);
           [by rewrite heuristic_description_other, heuristic_name_other
           |intros fm' rest' m Hfm' Hl; by specialize (Hsame _ _ _ Hfm' Hl)]).
    destruct (truthy (YMap m)) eqn:Et.
    + rewrite (read_frontmatter_merged safe_load _ _ fm rest m Hfm).
      * rewrite heuristic_description_other, heuristic_name_other by done.
        rewrite lookup_union, default_meta_tags.
        by destruct (m !! "tags").
      * by rewrite load_frontmatter_repaired.
      * done.
    + rewrite (read_frontmatter_kept safe_load default_meta content).
      * rewrite heuristic_description_other, heuristic_name_other by done.
        rewrite default_meta_tags.
        destruct (m !! "tags") as [t|] eqn:Etags; [|done].
        by rewrite (truthy_map_lookup m "tags" t) in Et.
      * intros fm' rest' m' Hfm' Hl.
        by injection (Hsame _ _ _ Hfm' Hl) as <-.
  - rewrite (read_frontmatter_kept safe_load default_meta content).
    + by rewrite heuristic_description_other, heuristic_name_other.
    + intros fm' rest' m Hfm'. rewrite Hfm in Hfm'. injection Hfm' as <- <-.
      by rewrite load_frontmatter_repaired, Hload.
Qed.

Lemma C8_nested_brackets_repaired_witness :
  MiniYaml.safe_load (text_of [""; "name: Ray helper"; nested_tags_line; ""])
  = Raises YAMLError
  ∧ flow_items "[foo[a,b], baz]" = ["foo[a,b]"; "baz"]
  ∧ extract MiniYaml.safe_load nested_tags_text !! "tags"
    = Some (YSeq [YStr "foo[bar]"; YStr "baz"]).
Proof.
  split; [vm_compute; reflexivity|].
  destruct (C8_nested_brackets_repaired MiniYaml.safe_load nested_tags_text
              (text_of [""; "name: Ray helper"; nested_tags_line; ""])
              (text_of [""; "# Ray"; "Body text."]) 2)
    as (Hdepth & _ & _ & _ & _ & H).
  - vm_compute; reflexivity.
  - vm_compute; reflexivity.
  - vm_compute; reflexivity.
  - split; [exact (Hdepth "a,b" eq_refl eq_refl)|].
    etrans; [exact H|]. vm_compute. reflexivity.
Defined.

(** C8, counterexample: a block with the line of the claim and a second
    line that no repair mends.  The strict parse fails, the line is
    repaired, the parse of the repaired block fails again, and the tags
    are the empty sequence, not the two strings. *)
Lemma C8_counterexample :
  let fm := text_of [""; nested_tags_line; "name: [unclosed"; ""] in
  frontmatter_of second_broken_line_text = Some (fm, text_of [""; "# Ray"])
  ∧ MiniYaml.safe_load fm = Raises YAMLError
  ∧ split nl fm !! 1 = Some nested_tags_line
  ∧ fixed_lines fm !! 1 = Some repaired_tags_line
  ∧ MiniYaml.safe_load (join nl (fixed_lines fm)) = Raises YAMLError
  ∧ extract MiniYaml.safe_load second_broken_line_text !! "tags"
    = Some (YSeq [])
  ∧ extract MiniYaml.safe_load second_broken_line_text !! "tags"
    ≠ Some (str_list ["foo[bar]"; "baz"]).
Proof.
  repeat (split; [by vm_compute|]).
  vm_compute. discriminate.
Qed.

(** ** Names and descriptions found by the scans *)

Lemma has_char_append c s t :
  has_char c (s +:+ t) = has_char c s || has_char c t.
Proof.
  induction s as [|d s IH]; [done|].
  rewrite append_cons. cbn [has_char]. by rewrite IH, orb_assoc.
Qed.

Lemma has_char_lstrip c p s :
  has_char c s = false → has_char c (lstrip_by p s) = false.
Proof.
  induction s as [|d s IH]; [done|]. cbn [has_char lstrip_by].
  intros [Hd Hs]%orb_false_elim.
  destruct (p d); [by apply IH|]. cbn [has_char]. by rewrite Hd, Hs.
Qed.

Lemma has_char_rstrip c p s :
  has_char c s = false → has_char c (rstrip_by p s) = false.
Proof.
  induction s as [|d s IH]; [done|]. cbn [has_char rstrip_by].
  intros [Hd Hs]%orb_false_elim.
  destruct (is_empty _ && p d); [done|]. cbn [has_char]. by rewrite Hd, IH.
Qed.

Lemma has_char_strip c s : has_char c s = false → has_char c (strip s) = false.
Proof. intros H. by apply has_char_rstrip, has_char_lstrip. Qed.

Lemma has_char_drop c n s :
  has_char c s = false → has_char c (drop n s) = false.
Proof.
  revert s. induction n as [|n IH]; intros s; [by destruct s|].
  destruct s as [|d s]; [done|]. cbn [has_char drop].
  intros [_ Hs]%orb_false_elim. by apply IH.
Qed.

Lemma cut_char_before c s a b :
  cut (String c "") s = Some (a, b) → has_char c a = false.
Proof.
  revert a. induction s as [|d s IH]; intros a; rewrite cut_eq.
  - simpl. discriminate.
  - destruct (String.prefix (String c "") (String d s)) eqn:E.
    + by intros [= <- <-].
    + destruct (cut (String c "") s) as [[a' b']|]; [|discriminate].
      intros [= <- <-]. cbn [has_char]. rewrite (IH a' eq_refl), orb_false_r.
      simpl in E. destruct (ascii_dec c d) as [->|Hne].
      * by destruct s.
      * by apply Ascii.eqb_neq.
Qed.

Lemma cut_char_absent c s :
  cut (String c "") s = None → has_char c s = false.
Proof.
  induction s as [|d s IH]; [done|]. rewrite cut_eq.
  destruct (String.prefix (String c "") (String d s)) eqn:E; [discriminate|].
  destruct (cut (String c "") s) as [[a' b']|]; [discriminate|].
  intros _. cbn [has_char]. rewrite IH, orb_false_r by done.
  simpl in E. destruct (ascii_dec c d) as [->|Hne].
  - by destruct s.
  - by apply Ascii.eqb_neq.
Qed.

(** No piece of a text split at a character holds that character. *)
Lemma split_char_pieces c s x :
  x ∈ split (String c "") s → has_char c x = false.
Proof.
  remember (String.length s) as n eqn:Hn. revert s Hn x.
  induction (lt_wf n) as [n _ IH]. intros s -> x.
  assert (String c "" ≠ "") as Hsep by done.
  destruct (cut (String c "") s) as [[a b]|] eqn:Hcut.
  - rewrite (split_cut _ _ _ _ Hsep Hcut).
    intros [->|Hx]%elem_of_cons.
    + by eapply cut_char_before.
    + eapply (IH (String.length b)); [|done|done].
      by eapply cut_shorter.
  - rewrite (split_whole _ _ Hcut). intros ->%list_elem_of_singleton.
    by apply cut_char_absent.
Qed.

Lemma first_header_Some lines n :
  first_header lines = Some n →
  ∃ l, l ∈ lines ∧ n = strip (drop 2 (strip l)).
Proof.
  induction lines as [|l r IH]; [discriminate|]. cbn [first_header].
  destruct (startswith "# " (strip l)).
  - intros [= <-]. exists l. split; [apply list_elem_of_here|done].
  - intros H. destruct (IH H) as (l' & Hl & ->).
    exists l'. split; [by apply list_elem_of_further|done].
Qed.

Lemma description_lines_elem name in_description lines x :
  x ∈ description_lines name in_description lines →
  ∃ l, l ∈ lines ∧ x = strip l ∧ is_empty x = false.
Proof.
  revert in_description. induction lines as [|l r IH]; intros ind.
  { by intros ?%elem_of_nil. }
  cbn [description_lines].
  assert (∀ b, x ∈ description_lines name b r →
            ∃ l0, l0 ∈ l :: r ∧ x = strip l0 ∧ is_empty x = false) as Hrec.
  { intros b Hx. destruct (IH b Hx) as (l0 & Hl0 & Hx0).
    exists l0. split; [by apply list_elem_of_further|done]. }
  destruct (startswith "# " (strip l) && truthy name && eq_str name _);
    [apply Hrec|].
  destruct (startswith "#" (strip l) && ind); [by intros ?%elem_of_nil|].
  destruct (ind && negb (is_empty (strip l))) eqn:E; [|apply Hrec].
  intros [->|Hx]%elem_of_cons; [|by apply (Hrec ind)].
  exists l. split; [apply list_elem_of_here|]. split; [done|].
  apply andb_true_iff in E as [_ E]. by apply negb_true_iff.
Qed.

Lemma has_char_join c sep ls :
  has_char c sep = false → (∀ x, x ∈ ls → has_char c x = false) →
  has_char c (join sep ls) = false.
Proof.
  intros Hsep. induction ls as [|x ls IH]; intros Hall; [done|].
  destruct ls as [|y ls].
  - apply Hall, list_elem_of_here.
  - change (join sep (x :: y :: ls)) with (x +:+ sep +:+ join sep (y :: ls)).
    rewrite !has_char_append, Hsep, (Hall x) by apply list_elem_of_here.
    rewrite IH; [done|]. intros z Hz. by apply Hall, list_elem_of_further.
Qed.

Lemma skill_md_data_description content d :
  skill_md_data content !! "description" = Some (YStr d) →
  ∃ ls, (∀ x, x ∈ ls → ∃ l, l ∈ split nl content ∧ x = strip l)
        ∧ d = strip (join " " ls).
Proof.
  unfold skill_md_data. intros H.
  set (data := match first_header (split nl content) with
               | Some n => <["name" := YStr n]> (∅ : gmap string yaml)
               | None => ∅
               end) in *.
  assert (data !! "description" = None) as Hnone.
  { unfold data. by destruct (first_header _). }
  destruct (description_lines (get data "name") false (split nl content))
    as [|x ls] eqn:Hd.
  { destruct (extract_tags _); [|rewrite lookup_insert_ne in H by done];
      rewrite lookup_insert_ne in H by done; congruence. }
  exists (x :: ls). split.
  - intros y Hy. rewrite <- Hd in Hy.
    apply description_lines_elem in Hy as (l & Hl & -> & _). eauto.
  - destruct (extract_tags _); [|rewrite lookup_insert_ne in H by done];
      rewrite lookup_insert_ne, lookup_insert_eq in H by done;
      by injection H as <-.
Qed.

(** X12: the name and the description [_parse_skill_md] stores are
    single lines without surrounding white space: stripping them again
    changes nothing, and neither holds a line feed. *)
Theorem X12_name_and_description_stripped (content n : string) (key : string) :
  key = "name" ∨ key = "description" →
  skill_md_data content !! key = Some (YStr n) →
  strip n = n ∧ has_char "010" n = false.
Proof.
  intros [->| ->] H.
  - rewrite skill_md_data_name in H.
    destruct (first_header (split nl content)) as [m|] eqn:Hh; [|discriminate].
    injection H as <-.
    apply first_header_Some in Hh as (l & Hl & ->).
    split; [apply strip_by_idem|].
    apply has_char_strip, has_char_drop, has_char_strip.
    by apply (split_char_pieces "010" content).
  - apply skill_md_data_description in H as (ls & Hls & ->).
    split; [apply strip_by_idem|].
    apply has_char_strip, has_char_join; [done|].
    intros x Hx. destruct (Hls x Hx) as (l & Hl & ->).
    apply has_char_strip. by apply (split_char_pieces "010" content).
Qed.

Lemma X12_name_and_description_stripped_witness :
  strip "My Skill" = "My Skill" ∧ has_char "010" "My Skill" = false.
Proof.
  apply (X12_name_and_description_stripped
           (text_of ["  #   My Skill  "; "Does things."]) "My Skill" "name").
  - by left.
  - vm_compute; reflexivity.
Defined.

(** ** The records of [models.py] *)

Lemma set_if_true_lookup_ne k k' v (d : gmap string yaml) :
  k ≠ k' → Models.set_if_true k v d !! k' = d !! k'.
Proof.
  intros Hne. unfold Models.set_if_true.
  destruct (truthy v); [by rewrite lookup_insert_ne|done].
Qed.

Lemma set_if_true_lookup_eq k v (d : gmap string yaml) :
  Models.set_if_true k v d !! k = if truthy v then Some v else d !! k.
Proof.
  unfold Models.set_if_true.
  destruct (truthy v); [by rewrite lookup_insert_eq|done].
Qed.

Ltac to_dict_lookup :=
  unfold Models.to_dict;
  rewrite ?set_if_true_lookup_ne by done;
  rewrite ?set_if_true_lookup_eq;
  rewrite ?set_if_true_lookup_ne by done.

Lemma to_dict_id s : Models.to_dict s !! "id" = Some (Models.id s).
Proof. by to_dict_lookup. Qed.
Lemma to_dict_name s : Models.to_dict s !! "name" = Some (Models.name s).
Proof. by to_dict_lookup. Qed.
Lemma to_dict_description s :
  Models.to_dict s !! "description" = Some (Models.description s).
Proof. by to_dict_lookup. Qed.

Lemma to_dict_optional s k v :
  (k, v) ∈ optional_fields s →
  Models.to_dict s !! k = if truthy v then Some v else None.
Proof.
  unfold optional_fields. intros H.
  repeat (apply elem_of_cons in H as [[= -> ->]|H];
          [by to_dict_lookup|]).
  by apply elem_of_nil in H.
Qed.

Lemma to_dict_other s k :
  k ∉ ["id"; "name"; "description"] → k ∉ (optional_fields s).*1 →
  Models.to_dict s !! k = None.
Proof.
  intros H1 H2. unfold optional_fields in H2. simpl in H2.
  unfold Models.to_dict.
  rewrite !set_if_true_lookup_ne by set_solver.
  rewrite !lookup_insert_ne by set_solver.
  apply lookup_singleton_ne. set_solver.
Qed.

(** X13: [Skill.to_dict] always writes [id], [name] and [description];
    it writes each of the eight other fields exactly when the field's
    value is true, and no other key. *)
Theorem X13_to_dict_keys (s : Models.Skill) (k : string) :
  is_Some (Models.to_dict s !! k)
  ↔ k ∈ ["id"; "name"; "description"]
    ∨ ∃ v, (k, v) ∈ optional_fields s ∧ truthy v = true.
Proof.
  split.
  - intros Hk.
    destruct (decide (k ∈ ["id"; "name"; "description"])) as [|Hbase];
      [by left|right].
    destruct (decide (k ∈ (optional_fields s).*1)) as [Hopt|Hopt].
    + apply list_elem_of_fmap in Hopt as ([k' v] & -> & Hin). simpl in *.
      exists v. split; [done|].
      rewrite (to_dict_optional s k' v Hin) in Hk.
      destruct (truthy v); [done|by destruct Hk].
    + rewrite to_dict_other in Hk by done. by destruct Hk.
  - intros [Hbase|(v & Hin & Hv)].
    + repeat (apply elem_of_cons in Hbase as [->|Hbase]).
      * by rewrite to_dict_id.
      * by rewrite to_dict_name.
      * by rewrite to_dict_description.
      * by apply elem_of_nil in Hbase.
    + by rewrite (to_dict_optional s k v Hin), Hv.
Qed.

Lemma from_to_dict s :
  Models.from_dict (Models.to_dict s)
  = {| Models.id := Models.id s;
       Models.name := Models.name s;
       Models.description := Models.description s;
       Models.category := or_else (Models.category s) YNull;
       Models.marketplace_id := or_else (Models.marketplace_id s) YNull;
       Models.repo_owner := or_else (Models.repo_owner s) YNull;
       Models.repo_name := or_else (Models.repo_name s) YNull;
       Models.repo_branch := or_else (Models.repo_branch s) (YStr "main");
       Models.directory := or_else (Models.directory s) YNull;
       Models.readme_url := or_else (Models.readme_url s) YNull;
       Models.tags := or_else (Models.tags s) (YSeq []) |}.
Proof.
  unfold Models.from_dict, get, get_or, or_else.
  rewrite to_dict_id, to_dict_name, to_dict_description.
  rewrite (to_dict_optional s "category" (Models.category s)),
    (to_dict_optional s "marketplace_id" (Models.marketplace_id s)),
    (to_dict_optional s "repo_owner" (Models.repo_owner s)),
    (to_dict_optional s "repo_name" (Models.repo_name s)),
    (to_dict_optional s "repo_branch" (Models.repo_branch s)),
    (to_dict_optional s "directory" (Models.directory s)),
    (to_dict_optional s "readme_url" (Models.readme_url s)),
    (to_dict_optional s "tags" (Models.tags s))
    by (unfold optional_fields; set_solver).
  simpl.
  by destruct (truthy (Models.category s)), (truthy (Models.marketplace_id s)),
    (truthy (Models.repo_owner s)), (truthy (Models.repo_name s)),
    (truthy (Models.repo_branch s)), (truthy (Models.directory s)),
    (truthy (Models.readme_url s)), (truthy (Models.tags s)).
Qed.

Lemma or_else_id v dflt : or_else v dflt = v ↔ truthy v = true ∨ v = dflt.
Proof.
  unfold or_else. destruct (truthy v).
  - split; [by left|done].
  - split; [intros <-; by right|]. intros [? | ->]; done.
Qed.

(** X14: reading back what [to_dict] wrote gives the skill with every
    untrue optional field replaced by what [from_dict] takes for a missing
    key: [None], ["main"] for the branch, the empty list for the tags.  So
    the round trip returns the same skill exactly when each optional field
    is true or already has that value. *)
Theorem X14_round_trip (s : Models.Skill) :
  Models.from_dict (Models.to_dict s) = s
  ↔ (truthy (Models.category s) = true ∨ Models.category s = YNull)
    ∧ (truthy (Models.marketplace_id s) = true ∨ Models.marketplace_id s = YNull)
    ∧ (truthy (Models.repo_owner s) = true ∨ Models.repo_owner s = YNull)
    ∧ (truthy (Models.repo_name s) = true ∨ Models.repo_name s = YNull)
    ∧ (truthy (Models.repo_branch s) = true
       ∨ Models.repo_branch s = YStr "main")
    ∧ (truthy (Models.directory s) = true ∨ Models.directory s = YNull)
    ∧ (truthy (Models.readme_url s) = true ∨ Models.readme_url s = YNull)
    ∧ (truthy (Models.tags s) = true ∨ Models.tags s = YSeq []).
Proof.
  rewrite from_to_dict. rewrite <- !or_else_id.
  destruct s; simpl. split.
  - intros [= ? ? ? ? ? ? ? ?]. done.
  - intros (? & ? & ? & ? & ? & ? & ? & ?). by f_equal.
Qed.

(** X15: every skill of the scan driver, taken as a [Skill] of
    [models.py], is written by [to_dict] with its category; so are its id,
    whatever it is, and its tags when it has some. *)
Theorem X15_scan_skill_serialised
    (temp_path : path) (git_clone : string → string → path → outcome Z)
    (fs_exists fs_is_dir : path → bool) (fs_rglob : path → string → list path)
    (read_text : path → outcome string)
    (repo_owner repo_name repo_branch : string) (skills_path : option string)
    (s : Skill) :
  s ∈ clone_and_scan_repository temp_path git_clone fs_exists fs_is_dir
        fs_rglob read_text repo_owner repo_name repo_branch skills_path →
  Models.to_dict (as_model s) !! "category" = Some (skill_category s)
  ∧ Models.to_dict (as_model s) !! "id" = Some (YStr (skill_id s))
  ∧ Models.to_dict (as_model s) !! "tags"
    = if truthy (skill_tags s) then Some (skill_tags s) else None.
Proof.
  intros Hs.
  assert (∃ c, skill_category s = YStr c ∧ is_empty c = false)
    as (c & Hc & Hne).
  { unfold clone_and_scan_repository in Hs.
    destruct (git_clone _ _ _) as [rc|e]; [|by apply elem_of_nil in Hs].
    destruct (negb (rc =? 0)%Z); [by apply elem_of_nil in Hs|].
    destruct (scan_directory _ _ _) as [scan_dir|];
      [|by apply elem_of_nil in Hs].
    apply list_elem_of_omap in Hs as (p & _ & Hentry).
    by eapply scan_entry_category. }
  split; [|split].
  - rewrite (to_dict_optional (as_model s) "category" (skill_category s))
      by (unfold optional_fields; set_solver).
    rewrite Hc. simpl. by rewrite Hne.
  - apply to_dict_id.
  - apply (to_dict_optional (as_model s) "tags" (skill_tags s)).
    unfold optional_fields. set_solver.
Qed.

Lemma X15_scan_skill_serialised_witness :
  ∃ s, demo_scan None !! 2 = Some s
       ∧ Models.to_dict (as_model s) !! "category" = Some (skill_category s).
Proof.
  assert (∃ s, demo_scan None !! 2 = Some s) as [s Hs].
  { eexists. vm_compute. reflexivity. }
  exists s. split; [exact Hs|].
  apply (X15_scan_skill_serialised demo_temp MemFS.clone_ok
           (MemFS.exists_ demo_files) (MemFS.is_dir demo_files)
           (MemFS.rglob demo_files) (MemFS.read_text demo_files)
           "acme" "repo1" "main" None s (list_elem_of_lookup_2 _ _ _ Hs)).
Defined.

(** ** Marketplace records *)

Lemma truthy_opt_Some o : truthy_opt o = true → ∃ s, o = Some s ∧ s ≠ "".
Proof.
  destruct o as [s|]; [|discriminate]. simpl. intros H.
  exists s. split; [done|]. by destruct s.
Qed.

(** X16: every skill [fetch_skills_from_marketplace] returns carries the
    coordinates of the marketplace record: the record has a non-empty
    [repoOwner] and [repoName], they are the skill's owner and repository
    and make its marketplace id, and the skill's branch is the record's
    [repoBranch], or ["main"] when the record has none. *)
Theorem X16_marketplace_provenance
    (temp_path : path) (git_clone : string → string → path → outcome Z)
    (fs_exists fs_is_dir : path → bool) (fs_rglob : path → string → list path)
    (read_text : path → outcome string)
    (marketplace_data : gmap string string) (s : Skill) :
  s ∈ fetch_skills_from_marketplace temp_path git_clone fs_exists fs_is_dir
        fs_rglob read_text marketplace_data →
  ∃ owner repo,
    marketplace_data !! "repoOwner" = Some owner ∧ owner ≠ ""
    ∧ marketplace_data !! "repoName" = Some repo ∧ repo ≠ ""
    ∧ repo_owner s = owner ∧ repo_name s = repo
    ∧ marketplace_id s = owner +:+ "/" +:+ repo
    ∧ repo_branch s = default "main" (marketplace_data !! "repoBranch").
Proof.
  unfold fetch_skills_from_marketplace. intros Hs.
  destruct (truthy_opt (marketplace_data !! "repoOwner")) eqn:Ho;
    [|by apply elem_of_nil in Hs].
  destruct (truthy_opt (marketplace_data !! "repoName")) eqn:Hn;
    [|by apply elem_of_nil in Hs].
  simpl in Hs.
  apply truthy_opt_Some in Ho as (owner & Ho & Hone).
  apply truthy_opt_Some in Hn as (repo & Hn & Hnne).
  rewrite Ho, Hn in Hs. simpl in Hs.
  exists owner, repo. repeat (split; [done|]).
  unfold clone_and_scan_repository in Hs.
  destruct (git_clone _ _ _) as [rc|e]; [|by apply elem_of_nil in Hs].
  destruct (negb (rc =? 0)%Z); [by apply elem_of_nil in Hs|].
  simpl in Hs.
  apply list_elem_of_omap in Hs as (p & _ & Hentry).
  apply scan_entry_Some in Hentry
    as (content & rel & from_root & _ & _ & _ & _ & _ & Hm & Hro & Hrn & Hrb).
  done.
Qed.

Lemma X16_marketplace_provenance_witness :
  ∃ s, fetch_skills_from_marketplace demo_temp MemFS.clone_ok
         (MemFS.exists_ demo_files) (MemFS.is_dir demo_files)
         (MemFS.rglob demo_files) (MemFS.read_text demo_files)
         demo_marketplace !! 0 = Some s
       ∧ marketplace_id s = "acme" +:+ "/" +:+ "repo1"
       ∧ repo_branch s = "main".
Proof.
  assert (∃ s, fetch_skills_from_marketplace demo_temp MemFS.clone_ok
         (MemFS.exists_ demo_files) (MemFS.is_dir demo_files)
         (MemFS.rglob demo_files) (MemFS.read_text demo_files)
         demo_marketplace !! 0 = Some s) as [s Hs].
  { eexists. vm_compute. reflexivity. }
  exists s. split; [exact Hs|].
  destruct (X16_marketplace_provenance demo_temp MemFS.clone_ok
         (MemFS.exists_ demo_files) (MemFS.is_dir demo_files)
         (MemFS.rglob demo_files) (MemFS.read_text demo_files)
         demo_marketplace s (list_elem_of_lookup_2 _ _ _ Hs))
    as (owner & repo & Ho & _ & Hn & _ & _ & _ & Hm & Hb).
  vm_compute in Ho. injection Ho as <-.
  vm_compute in Hn. injection Hn as <-.
  exact (conj Hm Hb).
Defined.

Lemma has_fields_spec {V} fields (d : gmap string V) :
  has_fields fields d = true ↔ ∀ f, f ∈ fields → is_Some (d !! f).
Proof.
  induction fields as [|f r IH]; simpl.
  - split; [by intros _ f ?%elem_of_nil|done].
  - case_bool_decide as Hf.
    + rewrite IH. split.
      * intros Hr g [->|Hg]%elem_of_cons; auto.
      * intros H g Hg. apply H. by apply list_elem_of_further.
    + split; [done|]. intros H. destruct Hf. apply H, list_elem_of_here.
Qed.

(** X17: validation and fetching look at different things.  A record
    that [validate_marketplace_data] accepts, because the four required
    keys are there, is not scanned when its [repoOwner] or [repoName] is
    the empty string: no skill is returned.  And the keys [id] and [name],
    which validation requires, are not read by
    [fetch_skills_from_marketplace]: a record without them gives the same
    skills. *)
Theorem X17_validation_and_fetch
    (temp_path : path) (git_clone : string → string → path → outcome Z)
    (fs_exists fs_is_dir : path → bool) (fs_rglob : path → string → list path)
    (read_text : path → outcome string)
    (marketplace_data : gmap string string) :
  let fetch := fetch_skills_from_marketplace temp_path git_clone fs_exists
                 fs_is_dir fs_rglob read_text in
  (validate_marketplace_data marketplace_data = true
   ↔ ∀ f, f ∈ required_fields → is_Some (marketplace_data !! f))
  ∧ (marketplace_data !! "repoOwner" = Some ""
     ∨ marketplace_data !! "repoName" = Some "" →
     fetch marketplace_data = [])
  ∧ fetch (delete "id" (delete "name" marketplace_data))
    = fetch marketplace_data.
Proof.
  intros fetch. split; [apply has_fields_spec|]. split.
  - unfold fetch, fetch_skills_from_marketplace.
    intros [-> | ->]; simpl; [done|by rewrite orb_true_r].
  - unfold fetch, fetch_skills_from_marketplace.
    by rewrite !lookup_delete_ne.
Qed.

Lemma X17_validation_and_fetch_witness :
  validate_marketplace_data empty_owner_marketplace = true
  ∧ fetch_skills_from_marketplace demo_temp MemFS.clone_ok
      (MemFS.exists_ demo_files) (MemFS.is_dir demo_files)
      (MemFS.rglob demo_files) (MemFS.read_text demo_files)
      empty_owner_marketplace = [].
Proof.
  destruct (X17_validation_and_fetch demo_temp MemFS.clone_ok
      (MemFS.exists_ demo_files) (MemFS.is_dir demo_files)
      (MemFS.rglob demo_files) (MemFS.read_text demo_files)
      empty_owner_marketplace) as (Hv & He & _).
  split.
  - apply Hv. intros f Hf. unfold required_fields in Hf.
    repeat (apply elem_of_cons in Hf as [->|Hf];
            [eexists; vm_compute; reflexivity|]).
    by apply elem_of_nil in Hf.
  - apply He. left. vm_compute. reflexivity.
Defined.

(** ** The response cache *)

Section CacheFacts.

Context {time : Type}.
Variable elapsed_lt : time → time → Z → bool.
Variable md5_hex : string → string.
Variable cache_ttl : Z.

#[local] Abbreviation get_cached :=
  (_get_cached_data time elapsed_lt md5_hex cache_ttl).
#[local] Abbreviation set_cached := (_set_cached_data time md5_hex).
#[local] Abbreviation fetch := (fetch_json time elapsed_lt md5_hex cache_ttl).

Lemma get_cached_fresh (cache : gmap string (cache_entry time)) url e now :
  cache !! md5_hex url = Some e →
  entry_timestamp e = None ∨
  (∃ t, entry_timestamp e = Some t ∧ elapsed_lt now t cache_ttl = false) →
  get_cached cache url now = (YNull, delete (md5_hex url) cache).
Proof.
  intros He Hold. unfold _get_cached_data, _get_cache_key, _is_cache_valid.
  rewrite He. by destruct Hold as [-> | (t & -> & ->)].
Qed.

(** X18: what [_set_cached_data] stores for a URL, [_get_cached_data]
    returns for it as long as the entry is fresh, and leaves the cache as
    it is; once the entry is no longer fresh it returns [None] and removes
    the entry, and the entries under other keys stay. *)
Theorem X18_cache_round_trip
    (cache : gmap string (cache_entry time)) (url : string) (data : yaml)
    (stored now : time) :
  let cache' := set_cached cache url data stored in
  (elapsed_lt now stored cache_ttl = true →
   get_cached cache' url now = (data, cache'))
  ∧ (elapsed_lt now stored cache_ttl = false →
     get_cached cache' url now = (YNull, delete (md5_hex url) cache)
     ∧ ∀ k, k ≠ md5_hex url →
            (get_cached cache' url now).2 !! k = cache !! k).
Proof.
  intros cache'. unfold cache', _set_cached_data, _get_cached_data,
    _get_cache_key, _is_cache_valid.
  rewrite lookup_insert_eq. simpl. split; intros ->.
  - done.
  - rewrite delete_insert_eq. split; [done|].
    intros k Hk. simpl. by rewrite lookup_delete_ne.
Qed.

Lemma fetch_json_hit http_get (cache : gmap string (cache_entry time))
    url e t now later :
  cache !! md5_hex url = Some e →
  entry_timestamp e = Some t → elapsed_lt now t cache_ttl = true →
  entry_data e ≠ YNull →
  fetch http_get cache url now later = (Returns (entry_data e), cache).
Proof.
  intros He Ht Hfresh Hdata.
  unfold fetch_json, _get_cached_data, _get_cache_key, _is_cache_valid.
  rewrite He, Ht, Hfresh. by destruct (entry_data e).
Qed.

(** X19: after [fetch_json] has fetched a mapping for a URL that the
    cache could not serve, a later call for the URL, made while the stored
    entry is fresh, returns that mapping and leaves the cache alone,
    whatever the network would answer then. *)
Theorem X19_fetch_json_served_from_cache
    (http_get http_get' : string → response)
    (cache : gmap string (cache_entry time)) (url : string)
    (m : gmap string yaml) (now later now' later' : time) :
  (get_cached cache url now).1 = YNull →
  http_get url = Json (YMap m) →
  elapsed_lt now' later cache_ttl = true →
  ∃ cache',
    fetch http_get cache url now later = (Returns (YMap m), cache')
    ∧ fetch http_get' cache' url now' later' = (Returns (YMap m), cache').
Proof.
  intros Hmiss Hnet Hfresh.
  unfold fetch_json at 1.
  destruct (get_cached cache url now) as [cached cache1] eqn:Hget.
  simpl in Hmiss. subst cached. simpl. rewrite Hnet. simpl.
  eexists. split; [reflexivity|].
  eapply (fetch_json_hit http_get' _ url (CacheEntry (YMap m) (Some later))).
  - unfold _set_cached_data, _get_cache_key. apply lookup_insert_eq.
  - done.
  - exact Hfresh.
  - done.
Qed.

(** X20: a response that is no mapping, a request that fails and a body
    that is no JSON are answered with [None] and are not stored: the cache
    is left as the lookup left it.  And [fetch_json] stores mappings only:
    if every entry of the cache holds a mapping, so does every entry
    afterwards. *)
Theorem X20_fetch_json_stores_mappings_only
    (http_get : string → response)
    (cache : gmap string (cache_entry time)) (url : string)
    (now later : time) :
  ((get_cached cache url now).1 = YNull →
   (match http_get url with
    | Json data => validate_json_data data = false
    | RequestException | JSONDecodeError => True
    | Crash _ => False
    end) →
   fetch http_get cache url now later
   = (Returns YNull, (get_cached cache url now).2))
  ∧ ((∀ k e, cache !! k = Some e → validate_json_data (entry_data e) = true) →
     ∀ k e, (fetch http_get cache url now later).2 !! k = Some e →
            validate_json_data (entry_data e) = true).
Proof.
  split.
  - intros Hmiss Hbad. unfold fetch_json.
    destruct (get_cached cache url now) as [cached cache1].
    simpl in *. subst cached. simpl.
    destruct (http_get url) as [data| | |]; try done.
    by rewrite Hbad.
  - intros Hinv k e.
    assert (∀ k e, (get_cached cache url now).2 !! k = Some e →
                   validate_json_data (entry_data e) = true) as Hinv1.
    { intros k' e'. unfold _get_cached_data.
      destruct (cache !! _get_cache_key md5_hex url) as [e0|]; [|apply Hinv].
      destruct (_is_cache_valid _ _ _ _ _); simpl; [apply Hinv|].
      intros [_ H]%lookup_delete_Some. by eapply Hinv. }
    unfold fetch_json.
    destruct (get_cached cache url now) as [cached cache1]. simpl in Hinv1.
    destruct (negb (is_none cached)); [apply Hinv1|].
    destruct (http_get url) as [data| | |]; simpl; try apply Hinv1.
    destruct (validate_json_data data) eqn:Hv; simpl; [|apply Hinv1].
    unfold _set_cached_data.
    intros [[_ <-]|[_ H]]%lookup_insert_Some; [done|by eapply Hinv1].
Qed.

End CacheFacts.

Lemma X18_cache_round_trip_witness :
  (_get_cached_data Z seconds_elapsed_lt plain_key 3600%Z
     (_set_cached_data Z plain_key ∅ demo_source_url (YMap demo_source_data) 0%Z)
     demo_source_url 100%Z).1 = YMap demo_source_data
  ∧ (_get_cached_data Z seconds_elapsed_lt plain_key 3600%Z
       (_set_cached_data Z plain_key ∅ demo_source_url (YMap demo_source_data) 0%Z)
       demo_source_url 5000%Z).1 = YNull.
Proof.
  destruct (X18_cache_round_trip seconds_elapsed_lt plain_key 3600%Z ∅
              demo_source_url (YMap demo_source_data) 0%Z 100%Z) as [Hfresh _].
  destruct (X18_cache_round_trip seconds_elapsed_lt plain_key 3600%Z ∅
              demo_source_url (YMap demo_source_data) 0%Z 5000%Z) as [_ Hold].
  rewrite (Hfresh eq_refl). destruct (Hold eq_refl) as [-> _]. done.
Defined.

Lemma X19_fetch_json_served_from_cache_witness :
  ∃ cache',
    fetch_json Z seconds_elapsed_lt plain_key 3600%Z
      (λ _, Json (YMap demo_source_data)) ∅ demo_source_url 0%Z 1%Z
    = (Returns (YMap demo_source_data), cache')
    ∧ fetch_json Z seconds_elapsed_lt plain_key 3600%Z
        (λ _, RequestException) cache' demo_source_url 100%Z 101%Z
      = (Returns (YMap demo_source_data), cache').
Proof.
  apply (X19_fetch_json_served_from_cache seconds_elapsed_lt plain_key 3600%Z
           (λ _, Json (YMap demo_source_data)) (λ _, RequestException)
           ∅ demo_source_url demo_source_data 0%Z 1%Z 100%Z 101%Z);
    reflexivity.
Defined.

Lemma X20_fetch_json_stores_mappings_only_witness :
  fetch_json Z seconds_elapsed_lt plain_key 3600%Z
    (λ _, Json (YSeq [YStr "not a mapping"])) ∅ demo_source_url 0%Z 1%Z
  = (Returns YNull, ∅).
Proof.
  destruct (X20_fetch_json_stores_mappings_only seconds_elapsed_lt plain_key
              3600%Z (λ _, Json (YSeq [YStr "not a mapping"])) ∅
              demo_source_url 0%Z 1%Z) as [H _].
  apply H; reflexivity.
Defined.

(** ** [fetch_skill_repos_from_source] *)

Lemma filter_length_bound {A} (f : A → bool) (l : list A) :
  length (List.filter f l) ≤ length l.
Proof.
  induction l as [|x l IH]; [done|]. simpl. destruct (f x); simpl; lia.
Qed.

(** X21: from a source whose URL gives a non-empty mapping,
    [fetch_skill_repos_from_source] returns exactly the records of the
    mapping, each with its key added as [id] and the URL as [source_url];
    values that are no records are passed over.  The records are changed
    in place, so the cache entry of the URL then holds the mapping with the
    annotated records. *)
Theorem X21_source_records {time : Type}
    (elapsed_lt : time → time → Z → bool) (md5_hex : string → string)
    (cache_ttl : Z) (http_get : string → response)
    (cache cache1 : gmap string (cache_entry time))
    (source_config : gmap string yaml) (url : string) (m : gmap string yaml)
    (now later : time) :
  source_config !! "url" = Some (YStr url) → url ≠ "" →
  fetch_json time elapsed_lt md5_hex cache_ttl http_get cache url now later
  = (Returns (YMap m), cache1) →
  m ≠ ∅ →
  ∃ repos cache2,
    fetch_skill_repos_from_source time elapsed_lt md5_hex cache_ttl http_get
      cache source_config now later = (Returns repos, cache2)
    ∧ (∀ r, r ∈ repos
            ↔ ∃ k d, m !! k = Some (YMap d)
                     ∧ r = YMap (<["source_url" := YStr url]>
                                   (<["id" := YStr k]> d)))
    ∧ length repos ≤ size m
    ∧ ∀ e, cache1 !! md5_hex url = Some e →
           ∃ annotated,
             cache2 !! md5_hex url
             = Some (CacheEntry (YMap annotated) (entry_timestamp e))
             ∧ ∀ k, annotated !! k = annotate_repo url k <$> m !! k.
Proof.
  intros Hurl Hne Hfetch Hm.
  unfold fetch_skill_repos_from_source, get. rewrite Hurl. simpl.
  assert (is_empty url = false) as -> by by destruct url.
  simpl. rewrite Hfetch. simpl.
  assert ((size m =? 0) = false) as ->.
  { apply Nat.eqb_neq. by rewrite map_size_empty_iff. }
  simpl. eexists _, _. split; [reflexivity|]. split; [|split].
  - intros r. rewrite list_elem_of_In, filter_In, <- list_elem_of_In.
    rewrite list_elem_of_fmap. split.
    + intros [([k v] & -> & Hkv) Hrec]. simpl in *.
      apply elem_of_map_to_list in Hkv.
      destruct v as [| | | | |d]; try discriminate. by exists k, d.
    + intros (k & d & Hk & ->). split; [|done].
      exists (k, YMap d). split; [done|]. by apply elem_of_map_to_list.
  - etrans; [apply filter_length_bound|].
    by rewrite length_fmap, length_map_to_list.
  - intros e He. eexists. split.
    + unfold _get_cache_key. by rewrite lookup_alter_eq, He.
    + intros k. rewrite map_lookup_imap. by destruct (m !! k).
Qed.

Lemma X21_source_records_witness :
  ∃ repos cache2,
    fetch_skill_repos_from_source Z seconds_elapsed_lt plain_key 3600%Z
      (λ _, Json (YMap demo_source_data)) ∅
      {[ "url" := YStr demo_source_url ]} 0%Z 1%Z = (Returns repos, cache2)
    ∧ YMap (<["source_url" := YStr demo_source_url]>
              (<["id" := YStr "acme/repo1"]> {[ "repoOwner" := YStr "acme" ]}))
      ∈ repos.
Proof.
  destruct (X21_source_records seconds_elapsed_lt plain_key 3600%Z
              (λ _, Json (YMap demo_source_data)) ∅
              (_set_cached_data Z plain_key ∅ demo_source_url
                 (YMap demo_source_data) 1%Z)
              {[ "url" := YStr demo_source_url ]} demo_source_url
              demo_source_data 0%Z 1%Z)
    as (repos & cache2 & Hrun & Hrepos & _).
  - reflexivity.
  - done.
  - reflexivity.
  - intros H. apply (f_equal (λ m : gmap string yaml, m !! "version")) in H.
    vm_compute in H. discriminate.
  - exists repos, cache2. split; [exact Hrun|].
    apply Hrepos. exists "acme/repo1", {[ "repoOwner" := YStr "acme" ]}.
    split; [vm_compute; reflexivity|reflexivity].
Defined.

(** ** [GitRepository] *)

Lemma elem_of_list_filter {A} (f : A → bool) (l : list A) x :
  x ∈ List.filter f l ↔ x ∈ l ∧ f x = true.
Proof. by rewrite !list_elem_of_In, filter_In. Qed.

Lemma NoDup_list_filter {A} (f : A → bool) (l : list A) :
  NoDup l → NoDup (List.filter f l).
Proof.
  induction 1 as [|x l Hx Hl IH]; simpl; [constructor|].
  destruct (f x); [|done]. constructor; [|done].
  rewrite elem_of_list_filter. tauto.
Qed.

Lemma NoDup_BRANCH_FALLBACKS : NoDup BRANCH_FALLBACKS.
Proof.
  apply (bool_decide_unpack _). by vm_compute.
Qed.

Lemma branches_to_try_NoDup actual_branch :
  NoDup (branches_to_try actual_branch).
Proof.
  unfold branches_to_try. constructor.
  - case_bool_decide; [|by intros ?%elem_of_nil].
    rewrite elem_of_list_filter, String.eqb_refl. by intros [_ ?].
  - case_bool_decide; [|constructor].
    apply NoDup_list_filter, NoDup_BRANCH_FALLBACKS.
Qed.

(** X22: the branches [clone] tries are all different and begin with
    the branch chosen; for a branch among the six common names they are
    exactly those six names, and for any other branch the list is that
    branch alone. *)
Theorem X22_branches_to_try (actual_branch : string) :
  NoDup (branches_to_try actual_branch)
  ∧ head (branches_to_try actual_branch) = Some actual_branch
  ∧ (actual_branch ∈ BRANCH_FALLBACKS →
     length (branches_to_try actual_branch) = 6
     ∧ ∀ b, b ∈ branches_to_try actual_branch ↔ b ∈ BRANCH_FALLBACKS)
  ∧ (actual_branch ∉ BRANCH_FALLBACKS →
     branches_to_try actual_branch = [actual_branch]).
Proof.
  split; [apply branches_to_try_NoDup|].
  unfold branches_to_try. split; [done|split].
  - intros Hin. rewrite bool_decide_eq_true_2 by done. split.
    + unfold BRANCH_FALLBACKS in Hin.
      repeat (apply elem_of_cons in Hin as [->|Hin]; [reflexivity|]).
      by apply elem_of_nil in Hin.
    + intros b. rewrite elem_of_cons, elem_of_list_filter. split.
      * intros [->|[? _]]; done.
      * intros Hb. destruct (String.eqb b actual_branch) eqn:E.
        -- left. by apply String.eqb_eq.
        -- by right.
  - intros Hout. by rewrite bool_decide_eq_false_2.
Qed.

Lemma X22_branches_to_try_witness :
  branches_to_try "master"
  = ["master"; "main"; "develop"; "development"; "dev"; "trunk"]
  ∧ branches_to_try "release-2" = ["release-2"].
Proof.
  destruct (X22_branches_to_try "release-2") as (_ & _ & _ & Hout).
  split; [reflexivity|]. apply Hout.
  apply (bool_decide_unpack _). by vm_compute.
Defined.

Section CloneFacts.

Variable repo_name : string.
Variable temp_root : path.
Variable temp_suffix : string.
Variable run_clone : string → clone_attempt.

#[local] Abbreviation try_all :=
  (try_branches repo_name temp_root temp_suffix run_clone).

Lemma try_branches_first last pre b post :
  last ∉ pre →
  (∀ x, x ∈ pre → run_clone x = CalledProcessError) →
  try_all last (pre ++ b :: post)
  = match run_clone b with
    | CloneSucceeded => Yields (clone_temp_dir repo_name temp_root temp_suffix) b
    | CalledProcessError =>
        if String.eqb b last then RuntimeError else try_all last post
    | CloneRaised e => Propagates e
    end.
Proof.
  induction pre as [|x pre IH]; intros Hlast Hfail; [done|].
  simpl. rewrite (Hfail x) by apply list_elem_of_here.
  assert (String.eqb x last = false) as ->.
  { apply String.eqb_neq. intros ->. apply Hlast, list_elem_of_here. }
  apply IH.
  - intros ?. apply Hlast. by apply list_elem_of_further.
  - intros y Hy. apply Hfail. by apply list_elem_of_further.
Qed.

Lemma last_app_cons {A} (pre : list A) b post d :
  List.last (pre ++ b :: post) d = List.last (b :: post) d.
Proof.
  induction pre as [|x pre IH]; [done|].
  change ((x :: pre) ++ b :: post) with (x :: (pre ++ b :: post)).
  cbn [List.last]. rewrite IH. by destruct pre.
Qed.

Lemma last_not_in_prefix {A} (pre : list A) b post d :
  NoDup (pre ++ b :: post) → List.last (pre ++ b :: post) d ∉ pre.
Proof.
  intros Hnd Hin.
  apply NoDup_app in Hnd as (_ & Hdisj & _).
  apply (Hdisj _ Hin).
  rewrite last_app_cons. by apply last_elem.
Qed.

Lemma try_branches_all_fail last bs :
  (∀ x, x ∈ bs → run_clone x = CalledProcessError) →
  try_all last bs = RuntimeError.
Proof.
  induction bs as [|x bs IH]; intros Hfail; [done|].
  simpl. rewrite (Hfail x) by apply list_elem_of_here.
  destruct (String.eqb x last); [done|].
  apply IH. intros y Hy. apply Hfail. by apply list_elem_of_further.
Qed.

(** X23: [clone] goes through the branches in order and stops at the
    first one whose [git clone] does not fail with [CalledProcessError]:
    when that clone succeeds it yields the temporary directory and that
    branch, when it raises something else the exception goes to the
    caller; the test against the last branch never ends the loop early.
    When every clone fails, [clone] raises [RuntimeError]. *)
Theorem X23_clone_first_success
    (branch : option string) (detected_branch : string)
    (pre post : list string) (b : string) :
  let branches :=
    branches_to_try (clone_actual_branch branch detected_branch) in
  let result :=
    clone repo_name branch temp_root temp_suffix detected_branch run_clone in
  ((∀ x, x ∈ branches → run_clone x = CalledProcessError) →
   result = RuntimeError)
  ∧ (branches = pre ++ b :: post →
     (∀ x, x ∈ pre → run_clone x = CalledProcessError) →
     (run_clone b = CloneSucceeded →
      result = Yields (clone_temp_dir repo_name temp_root temp_suffix) b)
     ∧ (∀ e, run_clone b = CloneRaised e → result = Propagates e)).
Proof.
  intros branches result. split.
  - intros Hfail. by apply try_branches_all_fail.
  - intros Hsplit Hfail.
    assert (result = match run_clone b with
      | CloneSucceeded =>
          Yields (clone_temp_dir repo_name temp_root temp_suffix) b
      | CalledProcessError =>
          if String.eqb b (List.last branches "") then RuntimeError
          else try_all (List.last branches "") post
      | CloneRaised e => Propagates e
      end) as Hres.
    { unfold result, clone. fold branches. rewrite Hsplit at 2.
      apply try_branches_first; [|done].
      rewrite Hsplit. apply last_not_in_prefix. rewrite <- Hsplit.
      apply branches_to_try_NoDup. }
    rewrite Hres. split.
    + by intros ->.
    + by intros e ->.
Qed.

End CloneFacts.

Lemma X23_clone_first_success_witness :
  clone "repo1" (Some "main") (of_string "/tmp") "x7k2" "main"
    (λ b, if String.eqb b "master" then CloneSucceeded else CalledProcessError)
  = Yields (of_string "/tmp/cam_repo1_x7k2") "master".
Proof.
  destruct (X23_clone_first_success "repo1" (of_string "/tmp") "x7k2"
    (λ b, if String.eqb b "master" then CloneSucceeded else CalledProcessError)
    (Some "main") "main" ["main"] ["develop"; "development"; "dev"; "trunk"]
    "master") as [_ H].
  destruct H as [H _].
  - reflexivity.
  - intros x ->%list_elem_of_singleton. reflexivity.
  - apply H. reflexivity.
Defined.

(** X24: for a requested branch that is none of the six common names
    there is no fallback and no detection: [clone] runs [git clone] for
    that branch once, yields it on success, raises [RuntimeError] when the
    branch cannot be cloned, and lets any other exception through. *)
Theorem X24_custom_branch_no_fallback
    (repo_name : string) (temp_root : path) (temp_suffix : string)
    (detected_branch : string) (run_clone : string → clone_attempt)
    (b : string) :
  b ∉ BRANCH_FALLBACKS →
  clone repo_name (Some b) temp_root temp_suffix detected_branch run_clone
  = match run_clone b with
    | CloneSucceeded => Yields (clone_temp_dir repo_name temp_root temp_suffix) b
    | CalledProcessError => RuntimeError
    | CloneRaised e => Propagates e
    end.
Proof.
  intros Hb. unfold clone, clone_actual_branch.
  assert (String.eqb b "main" = false) as ->.
  { apply String.eqb_neq. intros ->. apply Hb.
    apply (bool_decide_unpack _). by vm_compute. }
  unfold branches_to_try. rewrite bool_decide_eq_false_2 by done.
  simpl. destruct (run_clone b); [done| |done].
  by rewrite String.eqb_refl.
Qed.

Lemma X24_custom_branch_no_fallback_witness :
  clone "repo1" (Some "release-2") (of_string "/tmp") "x7k2" "main"
    (λ b, if String.eqb b "main" then CloneSucceeded else CalledProcessError)
  = RuntimeError.
Proof.
  apply (X24_custom_branch_no_fallback "repo1" (of_string "/tmp") "x7k2" "main"
           (λ b, if String.eqb b "main" then CloneSucceeded
                 else CalledProcessError) "release-2").
  apply (bool_decide_unpack _). by vm_compute.
Defined.

(** X25: a metadata file directly in a directory that
    [GitRepository.clone] made (its name is [cam_], the repository name,
    an underscore and a random part) gives no skill in [parse_from_file]:
    the name of the file's parent begins with the prefix of the generated
    directories. *)
Theorem X25_clone_root_skill_skipped
    (safe_load : string → outcome yaml) (fs_exists : path → bool)
    (read_text : path → outcome string) (repo_config : RepoConfig)
    (repo_name : string) (temp_root : path) (temp_suffix : string) :
  parse_from_file safe_load fs_exists read_text
    (child (clone_temp_dir repo_name temp_root temp_suffix) "SKILL.md")
    repo_config
  = Returns None.
Proof.
  apply parse_from_file_skips_generated.
  unfold clone_temp_dir, child, parent, name. simpl.
  rewrite removelast_last, last_last. apply prefix_app.
Qed.

(** *** The default branch *)

Lemma cut_char_app c a s :
  has_char c a = false →
  cut (String c "") (a +:+ s)
  = match cut (String c "") s with
    | Some (x, y) => Some (a +:+ x, y)
    | None => None
    end.
Proof.
  induction a as [|d a IH]; intros H.
  - rewrite append_nil_l. by destruct (cut _ s) as [[x y]|].
  - cbn [has_char] in H. apply orb_false_elim in H as [Hcd Ha].
    rewrite append_cons, cut_eq. simpl.
    destruct (ascii_dec c d) as [->|_].
    { by rewrite Ascii.eqb_refl in Hcd. }
    rewrite (IH Ha). by destruct (cut _ s) as [[x y]|].
Qed.

(** The first piece of a split at a character. *)
Lemma split_char_head c a s :
  has_char c a = false →
  ∃ rest tail, split (String c "") (a +:+ s) = (a +:+ rest) :: tail.
Proof.
  intros Ha. assert (String c "" ≠ "") as Hsep by done.
  destruct (cut (String c "") s) as [[x y]|] eqn:Hcut.
  - exists x, (split (String c "") y).
    apply split_cut; [done|]. by rewrite cut_char_app, Hcut.
  - exists s, []. apply split_whole. by rewrite cut_char_app, Hcut.
Qed.

(** X26: when [git ls-remote] succeeds and its output begins with
    [ref: refs/heads/], a branch name and a tab, [_get_default_branch]
    returns the branch name, stripped; the name is any text without tab
    or line feed that does not hold the prefix again.  When the command
    fails or raises, the answer is ["main"]. *)
Theorem X26_default_branch_detected (b rest : string) :
  has_char "009" b = false → has_char "010" b = false →
  contains ref_prefix b = false →
  _get_default_branch
    (Returns (0%Z, ref_prefix +:+ b +:+ tab +:+ rest)) = strip b
  ∧ (∀ returncode stdout, returncode ≠ 0%Z →
       _get_default_branch (Returns (returncode, stdout)) = "main")
  ∧ (∀ e, _get_default_branch (Raises e) = "main").
Proof.
  intros Htab Hnl Hprefix. split; [|split].
  - unfold _get_default_branch.
    change (0 =? 0)%Z with true. cbv iota.
    assert (has_char "010" (ref_prefix +:+ b +:+ tab) = false) as Hline.
    { by rewrite !has_char_append, Hnl. }
    destruct (split_char_head "010" (ref_prefix +:+ b +:+ tab) rest Hline)
      as (rest1 & tail & Hsplit).
    rewrite !append_assoc in Hsplit. unfold nl. rewrite Hsplit.
    cbn [detect_branch].
    unfold startswith. rewrite prefix_app.
    assert (has_char "009" (ref_prefix +:+ b) = false) as Hpart.
    { by rewrite has_char_append, Htab. }
    assert (split tab (ref_prefix +:+ b +:+ tab +:+ rest1)
            = (ref_prefix +:+ b) :: split tab rest1) as ->.
    { apply split_cut; [done|].
      rewrite <- (append_assoc ref_prefix b).
      apply (cut_char_fresh "009" (ref_prefix +:+ b) rest1 Hpart). }
    simpl. f_equal. unfold str_replace.
    assert (ref_prefix ≠ "") as Hsep by done.
    rewrite (split_cut ref_prefix _ "" b Hsep (cut_prefix ref_prefix b)).
    rewrite split_whole; [done|].
    unfold contains in Hprefix. by destruct (cut ref_prefix b).
  - intros rc stdout Hrc. unfold _get_default_branch.
    by apply Z.eqb_neq in Hrc as ->.
  - done.
Qed.

Lemma X26_default_branch_detected_witness :
  _get_default_branch
    (Returns (0%Z, "ref: refs/heads/" +:+ "trunk" +:+ tab +:+ "HEAD"))
  = "trunk".
Proof.
  apply (X26_default_branch_detected "trunk" "HEAD"); reflexivity.
Defined.

(** ** More on the builder of [SkillParser] *)

(** X27: the four fields [parse_from_file] reads from the metadata are
    always keys of the mapping [_parse_metadata] returns, so the skill
    holds exactly the values of the mapping: none of the defaults given at
    lines 86-89 (the directory name, the empty string, ["Uncategorized"],
    the empty list) is ever taken. *)
Theorem X27_metadata_defaults_unused
    (safe_load : string → outcome yaml) (fs_exists : path → bool)
    (read_text : path → outcome string) (file_path : path)
    (repo_config : RepoConfig) (s : Skill) :
  parse_from_file safe_load fs_exists read_text file_path repo_config
  = Returns (Some s) →
  ∃ meta,
    _parse_metadata safe_load (read_text file_path) = Returns meta
    ∧ meta !! "name" = Some (skill_name s)
    ∧ meta !! "description" = Some (skill_description s)
    ∧ meta !! "category" = Some (skill_category s)
    ∧ meta !! "tags" = Some (skill_tags s).
Proof.
  intros H.
  apply parse_from_file_Some in H as (_ & _ & meta & Hmeta & ->).
  exists meta. split; [done|]. simpl.
  assert (∀ k, is_Some (default_meta !! k) → is_Some (meta !! k)) as Hkeys.
  { intros k Hk. unfold _parse_metadata in Hmeta.
    destruct (read_text file_path); injection Hmeta as <-; [|done].
    by apply extract_keeps_keys. }
  unfold get_or.
  destruct (Hkeys "name") as [? ->]; [by eexists|].
  destruct (Hkeys "description") as [? ->]; [by eexists|].
  destruct (Hkeys "category") as [? ->]; [by eexists|].
  destruct (Hkeys "tags") as [? ->]; [by eexists|].
  done.
Qed.

Lemma X27_metadata_defaults_unused_witness :
  ∃ s (meta : gmap string yaml),
    demo_parse "/tmp/t/repo/tools/lint/SKILL.md" = Returns (Some s)
    ∧ meta !! "name" = Some (skill_name s).
Proof.
  assert (∃ s, demo_parse "/tmp/t/repo/tools/lint/SKILL.md"
               = Returns (Some s)) as [s Hs].
  { eexists. vm_compute. reflexivity. }
  destruct (X27_metadata_defaults_unused MiniYaml.safe_load
              (MemFS.exists_ demo_files) (MemFS.read_text demo_files)
              (of_string "/tmp/t/repo/tools/lint/SKILL.md") demo_config s Hs)
    as (meta & _ & Hname & _).
  exists s, meta. exact (conj Hs Hname).
Defined.

Lemma description_lines_no_match name lines :
  (∀ l, l ∈ lines →
        startswith "# " (strip l) && eq_str name (strip (drop 2 (strip l)))
        = false) →
  description_lines name false lines = [].
Proof.
  induction lines as [|l r IH]; intros H; [done|].
  cbn [description_lines].
  assert (startswith "# " (strip l) && truthy name
          && eq_str name (strip (drop 2 (strip l))) = false) as ->.
  { rewrite <- andb_assoc, (andb_comm (truthy name)), andb_assoc.
    by rewrite (H l), andb_false_l by apply list_elem_of_here. }
  rewrite !andb_false_r. simpl.
  apply IH. intros l' Hl'. apply H. by apply list_elem_of_further.
Qed.

(** X28: the description scan of [_parse_metadata] collects the text
    below the level-1 header whose text equals the name.  When the
    frontmatter gives a name and no description, and no level-1 header of
    the remaining text reads exactly that name, the description stays the
    empty string, whatever the body holds. *)
Theorem X28_description_needs_matching_header
    (safe_load : string → outcome yaml) (content fm rest : string)
    (m : gmap string yaml) (n : string) :
  frontmatter_of content = Some (fm, rest) →
  load_frontmatter safe_load fm = Returns (YMap m) →
  m !! "name" = Some (YStr n) → n ≠ "" →
  m !! "description" = None →
  (∀ l, l ∈ split nl rest →
        startswith "# " (strip l) = true → strip (drop 2 (strip l)) ≠ n) →
  extract safe_load content !! "name" = Some (YStr n)
  ∧ extract safe_load content !! "description" = Some (YStr "").
Proof.
  intros Hfm Hload Hname Hne Hdesc Hheaders. unfold extract.
  rewrite (read_frontmatter_merged safe_load _ _ _ _ _ Hfm Hload
             (truthy_map_lookup _ _ _ Hname)).
  assert ((m ∪ default_meta) !! "name" = Some (YStr n)) as Hn.
  { by apply lookup_union_Some_l. }
  assert ((m ∪ default_meta) !! "description" = Some (YStr "")) as Hd.
  { by rewrite lookup_union_r. }
  rewrite (heuristic_name_set _ _ (YStr n)); [|done|by destruct n].
  split; [by rewrite heuristic_description_other|].
  rewrite heuristic_description_default by done.
  unfold get. rewrite Hn. simpl.
  rewrite description_lines_no_match; [done|].
  intros l Hl. destruct (startswith "# " (strip l)) eqn:E; [|done].
  simpl. apply String.eqb_neq. intros Heq. by apply (Hheaders l Hl E).
Qed.

Lemma X28_description_needs_matching_header_witness :
  extract MiniYaml.safe_load full_frontmatter_text !! "name"
  = Some (YStr "Alpha")
  ∧ extract MiniYaml.safe_load
      (text_of ["---"; "name: Alpha"; "---"; "# Some Title"; "Body text."])
      !! "description" = Some (YStr "").
Proof.
  split; [vm_compute; reflexivity|].
  apply (X28_description_needs_matching_header MiniYaml.safe_load
           (text_of ["---"; "name: Alpha"; "---"; "# Some Title"; "Body text."])
           (text_of [""; "name: Alpha"; ""])
           (text_of [""; "# Some Title"; "Body text."])
           {[ "name" := YStr "Alpha" ]} "Alpha").
  - vm_compute; reflexivity.
  - vm_compute; reflexivity.
  - reflexivity.
  - done.
  - reflexivity.
  - intros l Hl. vm_compute in Hl.
    repeat (apply elem_of_cons in Hl as [->|Hl];
            [vm_compute; try discriminate|]).
    by apply elem_of_nil in Hl.
Defined.
